(** * metalearners: the MetaLearner base class and the variant factory

    A shallow embedding of [metalearners/metalearner.py] and
    [metalearners/utils.py], and the properties of their configuration
    wiring: normalisation of per-kind arguments, the propensity channel,
    the constructor's checks, the allocation of cross-fitting estimators,
    the validation hooks and the frame of [fit_nuisance]/[fit_treatment].

    Python objects that have an identity (dicts, meta-learner instances)
    live in a heap and are denoted by references, so that "the same dict"
    and "a new dict" are different statements. *)

From stdpp Require Import gmap strings list fin_maps sorting pretty.

Set Warnings "-clear-no-such-hyp".

(** ** Python values, exceptions and the heap *)

Abbreviation loc := positive.

(** The values that reach the constructor's arguments: [None], booleans,
    integers, strings, a collection of column names (a feature set), a class
    object (an estimator factory) and a reference to a heap object. *)
Inductive value :=
| VNone
| VBool (b : bool)
| VInt (n : Z)
| VStr (s : string)
| VTuple (xs : list string)
| VType (name : string)
| VRef (l : loc).

#[export] Instance value_eq_dec : EqDecision value.
Proof. solve_decision. Defined.

Inductive exn :=
| ValueError (msg : string)
| NotImplementedError (msg : string)
| KeyError (key : string)
| IndexError
| TypeError
| AttributeError (attr : string).

Inductive result (A : Type) :=
| Ok (a : A)
| Raise (e : exn).
Arguments Ok {A} a.
Arguments Raise {A} e.

(** [ValueError] is what the spec calls a configuration or validation
    error, [NotImplementedError] what it calls a not-supported error. *)
Definition is_ValueError {A} (r : result A) : Prop :=
  match r with Raise (ValueError _) => True | _ => False end.

Definition is_NotImplementedError {A} (r : result A) : Prop :=
  match r with Raise (NotImplementedError _) => True | _ => False end.

#[export] Instance result_ret : MRet result := λ A a, Ok a.
#[export] Instance result_bind : MBind result := λ A B k r,
  match r with Ok a => k a | Raise e => Raise e end.

(** [PROPENSITY_MODEL = "propensity_model"] *)
Definition PROPENSITY_MODEL : string := "propensity_model".

(** A vector of integer labels (treatment assignments, class labels). *)
Definition Vector := list Z.

(** ** The cross-fitting estimator, as the meta-learner sees it *)

Module CrossFitEstimator.
(** Modelled from the spec: [metalearners/cross_fit_estimator.py] is not
    part of the sources. An estimator is constructed with
    [(n_folds, estimator_factory, estimator_params, random_state)] and
    starts untrained; what it has learnt is [trained], of a type the
    meta-learner never looks into. *)
Record t {T : Type} := Build {
  n_folds : value;
  estimator_factory : value;
  estimator_params : value;
  random_state : value;
  trained : T
}.
Arguments t T : clear implicits.
Arguments Build {T} _ _ _ _ _.
End CrossFitEstimator.

Abbreviation CFE := CrossFitEstimator.t.

(** Modelled from the spec: [PredictMethod], the two prediction modes of a
    cross-fitting estimator (declared in [cross_fit_estimator.py]). *)
Inductive PredictMethod := predict | predict_proba.

(** What the module imports and never defines: the input matrix and its
    indexing [X[features]], the arrays of predictions, the estimator's
    methods and [validate_number_positive]. A method of an estimator may
    change the estimator and may raise: it returns the estimator as it is
    after the call together with the call's outcome. *)
Class Collaborators := {
  Matrix : Type;
  ndarray : Type;
  Trained : Type;
  untrained : Trained;
  getitem : Matrix → value → result Matrix;
  validate_number_positive : value → string → result unit;
  cfe_fit : CFE Trained → Matrix → Vector → value → CFE Trained * result unit;
  cfe_predict : CFE Trained → Matrix → bool → value → CFE Trained * result ndarray;
  cfe_predict_proba : CFE Trained → Matrix → bool → value → CFE Trained * result ndarray
}.

(** The arguments of [MetaLearner.__init__], under the parameters' names. *)
Module Args.
Record t := Build {
  nuisance_model_factory : value;
  is_classification : bool;
  n_variants : value;
  treatment_model_factory : value;
  propensity_model_factory : value;
  nuisance_model_params : value;
  treatment_model_params : value;
  propensity_model_params : value;
  feature_set : value;
  n_folds : value;
  random_state : value
}.
End Args.

Section MetaLearner.
Context `{Collaborators}.

(** The state of a [MetaLearner] instance: one field per attribute that
    [__init__] assigns, in the order of assignment. The two model
    dictionaries are assigned last; until then the attribute does not
    exist ([None] here). *)
Record MetaLearner := {
  is_classification : bool;
  n_variants : value;
  nuisance_model_factory : value;
  nuisance_model_params : value;
  treatment_model_factory : value;
  treatment_model_params : value;
  n_folds : value;
  random_state : value;
  feature_set : value;
  _nuisance_models : option (gmap string (list (CFE Trained)));
  _treatment_models : option (gmap string (list (CFE Trained)))
}.

Inductive object :=
| ODict (d : gmap string value)
| OLearner (m : MetaLearner).

Abbreviation heap := (gmap loc object).

(** ** Computations on the heap that may raise *)

Definition M (A : Type) : Type := heap → result A * heap.

#[export] Instance M_ret : MRet M := λ A a h, (Ok a, h).
#[export] Instance M_bind : MBind M := λ A B k m h,
  match m h with
  | (Ok a, h') => k a h'
  | (Raise e, h') => (Raise e, h')
  end.

Definition raise {A} (e : exn) : M A := λ h, (Raise e, h).

(** A computation that only reads the heap. *)
Definition reading {A} (f : heap → result A) : M A := λ h, (f h, h).

(** A new object at an address that no object has. *)
Definition alloc (o : object) : M value := λ h,
  let l := fresh (dom h) in (Ok (VRef l), <[l := o]> h).

(** [isinstance(v, dict)], with the dict's contents. *)
Definition as_dict (h : heap) (v : value) : option (gmap string value) :=
  match v with
  | VRef l => match h !! l with Some (ODict d) => Some d | _ => None end
  | _ => None
  end.

(** [d[k]] on a dict *)
Definition dict_getitem (h : heap) (v : value) (k : string) : result value :=
  match as_dict h v with
  | Some d => match d !! k with Some x => Ok x | None => Raise (KeyError k) end
  | None => Raise TypeError
  end.

(** [d | other]: a new dict, [other]'s entries winning. *)
Definition dict_or (v : value) (other : gmap string value) : M value := λ h,
  match as_dict h v with
  | Some d => alloc (ODict (other ∪ d)) h
  | None => (Raise TypeError, h)
  end.

(** [{name: f(name) for name in names}] *)
Definition dict_comprehension {A} (f : string → A) (names : list string)
  : gmap string A :=
  foldl (λ d name, <[name := f name]> d) ∅ names.

(** ** The two helpers *)

(** [[
def _initialize_model_dict(argument, expected_names: Collection[str]) -> dict:
    if isinstance(argument, dict) and set(argument.keys()) == set(expected_names):
        return argument
    return {name: argument for name in expected_names}
]] *)
Definition _initialize_model_dict (argument : value)
  (expected_names : list string) : M value := λ h,
  match as_dict h argument with
  | Some d =>
      if decide (dom d = list_to_set expected_names)
      then (Ok argument, h)
      else alloc (ODict (dict_comprehension (λ _, argument) expected_names)) h
  | None => alloc (ODict (dict_comprehension (λ _, argument) expected_names)) h
  end.

(** [[
def _combine_propensity_and_nuisance_specs(
    propensity_specs, nuisance_specs, nuisance_model_names: set[str]
) -> dict:
    if PROPENSITY_MODEL in nuisance_model_names:
        non_propensity_nuisance_model_names = nuisance_model_names - {PROPENSITY_MODEL}
        non_propensity_model_dict = _initialize_model_dict(
            nuisance_specs, non_propensity_nuisance_model_names
        )
        return non_propensity_model_dict | {PROPENSITY_MODEL: propensity_specs}
    return _initialize_model_dict(nuisance_specs, nuisance_model_names)
]] *)
Definition _combine_propensity_and_nuisance_specs
  (propensity_specs nuisance_specs : value)
  (nuisance_model_names : gset string) : M value :=
  if decide (PROPENSITY_MODEL ∈ nuisance_model_names) then
    let non_propensity_nuisance_model_names :=
      nuisance_model_names ∖ {[PROPENSITY_MODEL]} in
    non_propensity_model_dict ←
      _initialize_model_dict nuisance_specs
        (elements non_propensity_nuisance_model_names);
    dict_or non_propensity_model_dict {[PROPENSITY_MODEL := propensity_specs]}
  else
    _initialize_model_dict nuisance_specs (elements nuisance_model_names).

(** ** What a concrete variant declares *)

(** [_ModelSpecifications]: both entries are functions of the instance. *)
Record _ModelSpecifications := {
  cardinality : MetaLearner → Z;
  predict_method : MetaLearner → PredictMethod
}.

(** The abstract methods and the overridable hook of [MetaLearner], as a
    concrete subclass [cls] fills them in. The two hooks that receive the
    instance may read the heap. [_validate_params] does nothing unless a
    variant overrides it. *)
Record MetaLearnerClass := {
  __name__ : string;
  nuisance_model_specifications : gmap string _ModelSpecifications;
  treatment_model_specifications : gmap string _ModelSpecifications;
  _validate_params : heap → Args.t → result unit;
  _supports_multi_treatment : bool;
  _supports_multi_class : bool;
  _validate_models : heap → MetaLearner → result unit
}.

(** ** numpy and Python primitives the checks use *)

(** [np.unique]: the distinct values, in increasing order. *)
Definition np_unique (w : Vector) : list Z := merge_sort Z.le (remove_dups w).

(** [len(l)], a Python int *)
Definition len {A} (l : list A) : Z := Z.of_nat (length l).

(** An [int] instance ([bool] is a subclass of [int]) and its number. *)
Definition as_int (v : value) : option Z :=
  match v with
  | VInt n => Some n
  | VBool b => Some (if b then 1 else 0)%Z
  | _ => None
  end.

(** [k != v] for an int [k]: a value that is not a number differs from it. *)
Definition int_ne (k : Z) (v : value) : bool :=
  match as_int v with Some n => bool_decide (k ≠ n) | None => true end.

(** [range(v)], a [TypeError] unless [v] is an int. *)
Definition range (v : value) : result (list Z) :=
  match as_int v with Some n => Ok (seqZ 0 n) | None => Raise TypeError end.

(** The truth value of [v] in a condition. *)
Definition truthy (h : heap) (v : value) : bool :=
  match v with
  | VNone => false
  | VBool b => b
  | VInt n => bool_decide (n ≠ 0%Z)
  | VStr s => bool_decide (s ≠ "")
  | VTuple xs => bool_decide (xs ≠ [])
  | VType _ => true
  | VRef l => match h !! l with Some (ODict d) => bool_decide (d ≠ ∅) | _ => true end
  end.

(** [isinstance(v, dict) and k in v.keys()] *)
Definition dict_has_key (h : heap) (v : value) (k : string) : bool :=
  match as_dict h v with Some d => bool_decide (k ∈ dom d) | None => false end.

(** How Python prints a set of integers. *)
Definition repr_set (xs : list Z) : string :=
  match xs with
  | [] => "set()"
  | x :: xs => "{" +:+ foldl (λ s y, s +:+ ", " +:+ pretty y) (pretty x) xs +:+ "}"
  end.

(** [l[i]]: the position that index [i] denotes, counting from the end
    when [i] is negative; [None] where Python raises [IndexError]. *)
Definition list_index {A} (l : list A) (i : Z) : option nat :=
  let n := Z.of_nat (length l) in
  if bool_decide (0 ≤ i < n)%Z then Some (Z.to_nat i)
  else if bool_decide (- n ≤ i < 0)%Z then Some (Z.to_nat (n + i))
  else None.

(** [[body for _ in range(n)]] *)
Definition list_comprehension {A} (body : result A) (n : Z) : result (list A) :=
  mapM (λ _, body) (seqZ 0 n).

(** [{name: body(name) for name in names}] where [body] may raise. *)
Fixpoint dict_comprehension_r {A} (body : string → result A)
  (names : list string) (acc : gmap string A) : result (gmap string A) :=
  match names with
  | [] => Ok acc
  | name :: names =>
      x ← body name; dict_comprehension_r body names (<[name := x]> acc)
  end.

Section Class.
Variable cls : MetaLearnerClass.

(** ** The checks *)

Definition n_variants_msg : string :=
  "n_variants needs to be an integer strictly greater than 1.".

(** [[
    def _check_n_variants(cls, n_variants: int) -> None:
        if not isinstance(n_variants, int) or n_variants < 2:
            raise ValueError(...)
        if n_variants > 2 and not cls._supports_multi_treatment():
            raise NotImplementedError(...)
]] *)
Definition _check_n_variants (n_variants : value) : result unit :=
  match as_int n_variants with
  | None => Raise (ValueError n_variants_msg)
  | Some n =>
      if bool_decide (n < 2)%Z then Raise (ValueError n_variants_msg)
      else if bool_decide (n > 2)%Z && negb (_supports_multi_treatment cls) then
        Raise (NotImplementedError
          ("Current implementation of " +:+ __name__ cls +:+
           " only supports binary treatment variants. Yet, n_variants was set to "
           +:+ pretty n +:+ "."))
      else Ok ()
  end.

(** [[
    def _check_treatment(self, w: Vector) -> None:
        if len(np.unique(w)) != self.n_variants:
            raise ValueError(...)
        if set(np.unique(w)) != set(range(self.n_variants)):
            raise ValueError(...)
]] *)
Definition _check_treatment (self : MetaLearner) (w : Vector) : result unit :=
  if int_ne (len (np_unique w)) (n_variants self) then
    Raise (ValueError
      ("Number of variants present in the treatment are different than the "
       +:+ "number specified at instantiation."))
  else
    variants ← range (n_variants self);
    if bool_decide
         (list_to_set (np_unique w) ≠@{gset Z} list_to_set variants)
    then
      Raise (ValueError
        ("Treatment variant should be encoded with values {0..." +:+
         pretty (default 0%Z (as_int (n_variants self)) - 1)%Z +:+
         "} and all variants should be present. Yet we found the values "
         +:+ repr_set (np_unique w) +:+ "."))
    else Ok ().

(** [[
    def _check_outcome(self, y: Vector) -> None:
        if (
            self.is_classification
            and not self._supports_multi_class()
            and len(np.unique(y)) > 2
        ):
            raise ValueError(...)
]] *)
Definition _check_outcome (self : MetaLearner) (y : Vector) : result unit :=
  if is_classification self
     && negb (_supports_multi_class cls)
     && bool_decide (len (np_unique y) > 2)%Z
  then
    Raise (ValueError
      (__name__ cls +:+ " does not support multiclass classification."
       +:+ " Yet we found " +:+ pretty (len (np_unique y)) +:+ " classes."))
  else Ok ().

(** ** Construction *)

Definition raise_if (b : bool) (e : exn) : M unit :=
  if b then raise e else mret ().

(** [if x is None: x = {}] *)
Definition or_empty_dict (x : value) : M value :=
  match x with
  | VNone => alloc (ODict ∅)
  | _ => mret x
  end.

(** [specs[name]] on a registry *)
Definition registry_getitem (specs : gmap string _ModelSpecifications)
  (name : string) : result _ModelSpecifications :=
  match specs !! name with Some s => Ok s | None => Raise (KeyError name) end.

(** [[
            name: [
                CrossFitEstimator(
                    n_folds=self.n_folds,
                    estimator_factory=self.nuisance_model_factory[name],
                    estimator_params=self.nuisance_model_params[name],
                    random_state=self.random_state,
                )
                for _ in range(nuisance_model_specifications[name]["cardinality"](self))
            ]
]] for one [name]; [factory] and [params] are the instance's normalised
    dicts of the family at hand. *)
Definition allocate_estimators (h : heap) (self : MetaLearner)
  (specs : gmap string _ModelSpecifications) (factory params : value)
  (name : string) : result (list (CFE Trained)) :=
  spec ← registry_getitem specs name;
  list_comprehension
    (estimator_factory ← dict_getitem h factory name;
     estimator_params ← dict_getitem h params name;
     Ok (CrossFitEstimator.Build (n_folds self) estimator_factory
           estimator_params (random_state self) untrained))
    (cardinality spec self).

(** The instance once the configuration is assigned (lines 194-235), before
    the model dictionaries are. *)
Definition configured (a : Args.t) (nuisance_model_factory nuisance_model_params
  treatment_model_factory treatment_model_params feature_set : value)
  : MetaLearner :=
  {| is_classification := Args.is_classification a;
     n_variants := Args.n_variants a;
     nuisance_model_factory := nuisance_model_factory;
     nuisance_model_params := nuisance_model_params;
     treatment_model_factory := treatment_model_factory;
     treatment_model_params := treatment_model_params;
     n_folds := Args.n_folds a;
     random_state := Args.random_state a;
     feature_set := feature_set;
     _nuisance_models := None;
     _treatment_models := None |}.

Inductive family := Nuisance | Treatment.

#[export] Instance family_eq_dec : EqDecision family.
Proof. solve_decision. Defined.

Definition models (f : family) (self : MetaLearner) :=
  match f with
  | Nuisance => _nuisance_models self
  | Treatment => _treatment_models self
  end.

(** [self._nuisance_models = ms], [self._treatment_models = ms] *)
Definition set_models (f : family) (self : MetaLearner)
  (ms : gmap string (list (CFE Trained))) : MetaLearner :=
  {| is_classification := is_classification self;
     n_variants := n_variants self;
     nuisance_model_factory := nuisance_model_factory self;
     nuisance_model_params := nuisance_model_params self;
     treatment_model_factory := treatment_model_factory self;
     treatment_model_params := treatment_model_params self;
     n_folds := n_folds self;
     random_state := random_state self;
     feature_set := feature_set self;
     _nuisance_models :=
       match f with Nuisance => Some ms | Treatment => _nuisance_models self end;
     _treatment_models :=
       match f with Nuisance => _treatment_models self | Treatment => Some ms end
  |}.

(** [MetaLearner.__init__], statement by statement. The result is the
    instance's state when [__init__] returns. *)
Definition __init__ (a : Args.t) : M MetaLearner :=
  reading (λ h, _validate_params cls h a);;
  let nuisance_model_specifications := nuisance_model_specifications cls in
  let treatment_model_specifications := treatment_model_specifications cls in
  raise_if (bool_decide (PROPENSITY_MODEL ∈ dom treatment_model_specifications))
    (ValueError (PROPENSITY_MODEL +:+ " can't be used as a treatment model name"));;
  in_factory ← reading (λ h,
    Ok (dict_has_key h (Args.nuisance_model_factory a) PROPENSITY_MODEL));
  raise_if in_factory
    (ValueError
       ("Propensity model factory should be defined using propensity_model_factory "
        +:+ "and not nuisance_model_factory."));;
  in_params ← reading (λ h,
    Ok (dict_has_key h (Args.nuisance_model_params a) PROPENSITY_MODEL));
  raise_if in_params
    (ValueError
       ("Propensity model params should be defined using propensity_model_params "
        +:+ "and not nuisance_model_params."));;
  raise_if
    (bool_decide (PROPENSITY_MODEL ∈ dom nuisance_model_specifications)
     && match Args.propensity_model_factory a with VNone => true | _ => false end)
    (ValueError
       ("propensity_model_factory needs to be defined as the " +:+ __name__ cls
        +:+ " has a propensity model."));;
  reading (λ _, _check_n_variants (Args.n_variants a));;
  nuisance_model_factory ←
    _combine_propensity_and_nuisance_specs
      (Args.propensity_model_factory a) (Args.nuisance_model_factory a)
      (dom nuisance_model_specifications);
  nuisance_model_params ← or_empty_dict (Args.nuisance_model_params a);
  propensity_model_params ← or_empty_dict (Args.propensity_model_params a);
  nuisance_model_params ←
    _combine_propensity_and_nuisance_specs
      propensity_model_params nuisance_model_params
      (dom nuisance_model_specifications);
  treatment_model_factory ←
    _initialize_model_dict (Args.treatment_model_factory a)
      (elements (dom treatment_model_specifications));
  treatment_model_params ←
    match Args.treatment_model_params a with
    | VNone =>
        empty ← alloc (ODict ∅);
        _initialize_model_dict empty
          (elements (dom treatment_model_specifications))
    | _ =>
        _initialize_model_dict (Args.treatment_model_params a)
          (elements (dom treatment_model_specifications))
    end;
  reading (λ _, validate_number_positive (Args.n_folds a) "n_folds");;
  feature_set ←
    match Args.feature_set a with
    | VNone => mret VNone
    | _ =>
        _initialize_model_dict (Args.feature_set a)
          (elements (dom nuisance_model_specifications
                     ∪ dom treatment_model_specifications))
    end;
  let self :=
    configured a nuisance_model_factory nuisance_model_params
      treatment_model_factory treatment_model_params feature_set in
  nuisance_models ← reading (λ h,
    dict_comprehension_r
      (allocate_estimators h self nuisance_model_specifications
         nuisance_model_factory nuisance_model_params)
      (elements (dom nuisance_model_specifications)) ∅);
  let self := set_models Nuisance self nuisance_models in
  treatment_models ← reading (λ h,
    dict_comprehension_r
      (allocate_estimators h self treatment_model_specifications
         treatment_model_factory treatment_model_params)
      (elements (dom treatment_model_specifications)) ∅);
  let self := set_models Treatment self treatment_models in
  reading (λ h, _validate_models cls h self);;
  mret self.

(** The call [cls(...)]: the instance becomes an object of the heap when
    [__init__] has returned; when [__init__] raises there is no instance. *)
Definition new (a : Args.t) : M value :=
  self ← __init__ a; alloc (OLearner self).

(** ** Fitting and predicting through the instance *)

Definition the_learner (self : loc) : M MetaLearner :=
  reading (λ h,
    match h !! self with
    | Some (OLearner m) => Ok m
    | _ => Raise TypeError
    end).

(** [X[self.feature_set[model_kind]] if self.feature_set else X] *)
Definition X_filtered (self : loc) (X : Matrix) (model_kind : string) : M Matrix :=
  m ← the_learner self;
  reading (λ h,
    if truthy h (feature_set m) then
      features ← dict_getitem h (feature_set m) model_kind;
      getitem X features
    else Ok X).

(** [self._nuisance_models[model_kind][model_ord].method(...)] (or
    [_treatment_models]): the estimator is looked up, the method runs on it,
    and the estimator is afterwards what the method left. *)
Definition on_estimator {A} (f : family) (self : loc) (model_kind : string)
  (model_ord : Z) (method : CFE Trained → CFE Trained * result A) : M A := λ h,
  match h !! self with
  | Some (OLearner m) =>
      match models f m with
      | None =>
          (Raise (AttributeError
                    match f with
                    | Nuisance => "_nuisance_models"
                    | Treatment => "_treatment_models"
                    end), h)
      | Some ms =>
          match ms !! model_kind with
          | None => (Raise (KeyError model_kind), h)
          | Some l =>
              match i ← list_index l model_ord; e ← l !! i; Some (i, e) with
              | None => (Raise IndexError, h)
              | Some (i, e) =>
                  let (e', r) := method e in
                  (r, <[self :=
                          OLearner (set_models f m (<[model_kind := <[i := e']> l]> ms))]> h)
              end
          end
      end
  | _ => (Raise TypeError, h)
  end.

Definition fit_nuisance (self : loc) (X : Matrix) (y : Vector)
  (model_kind : string) (model_ord : Z) (fit_params : value) : M value :=
  X_filtered ← X_filtered self X model_kind;
  on_estimator Nuisance self model_kind model_ord
    (λ e, cfe_fit e X_filtered y fit_params);;
  mret (VRef self).

Definition fit_treatment (self : loc) (X : Matrix) (y : Vector)
  (model_kind : string) (model_ord : Z) (fit_params : value) : M value :=
  X_filtered ← X_filtered self X model_kind;
  on_estimator Treatment self model_kind model_ord
    (λ e, cfe_fit e X_filtered y fit_params);;
  mret (VRef self).

Definition predict_nuisance (self : loc) (X : Matrix) (model_kind : string)
  (model_ord : Z) (is_oos : bool) (oos_method : value) : M ndarray :=
  X_filtered ← X_filtered self X model_kind;
  m ← the_learner self;
  spec ← reading (λ _,
    registry_getitem (nuisance_model_specifications cls) model_kind);
  let predict_method_name := predict_method spec m in
  on_estimator Nuisance self model_kind model_ord
    (λ e, match predict_method_name with
          | predict => cfe_predict e X_filtered is_oos oos_method
          | predict_proba => cfe_predict_proba e X_filtered is_oos oos_method
          end).

Definition predict_treatment (self : loc) (X : Matrix) (model_kind : string)
  (model_ord : Z) (is_oos : bool) (oos_method : value) : M ndarray :=
  X_filtered ← X_filtered self X model_kind;
  on_estimator Treatment self model_kind model_ord
    (λ e, cfe_predict e X_filtered is_oos oos_method).

End Class.
End MetaLearner.

Arguments MetaLearnerClass {_}.
Arguments _ModelSpecifications {_}.
Arguments MetaLearner {_}.
Abbreviation heap := (gmap loc object).

(** ** The variant factory ([metalearners/utils.py]) *)

(** Modelled from the spec: the five variant classes, which [utils.py]
    imports from five modules that are not part of the sources. *)
Inductive learner := TLearner | SLearner | XLearner | RLearner | DRLearner.

(** [[
def metalearner_factory(metalearner_prefix: str) -> type[MetaLearner]:
    match metalearner_prefix:
        case "T": return TLearner
        case "S": return SLearner
        case "X": return XLearner
        case "R": return RLearner
        case "DR": return DRLearner
        case _: raise ValueError(...)
]] *)
Definition metalearner_factory (metalearner_prefix : string) : result learner :=
  match metalearner_prefix with
  | "T" => Ok TLearner
  | "S" => Ok SLearner
  | "X" => Ok XLearner
  | "R" => Ok RLearner
  | "DR" => Ok DRLearner
  | _ =>
      Raise (ValueError
        ("No MetaLearner implementation found for prefix "
         +:+ metalearner_prefix +:+ "."))
  end.

(** ** The result tensors of the nuisance models ([_nuisance_tensors]) *)

Section Tensors.
Context `{Collaborators}.

(** [CrossFitEstimator._n_outputs(method)], of a module that is not part of
    the sources: the number of columns that the estimator's [method]
    yields. *)
Variable _n_outputs : CFE Trained → PredictMethod → Z.
Variable cls : MetaLearnerClass.

(** [np.zeros(shape)]: an array of zeros is given by its shape; a negative
    dimension is refused. *)
Definition np_zeros (shape : list Z) : result (list Z) :=
  if bool_decide (Forall (λ n, 0 ≤ n)%Z shape) then Ok shape
  else Raise (ValueError "negative dimensions are not allowed").

(** [[
def dimension(n_obs, model_kind, model_ord, predict_method):
    if (
        n_outputs := self._nuisance_models[model_kind][model_ord]._n_outputs(
            predict_method
        )
    ) > 1:
        return (n_obs, n_outputs)
    return (n_obs,)
]] *)
Definition dimension (self : MetaLearner) (n_obs : Z) (model_kind : string)
  (model_ord : Z) (predict_method : PredictMethod) : result (list Z) :=
  match _nuisance_models self with
  | None => Raise (AttributeError "_nuisance_models")
  | Some ms =>
      match ms !! model_kind with
      | None => Raise (KeyError model_kind)
      | Some l =>
          match list_index l model_ord ≫= λ i, l !! i with
          | None => Raise IndexError
          | Some e =>
              let n_outputs := _n_outputs e predict_method in
              if bool_decide (n_outputs > 1)%Z then Ok [n_obs; n_outputs]
              else Ok [n_obs]
          end
      end
  end.

(** The inner loop: one tensor for each ordinal of
    [range(model_specifications["cardinality"](self))], in order. *)
Definition tensors_of_kind (self : MetaLearner) (n_obs : Z) (model_kind : string)
  (model_specifications : _ModelSpecifications) : result (list (list Z)) :=
  mapM
    (λ model_ord,
       shape ← dimension self n_obs model_kind model_ord
                 (predict_method model_specifications self);
       np_zeros shape)
    (seqZ 0 (cardinality model_specifications self)).

(** The outer loop over the items of the nuisance registry. *)
Fixpoint fill_tensors (self : MetaLearner) (n_obs : Z)
  (items : list (string * _ModelSpecifications))
  (nuisance_tensors : gmap string (list (list Z)))
  : result (gmap string (list (list Z))) :=
  match items with
  | [] => Ok nuisance_tensors
  | (model_kind, model_specifications) :: items =>
      tensors ← tensors_of_kind self n_obs model_kind model_specifications;
      fill_tensors self n_obs items (<[model_kind := tensors]> nuisance_tensors)
  end.

(** [[
def _nuisance_tensors(self, n_obs: int) -> dict[str, list[np.ndarray]]:
    nuisance_tensors: dict[str, list[np.ndarray]] = {}
    for (
        model_kind,
        model_specifications,
    ) in self.nuisance_model_specifications().items():
        nuisance_tensors[model_kind] = []
        for model_ord in range(model_specifications["cardinality"](self)):
            nuisance_tensors[model_kind].append(
                np.zeros(
                    dimension(
                        n_obs,
                        model_kind,
                        model_ord,
                        model_specifications["predict_method"](self),
                    )
                )
            )
    return nuisance_tensors
]] *)
Definition _nuisance_tensors (self : MetaLearner) (n_obs : Z)
  : result (gmap string (list (list Z))) :=
  fill_tensors self n_obs (map_to_list (nuisance_model_specifications cls)) ∅.

End Tensors.

(** * What the properties are stated with *)

Section Specification.
Context `{Collaborators}.
Implicit Types (h : heap) (v argument : value) (names : list string).
Variable cls : MetaLearnerClass.

(** [argument] is a dict whose key set is [keys]. *)
Definition has_keys h argument (keys : gset string) : Prop :=
  ∃ d, as_dict h argument = Some d ∧ dom d = keys.

(** What [_initialize_model_dict argument names] does from heap [h]: it
    returns a reference [v] to a dict [d] of heap [h'] whose keys are
    [names]; [v] is [argument] itself and nothing is allocated when
    [argument] already is a dict with these keys, and otherwise [d] is a new
    object that maps every name to [argument]. *)
Definition normalised h argument names v h' : Prop :=
  ∃ l d,
    v = VRef l ∧ h' !! l = Some (ODict d) ∧ dom d = list_to_set names
    ∧ (has_keys h argument (list_to_set names) → v = argument ∧ h' = h)
    ∧ (¬ has_keys h argument (list_to_set names) →
       h !! l = None ∧ h' = <[l := ODict d]> h
       ∧ ∀ name, name ∈ names → d !! name = Some argument).

(** The labels of [w] are exactly [0, ..., n-1]. *)
Definition encodes_variants (w : Vector) (n : Z) : Prop :=
  ∀ x, x ∈ w ↔ (0 ≤ x < n)%Z.

Definition codes : list string := ["S"; "T"; "X"; "R"; "DR"].

(** The code that names a class. *)
Definition code_of (c : learner) : string :=
  match c with
  | SLearner => "S"
  | TLearner => "T"
  | XLearner => "X"
  | RLearner => "R"
  | DRLearner => "DR"
  end.

(** The four ways of configuring the propensity model wrongly. *)
Definition propensity_misconfigured (a : Args.t) h : Prop :=
  PROPENSITY_MODEL ∈ dom (treatment_model_specifications cls)
  ∨ (∃ d, as_dict h (Args.nuisance_model_factory a) = Some d
          ∧ PROPENSITY_MODEL ∈ dom d)
  ∨ (∃ d, as_dict h (Args.nuisance_model_params a) = Some d
          ∧ PROPENSITY_MODEL ∈ dom d)
  ∨ (PROPENSITY_MODEL ∈ dom (nuisance_model_specifications cls)
     ∧ Args.propensity_model_factory a = VNone).

(** [v] denotes in [h'] the dict [d], whose keys are [names]. *)
Definition per_kind h' v (names : gset string) (d : gmap string value) : Prop :=
  as_dict h' v = Some d ∧ dom d = names.

(** When [argument] is a dict whose key set is not [over], [d] maps every
    name of [over] to [argument] itself. *)
Definition broadcasts h argument (over : gset string)
  (d : gmap string value) : Prop :=
  ∀ d0, as_dict h argument = Some d0 → dom d0 ≠ over →
        ∀ k, k ∈ over → d !! k = Some argument.

(** When [argument] is a dict whose key set is [over], [d] has its entries. *)
Definition keeps h argument (over : gset string)
  (d : gmap string value) : Prop :=
  ∀ d0, as_dict h argument = Some d0 → dom d0 = over →
        ∀ k, k ∈ over → d !! k = d0 !! k.

(** The estimators that the comprehension of [__init__] builds for the
    kinds of [specs], when it sees the instance as [self0]. *)
Definition estimators_allocated h' (self0 : MetaLearner)
  (specs : gmap string _ModelSpecifications) (factory params : value)
  (ms : gmap string (list (CFE Trained))) : Prop :=
  dom ms = dom specs
  ∧ ∀ kind spec, specs !! kind = Some spec →
      ∃ fac par,
        dict_getitem h' factory kind = Ok fac
        ∧ dict_getitem h' params kind = Ok par
        ∧ ms !! kind
          = Some (replicate (Z.to_nat (cardinality spec self0))
                    (CrossFitEstimator.Build (n_folds self0) fac par
                       (random_state self0) untrained)).

(** The arguments pass every check that [__init__] makes itself. *)
Definition accepted (a : Args.t) h : Prop :=
  _validate_params cls h a = Ok ()
  ∧ (PROPENSITY_MODEL ∉ dom (treatment_model_specifications cls))
  ∧ dict_has_key h (Args.nuisance_model_factory a) PROPENSITY_MODEL = false
  ∧ dict_has_key h (Args.nuisance_model_params a) PROPENSITY_MODEL = false
  ∧ (PROPENSITY_MODEL ∈ dom (nuisance_model_specifications cls) →
     Args.propensity_model_factory a ≠ VNone)
  ∧ _check_n_variants cls (Args.n_variants a) = Ok ()
  ∧ validate_number_positive (Args.n_folds a) "n_folds" = Ok ().

Abbreviation nuisance_names :=
  (dom (nuisance_model_specifications cls)) (only parsing).
Abbreviation treatment_names :=
  (dom (treatment_model_specifications cls)) (only parsing).

(** The instance [m] and the heap [h'] that [__init__] reaches from the
    arguments [a] and the heap [h]. *)
Record wired (a : Args.t) (h : heap) (m : MetaLearner) (h' : heap) : Prop := {
  wired_heap : h ⊆ h';
  wired_is_classification : is_classification m = Args.is_classification a;
  wired_n_variants : n_variants m = Args.n_variants a;
  wired_n_folds : n_folds m = Args.n_folds a;
  wired_random_state : random_state m = Args.random_state a;
  wired_nuisance_factory :
    ∃ d, per_kind h' (nuisance_model_factory m) nuisance_names d
         ∧ broadcasts h (Args.nuisance_model_factory a)
             (nuisance_names ∖ {[PROPENSITY_MODEL]}) d
         ∧ keeps h (Args.nuisance_model_factory a)
             (nuisance_names ∖ {[PROPENSITY_MODEL]}) d
         ∧ (PROPENSITY_MODEL ∈ nuisance_names →
            d !! PROPENSITY_MODEL = Some (Args.propensity_model_factory a));
  wired_nuisance_params :
    ∃ d, per_kind h' (nuisance_model_params m) nuisance_names d
         ∧ broadcasts h (Args.nuisance_model_params a)
             (nuisance_names ∖ {[PROPENSITY_MODEL]}) d
         ∧ keeps h (Args.nuisance_model_params a)
             (nuisance_names ∖ {[PROPENSITY_MODEL]}) d;
  wired_treatment_factory :
    ∃ d, per_kind h' (treatment_model_factory m) treatment_names d
         ∧ broadcasts h (Args.treatment_model_factory a) treatment_names d
         ∧ keeps h (Args.treatment_model_factory a) treatment_names d;
  wired_treatment_params :
    ∃ d, per_kind h' (treatment_model_params m) treatment_names d
         ∧ broadcasts h (Args.treatment_model_params a) treatment_names d
         ∧ keeps h (Args.treatment_model_params a) treatment_names d;
  wired_feature_set :
    if decide (Args.feature_set a = VNone) then feature_set m = VNone
    else ∃ d, per_kind h' (feature_set m) (nuisance_names ∪ treatment_names) d
              ∧ broadcasts h (Args.feature_set a)
                  (nuisance_names ∪ treatment_names) d
              ∧ keeps h (Args.feature_set a)
                  (nuisance_names ∪ treatment_names) d;
  wired_nuisance_models :
    ∃ ms, _nuisance_models m = Some ms
          ∧ estimators_allocated h'
              (configured a (nuisance_model_factory m) (nuisance_model_params m)
                 (treatment_model_factory m) (treatment_model_params m)
                 (feature_set m))
              (nuisance_model_specifications cls)
              (nuisance_model_factory m) (nuisance_model_params m) ms;
  wired_treatment_models :
    ∃ ms ms', _nuisance_models m = Some ms ∧ _treatment_models m = Some ms'
          ∧ estimators_allocated h'
              (set_models Nuisance
                 (configured a (nuisance_model_factory m) (nuisance_model_params m)
                    (treatment_model_factory m) (treatment_model_params m)
                    (feature_set m)) ms)
              (treatment_model_specifications cls)
              (treatment_model_factory m) (treatment_model_params m) ms'
}.

(** The public operations on an instance after its construction. *)
Inductive call :=
| FitNuisance (X : Matrix) (y : Vector) (model_kind : string) (model_ord : Z)
    (fit_params : value)
| FitTreatment (X : Matrix) (y : Vector) (model_kind : string) (model_ord : Z)
    (fit_params : value)
| PredictNuisance (X : Matrix) (model_kind : string) (model_ord : Z)
    (is_oos : bool) (oos_method : value)
| PredictTreatment (X : Matrix) (model_kind : string) (model_ord : Z)
    (is_oos : bool) (oos_method : value).

(** The heap after a call on [self], whether the call returns or raises. *)
Definition after_call (self : loc) (c : call) (h : heap) : heap :=
  match c with
  | FitNuisance X y k i p => snd (fit_nuisance self X y k i p h)
  | FitTreatment X y k i p => snd (fit_treatment self X y k i p h)
  | PredictNuisance X k i o m => snd (predict_nuisance cls self X k i o m h)
  | PredictTreatment X k i o m => snd (predict_treatment self X k i o m h)
  end.

Definition after_calls (self : loc) (cs : list call) (h : heap) : heap :=
  foldl (λ h c, after_call self c h) h cs.

(** The nine configuration attributes agree. *)
Definition same_configuration (m m' : MetaLearner) : Prop :=
  is_classification m' = is_classification m
  ∧ n_variants m' = n_variants m
  ∧ nuisance_model_factory m' = nuisance_model_factory m
  ∧ nuisance_model_params m' = nuisance_model_params m
  ∧ treatment_model_factory m' = treatment_model_factory m
  ∧ treatment_model_params m' = treatment_model_params m
  ∧ n_folds m' = n_folds m
  ∧ random_state m' = random_state m
  ∧ feature_set m' = feature_set m.

(** The kinds of a model dictionary and the length of each kind's list. *)
Definition shape (ms : option (gmap string (list (CFE Trained))))
  : option (gmap string nat) :=
  fmap (M:=gmap string) length <$> ms.

(** The estimator of ordinal [i] of [kind] in family [f]. *)
Definition estimator (f : family) (m : MetaLearner) (kind : string) (i : nat)
  : option (CFE Trained) :=
  ms ← models f m; l ← ms !! kind; l !! i.

(** [h'] differs from [h] at most in the estimators of the instance [self],
    whose state was [m] in [h]: the same lists of the same lengths, the same
    configuration, every other object untouched. *)
Definition evolves (self : loc) (m : MetaLearner) (h h' : heap) : Prop :=
  ∃ m', h' !! self = Some (OLearner m')
        ∧ same_configuration m m'
        ∧ (∀ f, shape (models f m') = shape (models f m))
        ∧ ∀ l, l ≠ self → h' !! l = h !! l.

Definition estimators_only {A} (self : loc) (c : M A) : Prop :=
  ∀ h m, h !! self = Some (OLearner m) → evolves self m h (snd (c h)).

Definition registry (f : family) : gmap string _ModelSpecifications :=
  match f with
  | Nuisance => nuisance_model_specifications cls
  | Treatment => treatment_model_specifications cls
  end.

Definition factory (f : family) (m : MetaLearner) : value :=
  match f with
  | Nuisance => nuisance_model_factory m
  | Treatment => treatment_model_factory m
  end.

Definition params (f : family) (m : MetaLearner) : value :=
  match f with
  | Nuisance => nuisance_model_params m
  | Treatment => treatment_model_params m
  end.

(** The instance as [cardinality] saw it while [__init__] built the models
    of family [f]: the configuration is assigned, [_nuisance_models] is
    assigned only once the nuisance models are built, [_treatment_models] is
    not. [m] is the instance as [__init__] left it. *)
Definition seen (f : family) (a : Args.t) (m : MetaLearner) : MetaLearner :=
  let self0 :=
    configured a (nuisance_model_factory m) (nuisance_model_params m)
      (treatment_model_factory m) (treatment_model_params m) (feature_set m) in
  match f, _nuisance_models m with
  | Treatment, Some ms => set_models Nuisance self0 ms
  | _, _ => self0
  end.

Definition fit (f : family) :=
  match f with
  | Nuisance => fit_nuisance
  | Treatment => fit_treatment
  end.

(** In heap [h'] the dict [field] maps every name of [names] to
    [argument] itself. *)
Definition receives_whole h' (field : value) (names : gset string)
  argument : Prop :=
  ∀ kind, kind ∈ names → dict_getitem h' field kind = Ok argument.

(** [argument] is a dict whose key set is not [names]. *)
Definition mismatched h argument (names : gset string) : Prop :=
  ∃ d, as_dict h argument = Some d ∧ dom d ≠ names.

End Specification.


(** ** What the further properties are stated with *)

Section Footprint.
Context `{Collaborators}.
Implicit Types (h : heap) (v argument : value) (names : list string).
Variable cls : MetaLearnerClass.

(** [h'] has the objects of [h], as they are in [h], and no meta-learner
    that [h] does not have. *)
Definition grows h h' : Prop :=
  h ⊆ h' ∧ ∀ l m, h' !! l = Some (OLearner m) → h !! l = Some (OLearner m).

(** The computation [c] may allocate dicts; it changes no object and makes
    no meta-learner. *)
Definition dicts_only {A} (c : M A) : Prop := ∀ h, grows h (c h).2.

(** The instance [m] with [e'] as the estimator of ordinal [i] of [kind]. *)
Definition with_estimator (f : family) (m : MetaLearner) (kind : string)
  (i : nat) (e' : CFE Trained) : MetaLearner :=
  match models f m with
  | Some ms => set_models f m (alter (λ l, <[i := e']> l) kind ms)
  | None => m
  end.

(** The shape of the tensor for estimator [e] under mode [pm], given the
    number of columns [_n_outputs] of an estimator's mode. *)
Definition tensor_shape (_n_outputs : CFE Trained → PredictMethod → Z)
  (n_obs : Z) (pm : PredictMethod) (e : CFE Trained) : list Z :=
  if bool_decide (_n_outputs e pm > 1)%Z then [n_obs; _n_outputs e pm]
  else [n_obs].

Abbreviation nuisance_names :=
  (dom (nuisance_model_specifications cls)) (only parsing).
Abbreviation treatment_names :=
  (dom (treatment_model_specifications cls)) (only parsing).

(** The normalisation steps of a successful construction, one heap after
    the other. *)
Definition trace (a : Args.t) (h0 : heap) (self : loc) (m : MetaLearner)
  (h' : heap) : Prop :=
  ∃ h1 h2 h3 h4 h5 h6 h7 nuisance_params propensity_params,
    _combine_propensity_and_nuisance_specs (Args.propensity_model_factory a)
      (Args.nuisance_model_factory a) nuisance_names h0
    = (Ok (nuisance_model_factory m), h1)
    ∧ or_empty_dict (Args.nuisance_model_params a) h1 = (Ok nuisance_params, h2)
    ∧ or_empty_dict (Args.propensity_model_params a) h2
      = (Ok propensity_params, h3)
    ∧ _combine_propensity_and_nuisance_specs propensity_params nuisance_params
        nuisance_names h3
      = (Ok (nuisance_model_params m), h4)
    ∧ _initialize_model_dict (Args.treatment_model_factory a)
        (elements treatment_names) h4
      = (Ok (treatment_model_factory m), h5)
    ∧ match Args.treatment_model_params a with
      | VNone =>
          empty ← alloc (ODict ∅);
          _initialize_model_dict empty (elements treatment_names)
      | _ =>
          _initialize_model_dict (Args.treatment_model_params a)
            (elements treatment_names)
      end h5
      = (Ok (treatment_model_params m), h6)
    ∧ match Args.feature_set a with
      | VNone => mret VNone
      | _ =>
          _initialize_model_dict (Args.feature_set a)
            (elements (nuisance_names ∪ treatment_names))
      end h6
      = (Ok (feature_set m), h7)
    ∧ h0 ⊆ h1 ∧ h1 ⊆ h2 ∧ h2 ⊆ h3 ∧ h3 ⊆ h4 ∧ h4 ⊆ h5 ∧ h5 ⊆ h6 ∧ h6 ⊆ h7
    ∧ h7 !! self = None
    ∧ h' = <[self := OLearner m]> h7.


End Footprint.

(** ** A concrete variant on concrete collaborators *)

Module Demo.

(** A table is known by its column names; an estimator remembers the
    tables it was fitted on, most recent first. *)
#[global] Instance collaborators : Collaborators := {|
  Matrix := list string;
  ndarray := list Z;
  Trained := list (list string);
  untrained := [];
  getitem X features :=
    match features with
    | VTuple cols =>
        if bool_decide (cols ⊆ X) then Ok cols else Raise (KeyError "columns")
    | _ => Raise TypeError
    end;
  validate_number_positive v name :=
    match v with
    | VInt n =>
        if bool_decide (0 < n)%Z then Ok ()
        else Raise (ValueError (name +:+ " was expected to be positive."))
    | _ => Raise TypeError
    end;
  cfe_fit e X y fit_params :=
    (CrossFitEstimator.Build (CrossFitEstimator.n_folds e)
       (CrossFitEstimator.estimator_factory e)
       (CrossFitEstimator.estimator_params e)
       (CrossFitEstimator.random_state e)
       (X :: CrossFitEstimator.trained e), Ok ());
  cfe_predict e X is_oos oos_method := (e, Ok []);
  cfe_predict_proba e X is_oos oos_method := (e, Ok [])
|}.

Definition one_model : _ModelSpecifications :=
  {| cardinality := λ _, 1%Z; predict_method := λ _, predict |}.

Definition one_classifier : _ModelSpecifications :=
  {| cardinality := λ _, 1%Z; predict_method := λ _, predict_proba |}.

Definition model_per_variant : _ModelSpecifications :=
  {| cardinality := λ self, default 0%Z (as_int (n_variants self));
     predict_method :=
       λ self, if is_classification self then predict_proba else predict |}.

(** A doubly robust learner: a propensity model, an outcome model per
    variant, one treatment model. *)
Definition DR : MetaLearnerClass :=
  {| __name__ := "DRLearner";
     nuisance_model_specifications :=
       {[ PROPENSITY_MODEL := one_classifier;
          "variant_outcome_model" := model_per_variant ]};
     treatment_model_specifications := {[ "treatment_model" := one_model ]};
     _validate_params := λ _ _, Ok ();
     _supports_multi_treatment := false;
     _supports_multi_class := false;
     _validate_models := λ _ _, Ok () |}.

Definition args (is_classification : bool)
  (nuisance_model_factory propensity_model_factory treatment_model_params
     feature_set : value) : Args.t :=
  {| Args.nuisance_model_factory := nuisance_model_factory;
     Args.is_classification := is_classification;
     Args.n_variants := VInt 2;
     Args.treatment_model_factory := VType "LinearRegression";
     Args.propensity_model_factory := propensity_model_factory;
     Args.nuisance_model_params := VNone;
     Args.treatment_model_params := treatment_model_params;
     Args.propensity_model_params := VNone;
     Args.feature_set := feature_set;
     Args.n_folds := VInt 10;
     Args.random_state := VNone |}.

(** A heap with one dict, [{"variant_outcome_model": Ridge}], at address 1. *)
Definition heap1 : heap :=
  {[ 1%positive := ODict {[ "variant_outcome_model" := VType "Ridge" ]} ]}.

(** [Ridge] for every nuisance kind, no feature set. *)
Definition plain : Args.t :=
  args false (VType "Ridge") (VType "LogisticRegression") VNone VNone.

(** The dict of [heap1] as [nuisance_model_factory]. *)
Definition by_kind : Args.t :=
  args false (VRef 1) (VType "LogisticRegression") VNone VNone.

(** The dict of [heap1] as [treatment_model_params], columns [a] for
    every kind. *)
Definition stray : Args.t :=
  args false (VType "Ridge") (VType "LogisticRegression") (VRef 1)
    (VTuple ["a"]).

(** No propensity factory. *)
Definition no_propensity : Args.t :=
  args false (VType "Ridge") VNone VNone VNone.

(** An instance in regression and one in classification. *)
Definition regression : MetaLearner :=
  configured plain VNone VNone VNone VNone VNone.

Definition classification : MetaLearner :=
  configured (args true (VType "Ridge") (VType "LogisticRegression") VNone VNone)
    VNone VNone VNone VNone VNone.

(** The heap after the construction from [stray] on [heap1], which puts
    the instance at address 11, and after one [fit_nuisance] on it. *)
Definition built : heap := (new DR stray heap1).2.

Definition first_fit : list call :=
  [FitNuisance ["a"; "b"] [0; 1]%Z "variant_outcome_model" 0 VNone].

Definition fitted_once : heap := after_calls DR 11 first_fit built.

(** The state of the instance at [l] in [h]. *)
Definition state (h : heap) (l : loc) : MetaLearner :=
  match h !! l with Some (OLearner m) => m | _ => regression end.

Definition blank : CFE Trained :=
  CrossFitEstimator.Build VNone VNone VNone VNone [].

End Demo.

(** ** Further cases on the concrete variant *)

Module Cases.

(** Three variants, which [Demo.DR] does not support, and a number of
    folds that is not positive. *)
Definition three_variants : Args.t :=
  {| Args.nuisance_model_factory := VType "Ridge";
     Args.is_classification := false;
     Args.n_variants := VInt 3;
     Args.treatment_model_factory := VType "LinearRegression";
     Args.propensity_model_factory := VType "LogisticRegression";
     Args.nuisance_model_params := VNone;
     Args.treatment_model_params := VNone;
     Args.propensity_model_params := VNone;
     Args.feature_set := VNone;
     Args.n_folds := VInt 10;
     Args.random_state := VNone |}.

Definition no_folds : Args.t :=
  {| Args.nuisance_model_factory := VType "Ridge";
     Args.is_classification := false;
     Args.n_variants := VInt 2;
     Args.treatment_model_factory := VType "LinearRegression";
     Args.propensity_model_factory := VType "LogisticRegression";
     Args.nuisance_model_params := VNone;
     Args.treatment_model_params := VNone;
     Args.propensity_model_params := VNone;
     Args.feature_set := VNone;
     Args.n_folds := VInt 0;
     Args.random_state := VNone |}.

(** A heap with the dict [{"treatment_model": LinearRegression}] at
    address 1, and the arguments that pass it as
    [treatment_model_factory]. *)
Definition heap2 : heap :=
  {[ 1%positive := ODict {[ "treatment_model" := VType "LinearRegression" ]} ]}.

Definition own_dict : Args.t :=
  {| Args.nuisance_model_factory := VType "Ridge";
     Args.is_classification := false;
     Args.n_variants := VInt 2;
     Args.treatment_model_factory := VRef 1;
     Args.propensity_model_factory := VType "LogisticRegression";
     Args.nuisance_model_params := VNone;
     Args.treatment_model_params := VNone;
     Args.propensity_model_params := VNone;
     Args.feature_set := VNone;
     Args.n_folds := VInt 10;
     Args.random_state := VNone |}.

(** A heap with the dict of [Demo.heap1] at address 1 and the dict
    [{"variant_outcome_model": Ridge, "propensity_model": Ridge}] at
    address 2. *)
Definition heap3 : heap :=
  <[ 2%positive :=
       ODict {[ "variant_outcome_model" := VType "Ridge";
                PROPENSITY_MODEL := VType "Ridge" ]} ]> Demo.heap1.

(** The instance built from [Demo.plain] on the empty heap. *)
Definition fresh : heap := (new Demo.DR Demo.plain ∅).2.

(** An estimator yields one column with [predict] and two with
    [predict_proba]. *)
Definition n_outputs (e : CFE Trained) (pm : PredictMethod) : Z :=
  match pm with predict => 1 | predict_proba => 2 end.

(** The nuisance estimators of the instance of [Demo.built], and its
    outcome models among them. *)
Definition nuisance_models : gmap string (list (CFE Trained)) :=
  default ∅ (_nuisance_models (Demo.state Demo.built 11)).

Definition outcome_models : list (CFE Trained) :=
  default [] (nuisance_models !! "variant_outcome_model").

(** The instance of [Demo.built] once its [n_variants] has been set
    to 3. *)
Definition grown : MetaLearner :=
  let m := Demo.state Demo.built 11 in
  {| is_classification := is_classification m;
     n_variants := VInt 3;
     nuisance_model_factory := nuisance_model_factory m;
     nuisance_model_params := nuisance_model_params m;
     treatment_model_factory := treatment_model_factory m;
     treatment_model_params := treatment_model_params m;
     n_folds := n_folds m;
     random_state := random_state m;
     feature_set := feature_set m;
     _nuisance_models := _nuisance_models m;
     _treatment_models := _treatment_models m |}.

End Cases.

(** * Properties *)

Section Properties.
Context `{Collaborators}.
Implicit Types (h : heap) (v argument : value) (names : list string).

(** ** Dict comprehensions and allocation *)

Lemma lookup_foldl_insert {A} (f : string → A) names (acc : gmap string A) k :
  foldl (λ d name, <[name := f name]> d) acc names !! k
  = if decide (k ∈ names) then Some (f k) else acc !! k.
Proof.
  revert acc. induction names as [|n names IH]; intros acc; cbn [foldl].
  - case_decide as Hin; [by apply elem_of_nil in Hin | done].
  - rewrite IH. rewrite (lookup_insert acc n k).
    destruct (decide (k ∈ names)) as [Hin|Hout].
    + rewrite decide_True; [done | by right].
    + destruct (decide (n = k)) as [->|Hne].
      * rewrite decide_True; [done | by left].
      * rewrite decide_False; [done|].
        intros [?|?]%elem_of_cons; by subst.
Qed.

Lemma lookup_dict_comprehension {A} (f : string → A) names k :
  dict_comprehension f names !! k = if decide (k ∈ names) then Some (f k) else None.
Proof. unfold dict_comprehension. by rewrite lookup_foldl_insert, lookup_empty. Qed.

Lemma dom_dict_comprehension {A} (f : string → A) names :
  dom (dict_comprehension f names) = list_to_set names.
Proof.
  apply set_eq; intros k.
  rewrite elem_of_dom, lookup_dict_comprehension, elem_of_list_to_set.
  destruct (decide (k ∈ names)); split; try done.
Qed.

Lemma alloc_fresh (o : object) h :
  ∃ l, alloc o h = (Ok (VRef l), <[l := o]> h) ∧ h !! l = None.
Proof.
  exists (fresh (dom h)); split; [done|].
  apply not_elem_of_dom, is_fresh.
Qed.

Lemma has_keys_dec h argument keys :
  has_keys h argument keys ∨ ¬ has_keys h argument keys.
Proof.
  unfold has_keys. destruct (as_dict h argument) as [d|].
  - destruct (decide (dom d = keys)) as [Heq|Hne].
    + left; eauto.
    + right; intros (d' & [= <-] & ?); done.
  - right; intros (d' & [=] & ?).
Qed.

Lemma as_dict_subseteq h h' v d :
  h ⊆ h' → as_dict h v = Some d → as_dict h' v = Some d.
Proof.
  intros Hsub. destruct v; simpl; try done.
  destruct (h !! l) as [o|] eqn:Hl; [|done].
  by rewrite (lookup_weaken _ _ _ _ Hl Hsub).
Qed.

(** ** The model-dict normaliser *)

Lemma initialize_model_dict_normalised argument names h :
  ∃ v h', _initialize_model_dict argument names h = (Ok v, h')
          ∧ normalised h argument names v h'.
Proof.
  unfold _initialize_model_dict.
  set (d' := dict_comprehension (λ _, argument) names).
  assert (Hnew : ¬ has_keys h argument (list_to_set names) →
    ∃ v h', alloc (ODict d') h = (Ok v, h') ∧ normalised h argument names v h').
  { intros Hno. destruct (alloc_fresh (ODict d') h) as (l & -> & Hl).
    eexists _, _; split; [done|]. exists l, d'. split_and!; try done.
    - by rewrite lookup_insert_eq.
    - apply dom_dict_comprehension.
    - intros _. split_and!; try done. intros name Hin.
      subst d'. rewrite lookup_dict_comprehension. by rewrite decide_True. }
  destruct (as_dict h argument) as [d|] eqn:Hd.
  - destruct (decide (dom d = list_to_set names)) as [Heq|Hne].
    + eexists _, _; split; [done|].
      destruct argument; simpl in Hd; try done.
      destruct (h !! l) as [[d0|]|] eqn:Hl; try done. injection Hd as ->.
      exists l, d. split_and!; try done.
      intros []. exists d. split; [|done]. simpl. by rewrite Hl.
    + apply Hnew. intros (d0 & Hd0 & ?). rewrite Hd in Hd0. by simplify_eq.
  - apply Hnew. intros (d0 & Hd0 & ?). rewrite Hd in Hd0. done.
Qed.

(** C1. For every [(argument, expected_names)] and from every heap the
    normaliser returns, without raising, a dict whose key set is exactly
    [expected_names] (so the empty dict for no names). When [argument] is a
    dict with exactly these keys the result is that very object and the heap
    is as before; otherwise the result is a new object, every other object is
    as before, and every expected name maps to [argument] itself. *)
Theorem initialize_model_dict_spec argument (expected_names : list string) h :
  ∃ (l : loc) (d : gmap string value) (h' : heap),
    _initialize_model_dict argument expected_names h = (Ok (VRef l), h')
    ∧ h' !! l = Some (ODict d)
    ∧ dom d = list_to_set expected_names
    ∧ (expected_names = [] → d = ∅)
    ∧ (has_keys h argument (list_to_set expected_names) →
       VRef l = argument ∧ h' = h)
    ∧ (¬ has_keys h argument (list_to_set expected_names) →
       h !! l = None ∧ h' = <[l := ODict d]> h
       ∧ ∀ name, name ∈ expected_names → d !! name = Some argument).
Proof.
  destruct (initialize_model_dict_normalised argument expected_names h)
    as (v & h' & Hrun & l & d & -> & Hl & Hdom & Hsame & Hnew).
  exists l, d, h'. split_and!; try done.
  intros ->. apply dom_empty_inv_L. by rewrite Hdom.
Qed.

Lemma normalised_subseteq h argument names v h' :
  normalised h argument names v h' → h ⊆ h'.
Proof.
  intros (l & d & -> & Hl & Hdom & Hsame & Hnew).
  destruct (has_keys_dec h argument (list_to_set names)) as [Hk|Hk].
  - by destruct (Hsame Hk) as [_ ->].
  - destruct (Hnew Hk) as (Hfresh & -> & _). by apply insert_subseteq.
Qed.

Lemma normalised_as_dict h argument names v h' :
  normalised h argument names v h' →
  ∃ d, as_dict h' v = Some d ∧ dom d = list_to_set names
       ∧ (¬ has_keys h argument (list_to_set names) →
          ∀ name, name ∈ names → d !! name = Some argument)
       ∧ (has_keys h argument (list_to_set names) → v = argument).
Proof.
  intros (l & d & -> & Hl & Hdom & Hsame & Hnew).
  exists d. simpl. rewrite Hl. split_and!; try done.
  - intros Hk. by destruct (Hnew Hk) as (_ & _ & ?).
  - intros Hk. by destruct (Hsame Hk).
Qed.

(** ** The propensity-merge helper *)

Lemma combine_propensity_member propensity_specs nuisance_specs
  (nuisance_model_names : gset string) h :
  PROPENSITY_MODEL ∈ nuisance_model_names →
  ∃ v0 h0 d0 l,
    _initialize_model_dict nuisance_specs
      (elements (nuisance_model_names ∖ {[PROPENSITY_MODEL]})) h = (Ok v0, h0)
    ∧ normalised h nuisance_specs
        (elements (nuisance_model_names ∖ {[PROPENSITY_MODEL]})) v0 h0
    ∧ as_dict h0 v0 = Some d0
    ∧ h0 !! l = None
    ∧ _combine_propensity_and_nuisance_specs propensity_specs nuisance_specs
        nuisance_model_names h
      = (Ok (VRef l),
         <[l := ODict (<[PROPENSITY_MODEL := propensity_specs]> d0)]> h0).
Proof.
  intros Hin. unfold _combine_propensity_and_nuisance_specs.
  rewrite decide_True by done.
  destruct (initialize_model_dict_normalised nuisance_specs
              (elements (nuisance_model_names ∖ {[PROPENSITY_MODEL]})) h)
    as (v0 & h0 & Hrun & Hnorm).
  destruct (normalised_as_dict _ _ _ _ _ Hnorm) as (d0 & Hd0 & _).
  destruct (alloc_fresh (ODict ({[PROPENSITY_MODEL := propensity_specs]} ∪ d0)) h0)
    as (l & Halloc & Hl).
  exists v0, h0, d0, l. split_and!; try done.
  unfold mbind, M_bind. rewrite Hrun. unfold dict_or. rewrite Hd0, Halloc.
  by rewrite <- insert_union_singleton_l.
Qed.

Lemma combine_propensity_absent propensity_specs nuisance_specs
  (nuisance_model_names : gset string) h :
  PROPENSITY_MODEL ∉ nuisance_model_names →
  _combine_propensity_and_nuisance_specs propensity_specs nuisance_specs
    nuisance_model_names h
  = _initialize_model_dict nuisance_specs (elements nuisance_model_names) h.
Proof.
  intros Hout. unfold _combine_propensity_and_nuisance_specs.
  by rewrite decide_False.
Qed.

(** C2. When the propensity name is one of [nuisance_model_names], the
    result is a new dict: the normalisation of [nuisance_specs] over the
    other names, with the propensity name mapped to [propensity_specs],
    whatever [propensity_specs] is ([None] included). When it is not, the
    result is the normalisation of [nuisance_specs] over all the names, for
    every [propensity_specs]. *)
Theorem combine_propensity_and_nuisance_specs_spec
  propensity_specs nuisance_specs (nuisance_model_names : gset string) h :
  (PROPENSITY_MODEL ∈ nuisance_model_names →
   ∃ v0 h0 d0 l,
     _initialize_model_dict nuisance_specs
       (elements (nuisance_model_names ∖ {[PROPENSITY_MODEL]})) h = (Ok v0, h0)
     ∧ as_dict h0 v0 = Some d0
     ∧ h0 !! l = None
     ∧ _combine_propensity_and_nuisance_specs propensity_specs nuisance_specs
         nuisance_model_names h
       = (Ok (VRef l),
          <[l := ODict (<[PROPENSITY_MODEL := propensity_specs]> d0)]> h0))
  ∧ (PROPENSITY_MODEL ∉ nuisance_model_names →
     _combine_propensity_and_nuisance_specs propensity_specs nuisance_specs
       nuisance_model_names h
     = _initialize_model_dict nuisance_specs (elements nuisance_model_names) h).
Proof.
  split.
  - intros Hin.
    destruct (combine_propensity_member propensity_specs nuisance_specs
                nuisance_model_names h Hin) as (v0 & h0 & d0 & l & ? & ? & ? & ? & ?).
    by exists v0, h0, d0, l.
  - apply combine_propensity_absent.
Qed.

(** ** The checks on [n_variants], the treatment and the outcome *)

Section Checks.
Variable cls : MetaLearnerClass.

Lemma np_unique_perm (w : Vector) : np_unique w ≡ₚ remove_dups w.
Proof. apply merge_sort_Permutation. Qed.

Lemma elem_of_np_unique (w : Vector) x : x ∈ np_unique w ↔ x ∈ w.
Proof. by rewrite np_unique_perm, elem_of_remove_dups. Qed.

Lemma NoDup_np_unique (w : Vector) : NoDup (np_unique w).
Proof. rewrite np_unique_perm. apply NoDup_remove_dups. Qed.

(** [len(np.unique(w))] is the number of distinct values of [w]. *)
Lemma len_np_unique (w : Vector) :
  len (np_unique w) = Z.of_nat (size (list_to_set w : gset Z)).
Proof.
  unfold len. f_equal.
  rewrite <- (size_list_to_set (C:=gset Z) (np_unique w)) by apply NoDup_np_unique.
  f_equal. apply set_eq; intros x.
  by rewrite !elem_of_list_to_set, elem_of_np_unique.
Qed.

Lemma encodes_variants_len (w : Vector) n :
  (0 ≤ n)%Z → encodes_variants w n → len (np_unique w) = n.
Proof.
  intros Hn Henc. unfold len.
  assert (Hperm : np_unique w ≡ₚ seqZ 0 n).
  { apply NoDup_Permutation; [apply NoDup_np_unique | apply NoDup_seqZ |].
    intros x. rewrite elem_of_np_unique, elem_of_seqZ, (Henc x). lia. }
  rewrite Hperm, length_seqZ. lia.
Qed.

Lemma encodes_variants_set (w : Vector) n :
  encodes_variants w n ↔
  list_to_set (np_unique w) =@{gset Z} list_to_set (seqZ 0 n).
Proof.
  split.
  - intros Henc. apply set_eq; intros x.
    rewrite !elem_of_list_to_set, elem_of_np_unique, elem_of_seqZ, (Henc x). lia.
  - intros Heq x. rewrite <- elem_of_np_unique.
    rewrite <- (elem_of_list_to_set (C:=gset Z)), Heq.
    rewrite elem_of_list_to_set, elem_of_seqZ. lia.
Qed.

(** C5. On an instance whose [n_variants] is the integer [n >= 0] (the
    constructor admits only [n >= 2]), [_check_treatment] passes when the
    distinct values of [w] are exactly [0, ..., n-1] and raises a
    [ValueError] when they are not. *)
Theorem check_treatment_spec (self : MetaLearner) (w : Vector) (n : Z) :
  n_variants self = VInt n → (0 ≤ n)%Z →
  (encodes_variants w n → _check_treatment self w = Ok ())
  ∧ (¬ encodes_variants w n → is_ValueError (_check_treatment self w)).
Proof.
  intros Hself Hn. unfold _check_treatment, int_ne, range.
  rewrite Hself. simpl. split.
  - intros Henc. rewrite (encodes_variants_len w n Hn Henc).
    rewrite bool_decide_false by (intros ?; done). simpl.
    rewrite bool_decide_false; [done|].
    intros Hne. apply Hne. by apply encodes_variants_set.
  - intros Hnot. case_bool_decide; [done|]. simpl.
    case_bool_decide as Hset; [done|].
    exfalso. apply Hnot, encodes_variants_set.
    by destruct (decide (list_to_set (np_unique w) =@{gset Z} list_to_set (seqZ 0 n))).
Qed.

(** C6. [_check_n_variants] raises a [ValueError] for every value that is
    not an integer of at least 2; for an integer above 2 it passes when the
    class supports multiple treatments and raises a [NotImplementedError]
    when it does not; 2 passes. *)
Theorem check_n_variants_spec (n_variants : value) :
  ((∀ n, n_variants = VInt n → (n < 2)%Z) →
   is_ValueError (_check_n_variants cls n_variants))
  ∧ (∀ n, n_variants = VInt n → (n > 2)%Z →
     if _supports_multi_treatment cls
     then _check_n_variants cls n_variants = Ok ()
     else is_NotImplementedError (_check_n_variants cls n_variants))
  ∧ (n_variants = VInt 2 → _check_n_variants cls n_variants = Ok ()).
Proof.
  unfold _check_n_variants. split_and!.
  - intros Hsmall. destruct n_variants as [| [] | n | | | |]; simpl; try done.
    rewrite bool_decide_true; [done | by apply Hsmall].
  - intros n -> Hn. simpl.
    rewrite bool_decide_false by lia. rewrite bool_decide_true by lia.
    by destruct (_supports_multi_treatment cls).
  - by intros ->.
Qed.

(** C8 as amended. [_check_outcome] raises a [ValueError] when the
    instance is a classification one, the class does not support several
    classes and [y] has more than two distinct values; it passes whenever
    the class supports several classes, and whenever the instance is not a
    classification one. *)
Theorem check_outcome_spec (self : MetaLearner) (y : Vector) :
  (is_classification self = true → _supports_multi_class cls = false →
   2 < size (list_to_set y : gset Z) →
   is_ValueError (_check_outcome cls self y))
  ∧ (_supports_multi_class cls = true → _check_outcome cls self y = Ok ())
  ∧ (is_classification self = false → _check_outcome cls self y = Ok ())
  ∧ (size (list_to_set y : gset Z) ≤ 2 → _check_outcome cls self y = Ok ()).
Proof.
  unfold _check_outcome. rewrite len_np_unique. split_and!.
  - intros -> -> Hy. simpl. rewrite bool_decide_true by lia. done.
  - intros ->. by rewrite andb_false_r.
  - by intros ->.
  - intros Hy. rewrite bool_decide_false by lia. by rewrite andb_false_r.
Qed.

End Checks.

(** ** The variant factory *)

Lemma metalearner_factory_unknown (s : string) :
  s ∉ codes →
  metalearner_factory s
  = Raise (ValueError ("No MetaLearner implementation found for prefix " +:+ s +:+ ".")).
Proof.
  unfold codes. intros Hs.
  destruct s as [|a s]; [done|].
  destruct a as [[] [] [] [] [] [] [] []]; try reflexivity.
  all: destruct s as [|a s]; try reflexivity; try (exfalso; apply Hs; set_solver).
  destruct a as [[] [] [] [] [] [] [] []]; try reflexivity.
  destruct s as [|a s]; try reflexivity. exfalso; apply Hs; set_solver.
Qed.

(** C7. The factory sends each of the five codes to its own class, the
    five classes being distinct, and no other string to any class: for every
    other string it raises a [ValueError] whose message contains that
    string. Being a function of its argument alone, it has no effect. *)
Theorem metalearner_factory_spec :
  (∀ c, metalearner_factory (code_of c) = Ok c)
  ∧ (∀ s c, metalearner_factory s = Ok c → s = code_of c ∧ s ∈ codes)
  ∧ (∀ c c', code_of c = code_of c' → c = c')
  ∧ (∀ s, s ∉ codes →
     ∃ msg pre suf, metalearner_factory s = Raise (ValueError msg)
                    ∧ msg = pre +:+ s +:+ suf).
Proof.
  split_and!.
  - by intros [].
  - intros s c Hs. destruct (decide (s ∈ codes)) as [Hin|Hout].
    + split; [|done]. unfold codes in Hin.
      repeat (apply elem_of_cons in Hin as [->|Hin]);
        [| | | | | by apply elem_of_nil in Hin];
        simpl in Hs; by simplify_eq.
    + by rewrite (metalearner_factory_unknown s Hout) in Hs.
  - by intros [] [].
  - intros s Hs. eexists _, _, _. split; [by apply metalearner_factory_unknown|].
    done.
Qed.

(** ** Construction *)

Section Construction.
Variable cls : MetaLearnerClass.

Local Abbreviation propensity_misconfigured := (propensity_misconfigured cls).
Local Abbreviation accepted := (accepted cls).
Local Abbreviation wired := (wired cls).
Local Abbreviation after_call := (after_call cls).
Local Abbreviation after_calls := (after_calls cls).
Local Abbreviation registry := (registry cls).

Lemma bind_run {A B} (m : M A) (k : A → M B) h a h' :
  m h = (Ok a, h') → (m ≫= k) h = k a h'.
Proof. intros Hm. unfold mbind, M_bind. by rewrite Hm. Qed.

Lemma bind_raise {A B} (m : M A) (k : A → M B) h e h' :
  m h = (Raise e, h') → (m ≫= k) h = (Raise e, h').
Proof. intros Hm. unfold mbind, M_bind. by rewrite Hm. Qed.

Lemma dict_has_key_true h v k :
  dict_has_key h v k = true ↔ ∃ d, as_dict h v = Some d ∧ k ∈ dom d.
Proof.
  unfold dict_has_key. destruct (as_dict h v) as [d|]; split.
  - intros Hk%bool_decide_eq_true. eauto.
  - intros (d' & [= <-] & Hk). by apply bool_decide_eq_true.
  - done.
  - by intros (d' & [=] & _).
Qed.

Lemma init_propensity_misconfigured (a : Args.t) h :
  propensity_misconfigured a h →
  ∃ e, __init__ cls a h = (Raise e, h)
       ∧ (_validate_params cls h a = Ok () → ∃ msg, e = ValueError msg).
Proof.
  intros Hbad. unfold __init__.
  destruct (_validate_params cls h a) as [[]|e0] eqn:Hhook.
  2:{ exists e0. split; [|done]. apply bind_raise. unfold reading. by rewrite Hhook. }
  rewrite (bind_run _ _ h () h) by (unfold reading; by rewrite Hhook).
  cbv zeta.
  destruct (bool_decide (PROPENSITY_MODEL ∈ dom (treatment_model_specifications cls)))
    eqn:Ht.
  { eexists. split; [by apply bind_raise | eauto]. }
  rewrite (bind_run _ _ h () h) by done.
  rewrite (bind_run _ _ h _ h) by done.
  destruct (dict_has_key h (Args.nuisance_model_factory a) PROPENSITY_MODEL) eqn:Hf.
  { eexists. split; [by apply bind_raise | eauto]. }
  rewrite (bind_run _ _ h () h) by done.
  rewrite (bind_run _ _ h _ h) by done.
  destruct (dict_has_key h (Args.nuisance_model_params a) PROPENSITY_MODEL) eqn:Hp.
  { eexists. split; [by apply bind_raise | eauto]. }
  rewrite (bind_run _ _ h () h) by done.
  destruct Hbad as [Hbad|[Hbad|[Hbad|[Hin Hnone]]]].
  - by apply bool_decide_eq_false in Ht.
  - apply dict_has_key_true in Hbad. congruence.
  - apply dict_has_key_true in Hbad. congruence.
  - rewrite bool_decide_true by done. rewrite Hnone. simpl.
    eexists. split; [by apply bind_raise | eauto].
Qed.

(** C3. When the propensity name is a treatment kind of the class, or a
    key of a dict passed as [nuisance_model_factory], or a key of a dict
    passed as [nuisance_model_params], or a nuisance kind of the class while
    [propensity_model_factory] is [None], the call [cls(...)] raises, returns
    no instance and leaves the heap as it was. The exception is a
    [ValueError]; only a variant whose own [_validate_params] hook, which
    runs first, has already raised decides the exception itself. *)
Theorem new_propensity_misconfigured (a : Args.t) h :
  propensity_misconfigured a h →
  ∃ e, new cls a h = (Raise e, h)
       ∧ (_validate_params cls h a = Ok () → ∃ msg, e = ValueError msg).
Proof.
  intros Hbad.
  destruct (init_propensity_misconfigured a h Hbad) as (e & Hrun & Herr).
  exists e. split; [|done]. unfold new. by apply bind_raise.
Qed.

(** *** What a successful [__init__] leaves *)

Lemma broadcasts_weaken h0 h argument over d :
  h0 ⊆ h → broadcasts h argument over d → broadcasts h0 argument over d.
Proof.
  intros Hsub Hb d0 Hd0 Hne. apply (Hb d0); [|done].
  by apply (as_dict_subseteq h0).
Qed.

Lemma keeps_weaken h0 h argument over d :
  h0 ⊆ h → keeps h argument over d → keeps h0 argument over d.
Proof.
  intros Hsub Hb d0 Hd0 Hne. apply (Hb d0); [|done].
  by apply (as_dict_subseteq h0).
Qed.

Lemma per_kind_weaken h h' v (names : gset string) d :
  h ⊆ h' → per_kind h v names d → per_kind h' v names d.
Proof. intros Hsub [Hd Hdom]. split; [by apply (as_dict_subseteq h) | done]. Qed.

Lemma initialize_model_dict_run argument (names : gset string) h :
  ∃ v h' d,
    _initialize_model_dict argument (elements names) h = (Ok v, h')
    ∧ h ⊆ h' ∧ per_kind h' v names d
    ∧ broadcasts h argument names d ∧ keeps h argument names d.
Proof.
  destruct (initialize_model_dict_normalised argument (elements names) h)
    as (v & h' & Hrun & Hnorm).
  pose proof (normalised_subseteq _ _ _ _ _ Hnorm) as Hsub.
  destruct Hnorm as (l & d & -> & Hl & Hdom & Hsame & Hnew).
  rewrite list_to_set_elements_L in *.
  exists (VRef l), h', d. split_and!; try done.
  - split; [|done]. simpl. by rewrite Hl.
  - intros d0 Hd0 Hne k Hk.
    destruct Hnew as (_ & _ & Hall).
    + intros (d1 & Hd1 & Heq). congruence.
    + apply Hall. by apply elem_of_elements.
  - intros d0 Hd0 Heq k Hk.
    destruct Hsame as [<- ->]; [by exists d0|].
    simpl in Hd0. rewrite Hl in Hd0. by simplify_eq.
Qed.

Lemma combine_run propensity_specs nuisance_specs (names : gset string) h :
  ∃ v h' d,
    _combine_propensity_and_nuisance_specs propensity_specs nuisance_specs names h
    = (Ok v, h')
    ∧ h ⊆ h' ∧ per_kind h' v names d
    ∧ broadcasts h nuisance_specs (names ∖ {[PROPENSITY_MODEL]}) d
    ∧ keeps h nuisance_specs (names ∖ {[PROPENSITY_MODEL]}) d
    ∧ (PROPENSITY_MODEL ∈ names → d !! PROPENSITY_MODEL = Some propensity_specs).
Proof.
  destruct (decide (PROPENSITY_MODEL ∈ names)) as [Hin|Hout].
  - unfold _combine_propensity_and_nuisance_specs. rewrite decide_True by done.
    destruct (initialize_model_dict_run nuisance_specs
                (names ∖ {[PROPENSITY_MODEL]}) h)
      as (v0 & h0 & d0 & Hrun & Hsub & [Hd0 Hdom] & Hb & Hk).
    destruct (alloc_fresh
                (ODict ({[PROPENSITY_MODEL := propensity_specs]} ∪ d0)) h0)
      as (l & Halloc & Hl).
    exists (VRef l), (<[l := ODict (<[PROPENSITY_MODEL := propensity_specs]> d0)]> h0),
      (<[PROPENSITY_MODEL := propensity_specs]> d0).
    split_and!.
    + rewrite (bind_run _ _ _ _ _ Hrun). unfold dict_or. rewrite Hd0, Halloc.
      by rewrite <- insert_union_singleton_l.
    + etrans; [done|]. by apply insert_subseteq.
    + split; [simpl; by rewrite lookup_insert_eq|].
      rewrite dom_insert_L, Hdom. apply set_eq; intros k.
      rewrite elem_of_union, elem_of_singleton, elem_of_difference,
        elem_of_singleton.
      destruct (decide (k = PROPENSITY_MODEL)); naive_solver.
    + intros d1 Hd1 Hne k Hkin. rewrite lookup_insert_ne by set_solver.
      by apply (Hb d1).
    + intros d1 Hd1 Hne k Hkin. rewrite lookup_insert_ne by set_solver.
      by apply (Hk d1).
    + intros _. by rewrite lookup_insert_eq.
  - rewrite combine_propensity_absent by done.
    replace (names ∖ {[PROPENSITY_MODEL]}) with names by set_solver.
    destruct (initialize_model_dict_run nuisance_specs names h)
      as (v0 & h0 & d0 & Hrun & Hsub & Hpk & Hb & Hk).
    by exists v0, h0, d0.
Qed.

Lemma or_empty_dict_run x h :
  ∃ v h', or_empty_dict x h = (Ok v, h') ∧ h ⊆ h'
          ∧ (∀ d, as_dict h x = Some d → v = x).
Proof.
  destruct x; try by (eexists _, _; split_and!; [done..|]).
  simpl. destruct (alloc_fresh (ODict ∅) h) as (l & -> & Hl).
  eexists _, _; split_and!; [done| |done]. by apply insert_subseteq.
Qed.

Lemma list_comprehension_Ok {A} (x : A) n :
  list_comprehension (Ok x) n = Ok (replicate (Z.to_nat n) x).
Proof.
  unfold list_comprehension. rewrite <- (length_seqZ 0 n).
  induction (seqZ 0 n) as [|i l IH]; [done|].
  simpl. unfold mbind, result_bind, fmap in *.
  by rewrite IH.
Qed.

Lemma dict_comprehension_r_Ok {A} (body : string → result A) (g : string → A)
  names acc :
  (∀ k, k ∈ names → body k = Ok (g k)) →
  dict_comprehension_r body names acc
  = Ok (foldl (λ d name, <[name := g name]> d) acc names).
Proof.
  revert acc. induction names as [|n names IH]; intros acc Hbody; [done|].
  simpl. rewrite (Hbody n) by (by left). simpl.
  apply IH. intros k Hk. apply Hbody. by right.
Qed.

Lemma allocate_estimators_run h self specs factory params df dp name spec :
  specs !! name = Some spec →
  per_kind h factory (dom specs) df → per_kind h params (dom specs) dp →
  ∃ fac par,
    dict_getitem h factory name = Ok fac
    ∧ dict_getitem h params name = Ok par
    ∧ allocate_estimators h self specs factory params name
      = Ok (replicate (Z.to_nat (cardinality spec self))
              (CrossFitEstimator.Build (n_folds self) fac par
                 (random_state self) untrained)).
Proof.
  intros Hspec [Hdf Hdomf] [Hdp Hdomp].
  assert (Hin : name ∈ dom specs) by (apply elem_of_dom; eauto).
  destruct (proj1 (elem_of_dom df name)) as [fac Hfac]; [by rewrite Hdomf|].
  destruct (proj1 (elem_of_dom dp name)) as [par Hpar]; [by rewrite Hdomp|].
  exists fac, par. unfold allocate_estimators, dict_getitem, registry_getitem.
  rewrite Hdf, Hdp, Hfac, Hpar, Hspec. simpl.
  split_and!; try done. apply list_comprehension_Ok.
Qed.

Lemma models_comprehension_run h self specs factory params df dp :
  per_kind h factory (dom specs) df → per_kind h params (dom specs) dp →
  ∃ ms,
    dict_comprehension_r (allocate_estimators h self specs factory params)
      (elements (dom specs)) ∅ = Ok ms
    ∧ estimators_allocated h self specs factory params ms.
Proof.
  intros Hf Hp.
  set (g := λ name,
         match allocate_estimators h self specs factory params name with
         | Ok l => l
         | Raise _ => []
         end).
  assert (Hbody : ∀ k, k ∈ elements (dom specs) →
            allocate_estimators h self specs factory params k = Ok (g k)).
  { intros k Hk%elem_of_elements. apply elem_of_dom in Hk as [spec Hspec].
    destruct (allocate_estimators_run h self specs factory params df dp k spec)
      as (fac & par & _ & _ & Hrun); try done.
    unfold g. by rewrite Hrun. }
  eexists. split; [by apply dict_comprehension_r_Ok|].
  split.
  - apply set_eq; intros k. rewrite !elem_of_dom, lookup_foldl_insert.
    case_decide as Hk.
    + apply elem_of_elements, elem_of_dom in Hk. naive_solver.
    + rewrite elem_of_elements, elem_of_dom in Hk. rewrite lookup_empty.
      split; [by intros [? ?] | done].
  - intros kind spec Hspec.
    destruct (allocate_estimators_run h self specs factory params df dp kind spec)
      as (fac & par & Hfac & Hpar & Hrun); try done.
    exists fac, par. split_and!; try done.
    rewrite lookup_foldl_insert. rewrite decide_True.
    + unfold g. by rewrite Hrun.
    + apply elem_of_elements, elem_of_dom. eauto.
Qed.

Abbreviation nuisance_names :=
  (dom (nuisance_model_specifications cls)) (only parsing).
Abbreviation treatment_names :=
  (dom (treatment_model_specifications cls)) (only parsing).

Lemma treatment_params_run (x : value) (names : gset string) h :
  ∃ v h' d,
    match x with
    | VNone =>
        empty ← alloc (ODict ∅);
        _initialize_model_dict empty (elements names)
    | _ => _initialize_model_dict x (elements names)
    end h = (Ok v, h')
    ∧ h ⊆ h' ∧ per_kind h' v names d
    ∧ broadcasts h x names d ∧ keeps h x names d.
Proof.
  destruct x; try apply initialize_model_dict_run.
  destruct (alloc_fresh (ODict ∅) h) as (l & Halloc & Hl).
  destruct (initialize_model_dict_run (VRef l) names (<[l := ODict ∅]> h))
    as (v & h' & d & Hrun & Hsub & Hpk & _ & _).
  exists v, h', d. split_and!; try done.
  - by rewrite (bind_run _ _ _ _ _ Halloc).
  - etrans; [|done]. by apply insert_subseteq.
Qed.

Lemma feature_set_run (x : value) (names : gset string) h :
  ∃ v h',
    match x with
    | VNone => mret VNone
    | _ => _initialize_model_dict x (elements names)
    end h = (Ok v, h')
    ∧ h ⊆ h'
    ∧ if decide (x = VNone) then v = VNone
      else ∃ d, per_kind h' v names d
                ∧ broadcasts h x names d ∧ keeps h x names d.
Proof.
  destruct (decide (x = VNone)) as [->|Hx].
  { by exists VNone, h. }
  destruct (initialize_model_dict_run x names h)
    as (v & h' & d & Hrun & Hsub & Hpk & Hb & Hk).
  exists v, h'. split_and!; [by destruct x | done | by exists d].
Qed.

(** Every step of [__init__] after the checks succeeds: accepted arguments
    give an instance, up to the last hook [_validate_models]. *)
Lemma init_accepted (a : Args.t) h :
  accepted a h →
  ∃ m h',
    wired a h m h'
    ∧ __init__ cls a h
      = (match _validate_models cls h' m with
         | Ok _ => Ok m
         | Raise e => Raise e
         end, h').
Proof.
  intros (Hhook & Ht & Hf & Hp & Hprop & Hn & Hfolds).
  destruct (combine_run (Args.propensity_model_factory a)
              (Args.nuisance_model_factory a) nuisance_names h)
    as (v1 & h1 & d1 & Hrun1 & Hsub1 & Hpk1 & Hb1 & Hk1 & Hp1).
  destruct (or_empty_dict_run (Args.nuisance_model_params a) h1)
    as (v2 & h2 & Hrun2 & Hsub2 & Hsame2).
  destruct (or_empty_dict_run (Args.propensity_model_params a) h2)
    as (v3 & h3 & Hrun3 & Hsub3 & _).
  destruct (combine_run v3 v2 nuisance_names h3)
    as (v4 & h4 & d4 & Hrun4 & Hsub4 & Hpk4 & Hb4 & Hk4 & _).
  destruct (initialize_model_dict_run (Args.treatment_model_factory a)
              treatment_names h4)
    as (v5 & h5 & d5 & Hrun5 & Hsub5 & Hpk5 & Hb5 & Hk5).
  destruct (treatment_params_run (Args.treatment_model_params a)
              treatment_names h5)
    as (v6 & h6 & d6 & Hrun6 & Hsub6 & Hpk6 & Hb6 & Hk6).
  destruct (feature_set_run (Args.feature_set a)
              (nuisance_names ∪ treatment_names) h6)
    as (v7 & h7 & Hrun7 & Hsub7 & Hfs).
  assert (Hsub67 : h6 ⊆ h7) by done.
  assert (Hsub57 : h5 ⊆ h7) by (by etrans).
  assert (Hsub47 : h4 ⊆ h7) by (by etrans).
  assert (Hsub37 : h3 ⊆ h7) by (by etrans).
  assert (Hsub27 : h2 ⊆ h7) by (by etrans).
  assert (Hsub17 : h1 ⊆ h7) by (by etrans).
  assert (Hsub02 : h ⊆ h2) by (by etrans).
  assert (Hsub03 : h ⊆ h3) by (by etrans).
  assert (Hsub04 : h ⊆ h4) by (by etrans).
  assert (Hsub05 : h ⊆ h5) by (by etrans).
  assert (Hsub06 : h ⊆ h6) by (by etrans).
  assert (Hsub07 : h ⊆ h7) by (by etrans).
  apply (per_kind_weaken _ h7) in Hpk1; [|done].
  apply (per_kind_weaken _ h7) in Hpk4; [|done].
  apply (per_kind_weaken _ h7) in Hpk5; [|done].
  apply (per_kind_weaken _ h7) in Hpk6; [|done].
  set (self0 := configured a v1 v4 v5 v6 v7).
  destruct (models_comprehension_run h7 self0 (nuisance_model_specifications cls)
              v1 v4 d1 d4 Hpk1 Hpk4) as (nm & Hrun8 & Halloc8).
  destruct (models_comprehension_run h7 (set_models Nuisance self0 nm)
              (treatment_model_specifications cls)
              v5 v6 d5 d6 Hpk5 Hpk6) as (tm & Hrun9 & Halloc9).
  exists (set_models Treatment (set_models Nuisance self0 nm) tm), h7.
  split.
  - split; simpl; try done.
    + exists d1. split_and!; try done.
    + exists d4. split_and!; try done.
      * intros d0 Hd0 Hne k Hk. rewrite <- (Hsame2 d0).
        -- apply (Hb4 d0); try done. rewrite (Hsame2 d0).
           ++ by apply (as_dict_subseteq h).
           ++ by apply (as_dict_subseteq h).
        -- by apply (as_dict_subseteq h).
      * intros d0 Hd0 Hne k Hk.
        apply (Hk4 d0); try done. rewrite (Hsame2 d0).
        -- by apply (as_dict_subseteq h).
        -- by apply (as_dict_subseteq h).
    + exists d5. split_and!; try done.
      * by apply (broadcasts_weaken h h4).
      * by apply (keeps_weaken h h4).
    + exists d6. split_and!; try done.
      * by apply (broadcasts_weaken h h5).
      * by apply (keeps_weaken h h5).
    + destruct (decide (Args.feature_set a = VNone)); [done|].
      destruct Hfs as (d7 & Hpk7 & Hb7 & Hk7). exists d7. split_and!; try done.
      * by apply (broadcasts_weaken h h6).
      * by apply (keeps_weaken h h6).
    + by exists nm.
    + by exists nm, tm.
  - unfold __init__.
    rewrite (bind_run _ _ h () h) by (unfold reading; by rewrite Hhook).
    cbv zeta.
    rewrite (bool_decide_eq_false_2 _ Ht).
    rewrite (bind_run _ _ h () h) by done.
    rewrite (bind_run _ _ h _ h) by done. rewrite Hf.
    rewrite (bind_run _ _ h () h) by done.
    rewrite (bind_run _ _ h _ h) by done. rewrite Hp.
    rewrite (bind_run _ _ h () h) by done.
    assert (Hcond :
      bool_decide (PROPENSITY_MODEL ∈ nuisance_names)
      && match Args.propensity_model_factory a with VNone => true | _ => false end
      = false).
    { case_bool_decide as Hin; [|done]. specialize (Hprop Hin).
      by destruct (Args.propensity_model_factory a). }
    rewrite Hcond.
    rewrite (bind_run _ _ h () h) by done.
    rewrite (bind_run _ _ h () h) by (unfold reading; by rewrite Hn).
    rewrite (bind_run _ _ _ _ _ Hrun1).
    rewrite (bind_run _ _ _ _ _ Hrun2).
    rewrite (bind_run _ _ _ _ _ Hrun3).
    rewrite (bind_run _ _ _ _ _ Hrun4).
    rewrite (bind_run _ _ _ _ _ Hrun5).
    rewrite (bind_run _ _ _ _ _ Hrun6).
    rewrite (bind_run _ _ h6 () h6) by (unfold reading; by rewrite Hfolds).
    rewrite (bind_run _ _ _ _ _ Hrun7).
    fold self0.
    rewrite (bind_run _ _ h7 nm h7) by (unfold reading; by rewrite Hrun8).
    rewrite (bind_run _ _ h7 tm h7) by (unfold reading; by rewrite Hrun9).
    unfold mbind, M_bind, reading.
    by destruct (_validate_models cls h7 _) as [[]|].
Qed.

Lemma classic_accepted (a : Args.t) h : accepted a h ∨ ¬ accepted a h.
Proof.
  assert (Hres : ∀ r : result unit, r = Ok () ∨ r ≠ Ok ()).
  { intros [[]|e]; [by left | by right]. }
  unfold accepted.
  destruct (Hres (_validate_params cls h a)); [|right; tauto].
  destruct (decide (PROPENSITY_MODEL ∈ treatment_names)); [right; tauto|].
  destruct (dict_has_key h (Args.nuisance_model_factory a) PROPENSITY_MODEL);
    [right; intros (_ & _ & [=] & _)|].
  destruct (dict_has_key h (Args.nuisance_model_params a) PROPENSITY_MODEL);
    [right; intros (_ & _ & _ & [=] & _)|].
  destruct (Hres (_check_n_variants cls (Args.n_variants a))); [|right; tauto].
  destruct (Hres (validate_number_positive (Args.n_folds a) "n_folds"));
    [|right; tauto].
  destruct (decide (PROPENSITY_MODEL ∈ nuisance_names)) as [Hin|Hout].
  - destruct (decide (Args.propensity_model_factory a = VNone)) as [Hnone|Hsome].
    + right. intros (_ & _ & _ & _ & Hprop & _). by apply Hprop.
    + left. split_and!; done.
  - left. split_and!; done.
Qed.

(** Arguments that fail a check give no instance. *)
Lemma init_rejected (a : Args.t) h :
  ¬ accepted a h → ∃ e h', __init__ cls a h = (Raise e, h').
Proof.
  intros Hno. unfold __init__.
  destruct (_validate_params cls h a) as [[]|e0] eqn:Hhook.
  2:{ exists e0, h. apply bind_raise. unfold reading. by rewrite Hhook. }
  rewrite (bind_run _ _ h () h) by (unfold reading; by rewrite Hhook).
  cbv zeta.
  destruct (decide (PROPENSITY_MODEL ∈ dom (treatment_model_specifications cls)))
    as [Ht|Ht].
  { rewrite (bool_decide_eq_true_2 _ Ht). eexists _, _. by apply bind_raise. }
  rewrite (bool_decide_eq_false_2 _ Ht).
  rewrite (bind_run _ _ h () h) by done.
  rewrite (bind_run _ _ h _ h) by done.
  destruct (dict_has_key h (Args.nuisance_model_factory a) PROPENSITY_MODEL) eqn:Hf.
  { eexists _, _. by apply bind_raise. }
  rewrite (bind_run _ _ h () h) by done.
  rewrite (bind_run _ _ h _ h) by done.
  destruct (dict_has_key h (Args.nuisance_model_params a) PROPENSITY_MODEL) eqn:Hp.
  { eexists _, _. by apply bind_raise. }
  rewrite (bind_run _ _ h () h) by done.
  destruct (bool_decide (PROPENSITY_MODEL ∈ nuisance_names)
            && match Args.propensity_model_factory a with
               | VNone => true | _ => false end) eqn:Hcond.
  { eexists _, _. by apply bind_raise. }
  rewrite (bind_run _ _ h () h) by done.
  destruct (_check_n_variants cls (Args.n_variants a)) as [[]|e1] eqn:Hn.
  2:{ exists e1, h. by apply bind_raise. }
  rewrite (bind_run _ _ h () h) by done.
  destruct (combine_run (Args.propensity_model_factory a)
              (Args.nuisance_model_factory a) nuisance_names h)
    as (v1 & h1 & d1 & Hrun1 & _).
  destruct (or_empty_dict_run (Args.nuisance_model_params a) h1)
    as (v2 & h2 & Hrun2 & _).
  destruct (or_empty_dict_run (Args.propensity_model_params a) h2)
    as (v3 & h3 & Hrun3 & _).
  destruct (combine_run v3 v2 nuisance_names h3) as (v4 & h4 & d4 & Hrun4 & _).
  destruct (initialize_model_dict_run (Args.treatment_model_factory a)
              treatment_names h4) as (v5 & h5 & d5 & Hrun5 & _).
  destruct (treatment_params_run (Args.treatment_model_params a)
              treatment_names h5) as (v6 & h6 & d6 & Hrun6 & _).
  rewrite (bind_run _ _ _ _ _ Hrun1).
  rewrite (bind_run _ _ _ _ _ Hrun2).
  rewrite (bind_run _ _ _ _ _ Hrun3).
  rewrite (bind_run _ _ _ _ _ Hrun4).
  rewrite (bind_run _ _ _ _ _ Hrun5).
  rewrite (bind_run _ _ _ _ _ Hrun6).
  destruct (validate_number_positive (Args.n_folds a) "n_folds") as [[]|e2] eqn:Hfolds.
  2:{ exists e2, h6. by apply bind_raise. }
  exfalso. apply Hno. split_and!; try done.
  intros Hin Hnone. by rewrite (bool_decide_eq_true_2 _ Hin), Hnone in Hcond.
Qed.

(** A successful call [cls(...)], read backwards: the arguments were
    accepted, [__init__] left the instance [m] wired as described and
    [_validate_models] passed on it; the instance is a new object. *)
Lemma new_Ok (a : Args.t) h v h'' :
  new cls a h = (Ok v, h'') →
  ∃ self m h',
    accepted a h ∧ wired a h m h' ∧ _validate_models cls h' m = Ok ()
    ∧ v = VRef self ∧ h' !! self = None ∧ h'' = <[self := OLearner m]> h'.
Proof.
  intros Hnew. unfold new in Hnew.
  destruct (classic_accepted a h) as [Hacc|Hno].
  - destruct (init_accepted a h Hacc) as (m & h' & Hwired & Hinit).
    destruct (_validate_models cls h' m) as [[]|e] eqn:Hhook.
    + rewrite (bind_run _ _ _ _ _ Hinit) in Hnew.
      destruct (alloc_fresh (OLearner m) h') as (self & Halloc & Hfresh).
      rewrite Halloc in Hnew. injection Hnew as <- <-.
      by exists self, m, h'.
    + by rewrite (bind_raise _ _ _ _ _ Hinit) in Hnew.
  - destruct (init_rejected a h Hno) as (e & h' & Hinit).
    by rewrite (bind_raise _ _ _ _ _ Hinit) in Hnew.
Qed.

(** ** The life of an instance *)

Lemma same_configuration_trans m1 m2 m3 :
  same_configuration m1 m2 → same_configuration m2 m3 → same_configuration m1 m3.
Proof.
  unfold same_configuration. intros (?&?&?&?&?&?&?&?&?) (?&?&?&?&?&?&?&?&?).
  split_and!; congruence.
Qed.

Lemma evolves_refl self m h : h !! self = Some (OLearner m) → evolves self m h h.
Proof. intros Hm. exists m. split_and!; try done. Qed.

Lemma evolves_trans self m1 m2 h1 h2 h3 :
  h2 !! self = Some (OLearner m2) →
  evolves self m1 h1 h2 → evolves self m2 h2 h3 → evolves self m1 h1 h3.
Proof.
  intros Hm2 (m2' & Hm2' & Hc12 & Hs12 & Hf12) (m3 & Hm3 & Hc23 & Hs23 & Hf23).
  rewrite Hm2 in Hm2'. injection Hm2' as <-.
  exists m3. split_and!; try done.
  - by apply (same_configuration_trans _ m2).
  - intros f. by rewrite Hs23, Hs12.
  - intros l Hl. by rewrite Hf23, Hf12.
Qed.

Lemma estimators_only_ret {A} self (x : A) : estimators_only self (mret x).
Proof. intros h m Hm. by apply evolves_refl. Qed.

Lemma estimators_only_reading {A} self (f : heap → result A) :
  estimators_only self (reading f).
Proof. intros h m Hm. by apply evolves_refl. Qed.

Lemma estimators_only_bind {A B} self (c : M A) (k : A → M B) :
  estimators_only self c → (∀ x, estimators_only self (k x)) →
  estimators_only self (c ≫= k).
Proof.
  intros Hc Hk h m Hm. specialize (Hc h m Hm).
  unfold mbind, M_bind. destruct (c h) as [[x|e] h1]; simpl in *; [|done].
  destruct Hc as (m1 & Hm1 & Hrest).
  apply (evolves_trans self m m1 h h1); [done | by exists m1 |].
  by apply Hk.
Qed.

Lemma shape_set_models f f' m ms ms' :
  models f m = Some ms → fmap (M:=gmap string) length ms' = length <$> ms →
  shape (models f' (set_models f m ms')) = shape (models f' m).
Proof.
  intros Hms Hlen. destruct f, f'; simpl in *; try done.
  - rewrite Hms. simpl. by rewrite Hlen.
  - rewrite Hms. simpl. by rewrite Hlen.
Qed.

(** What [on_estimator] does when the estimator exists. *)
Lemma on_estimator_run {A} f self kind ord
  (method : CFE Trained → CFE Trained * result A) h m ms l e :
  h !! self = Some (OLearner m) → models f m = Some ms → ms !! kind = Some l →
  (0 ≤ ord)%Z → l !! Z.to_nat ord = Some e →
  on_estimator f self kind ord method h
  = ((method e).2,
     <[self := OLearner
         (set_models f m (<[kind := <[Z.to_nat ord := (method e).1]> l]> ms))]> h).
Proof.
  intros Hm Hms Hl Hord He. unfold on_estimator, list_index.
  rewrite Hm, Hms, Hl.
  apply lookup_lt_Some in He as Hlt.
  rewrite bool_decide_true by lia. simpl. rewrite He. simpl.
  by destruct (method e).
Qed.

Lemma estimators_only_on_estimator {A} f self kind ord
  (method : CFE Trained → CFE Trained * result A) :
  estimators_only self (on_estimator f self kind ord method).
Proof.
  intros h m Hm. unfold on_estimator. rewrite Hm.
  destruct (models f m) as [ms|] eqn:Hms; [|by apply evolves_refl].
  destruct (ms !! kind) as [l|] eqn:Hl; [|by apply evolves_refl].
  destruct (list_index l ord ≫= λ i, l !! i ≫= λ e, Some (i, e))
    as [[i e]|] eqn:Hi; [|by apply evolves_refl].
  destruct (method e) as [e' r]. simpl.
  eexists. split_and!.
  - by rewrite lookup_insert_eq.
  - by destruct f; repeat split.
  - intros f'. apply (shape_set_models f f' m ms); [done|].
    apply map_eq; intros k. rewrite !lookup_fmap.
    destruct (decide (k = kind)) as [->|Hne].
    + rewrite lookup_insert_eq, Hl. simpl. by rewrite length_insert.
    + by rewrite lookup_insert_ne.
  - intros l' Hl'. by rewrite lookup_insert_ne.
Qed.

Lemma estimators_only_X_filtered self X kind :
  estimators_only self (X_filtered self X kind).
Proof.
  apply estimators_only_bind; [apply estimators_only_reading|].
  intros m. apply estimators_only_reading.
Qed.

Lemma after_call_evolves self c h m :
  h !! self = Some (OLearner m) → evolves self m h (after_call self c h).
Proof.
  revert h m. change (estimators_only self (λ h, (Ok (), after_call self c h))).
  assert (Hsnd : ∀ {A} (c' : M A),
    estimators_only self c' → estimators_only self (λ h, (Ok (), snd (c' h)))).
  { intros A c' Hc' h m Hm. by apply Hc'. }
  destruct c; apply Hsnd.
  - apply estimators_only_bind; [apply estimators_only_X_filtered|]. intros X'.
    apply estimators_only_bind; [apply estimators_only_on_estimator|]. intros _.
    apply estimators_only_ret.
  - apply estimators_only_bind; [apply estimators_only_X_filtered|]. intros X'.
    apply estimators_only_bind; [apply estimators_only_on_estimator|]. intros _.
    apply estimators_only_ret.
  - apply estimators_only_bind; [apply estimators_only_X_filtered|]. intros X'.
    apply estimators_only_bind; [apply estimators_only_reading|]. intros m.
    apply estimators_only_bind; [apply estimators_only_reading|]. intros spec.
    apply estimators_only_on_estimator.
  - apply estimators_only_bind; [apply estimators_only_X_filtered|]. intros X'.
    apply estimators_only_on_estimator.
Qed.

Lemma after_calls_evolves self cs h m :
  h !! self = Some (OLearner m) → evolves self m h (after_calls self cs h).
Proof.
  revert h m. induction cs as [|c cs IH]; intros h m Hm.
  - by apply evolves_refl.
  - simpl. pose proof (after_call_evolves self c h m Hm) as Hstep.
    destruct Hstep as (m1 & Hm1 & Hrest).
    apply (evolves_trans self m m1 h (after_call self c h)); [done| by exists m1 |].
    by apply IH.
Qed.

Lemma as_dict_evolves self m h h' v d :
  h !! self = Some (OLearner m) → evolves self m h h' →
  as_dict h v = Some d → as_dict h' v = Some d.
Proof.
  intros Hm (m' & _ & _ & _ & Hframe) Hd.
  destruct v; simpl in *; try done.
  destruct (decide (l = self)) as [->|Hne]; [by rewrite Hm in Hd|].
  by rewrite Hframe.
Qed.

(** *** Per family: registry, normalised dicts, what the comprehension saw *)

Lemma dict_getitem_subseteq h h' v k x :
  h ⊆ h' → dict_getitem h v k = Ok x → dict_getitem h' v k = Ok x.
Proof.
  intros Hsub. unfold dict_getitem.
  destruct (as_dict h v) as [d|] eqn:Hd; [|done].
  by rewrite (as_dict_subseteq h h' v d Hsub Hd).
Qed.

Lemma shape_lookup f m m' ms kind l :
  shape (models f m') = shape (models f m) →
  models f m = Some ms → ms !! kind = Some l →
  ∃ ms' l', models f m' = Some ms' ∧ ms' !! kind = Some l'
            ∧ length l' = length l.
Proof.
  intros Hshape Hms Hl. rewrite Hms in Hshape. unfold shape in Hshape.
  destruct (models f m') as [ms'|]; [|done]. simpl in Hshape.
  injection Hshape as Hshape.
  assert (Hk : (length <$> ms') !! kind = (length <$> ms) !! kind)
    by (by rewrite Hshape).
  rewrite !lookup_fmap, Hl in Hk.
  destruct (ms' !! kind) as [l'|] eqn:Hl'; [|done].
  injection Hk as Hk. by exists ms', l'.
Qed.

Lemma new_allocated (a : Args.t) h0 v h1 :
  new cls a h0 = (Ok v, h1) →
  ∃ self m,
    v = VRef self ∧ h0 !! self = None ∧ h1 !! self = Some (OLearner m)
    ∧ n_folds m = Args.n_folds a ∧ random_state m = Args.random_state a
    ∧ validate_number_positive (Args.n_folds a) "n_folds" = Ok ()
    ∧ ∀ f, ∃ ms, models f m = Some ms
                 ∧ estimators_allocated h1 (seen f a m) (registry f)
                     (factory f m) (params f m) ms.
Proof.
  intros Hnew.
  destruct (new_Ok a h0 v h1 Hnew)
    as (self & m & h' & Hacc & Hw & Hhook & -> & Hfresh & ->).
  assert (Hsub : h' ⊆ <[self := OLearner m]> h') by (by apply insert_subseteq).
  assert (Hup : ∀ self0 specs fac par ms,
    estimators_allocated h' self0 specs fac par ms →
    estimators_allocated (<[self := OLearner m]> h') self0 specs fac par ms).
  { intros self0 specs fac par ms [Hdom Hall]. split; [done|].
    intros kind spec Hspec.
    destruct (Hall kind spec Hspec) as (x & y & Hx & Hy & Hl).
    exists x, y. split_and!; [by apply (dict_getitem_subseteq h')..|done]. }
  exists self, m. split_and!; try done.
  - pose proof (wired_heap _ _ _ _ _ Hw) as Hsub0.
    destruct (h0 !! self) as [o|] eqn:Ho; [|done].
    by rewrite (lookup_weaken _ _ _ _ Ho Hsub0) in Hfresh.
  - by rewrite lookup_insert_eq.
  - apply Hw.
  - apply Hw.
  - apply Hacc.
  - intros [].
    + destruct (wired_nuisance_models _ _ _ _ _ Hw) as (ms & Hms & Halloc).
      exists ms. split; [done|]. by apply Hup.
    + destruct (wired_treatment_models _ _ _ _ _ Hw) as (ms & ms' & Hms & Hms' & Halloc).
      exists ms'. split; [done|]. unfold seen. rewrite Hms. by apply Hup.
Qed.

(** C4. After a successful construction the instance holds, for every
    kind [kind] that the class declares in family [f], a list of
    [cardinality(self)] estimators, [cardinality] being applied once, to the
    instance as it was when [__init__] built the family ([seen]); a negative
    cardinality gives the empty list. Each estimator is untrained and carries
    the instance's fold count, which [validate_number_positive] accepted, its
    random state, and the entries of [kind] in the instance's normalised
    factory and params dicts. The model dictionary has no other kind. After
    any sequence of calls of [fit_nuisance], [fit_treatment],
    [predict_nuisance] and [predict_treatment] on the instance, whether they
    return or raise, the list of [kind] still has that length. *)
Theorem estimators_per_kind (a : Args.t) h0 v h1 (f : family) kind spec :
  new cls a h0 = (Ok v, h1) →
  registry f !! kind = Some spec →
  ∃ self m ms fac par,
    v = VRef self ∧ h1 !! self = Some (OLearner m)
    ∧ models f m = Some ms ∧ dom ms = dom (registry f)
    ∧ dict_getitem h1 (factory f m) kind = Ok fac
    ∧ dict_getitem h1 (params f m) kind = Ok par
    ∧ validate_number_positive (Args.n_folds a) "n_folds" = Ok ()
    ∧ ms !! kind
      = Some (replicate (Z.to_nat (cardinality spec (seen f a m)))
                (CrossFitEstimator.Build (Args.n_folds a) fac par
                   (Args.random_state a) untrained))
    ∧ ((0 ≤ cardinality spec (seen f a m))%Z →
       ∃ l, ms !! kind = Some l
            ∧ Z.of_nat (length l) = cardinality spec (seen f a m))
    ∧ ∀ calls, ∃ m' ms' l',
        after_calls self calls h1 !! self = Some (OLearner m')
        ∧ models f m' = Some ms' ∧ ms' !! kind = Some l'
        ∧ length l' = Z.to_nat (cardinality spec (seen f a m)).
Proof.
  intros Hnew Hspec.
  destruct (new_allocated a h0 v h1 Hnew)
    as (self & m & -> & _ & Hm & Hfolds & Hrandom & Hvalid & Hall).
  destruct (Hall f) as (ms & Hms & Hdom & Hkinds).
  destruct (Hkinds kind spec Hspec) as (fac & par & Hfac & Hpar & Hl).
  assert (Hseen : n_folds (seen f a m) = Args.n_folds a
                  ∧ random_state (seen f a m) = Args.random_state a).
  { unfold seen. destruct f, (_nuisance_models m); done. }
  destruct Hseen as [Hsf Hsr]. rewrite Hsf, Hsr in Hl.
  exists self, m, ms, fac, par. split_and!; try done.
  - intros Hcard. eexists. split; [done|]. rewrite length_replicate. lia.
  - intros calls.
    destruct (after_calls_evolves self calls h1 m Hm)
      as (m' & Hm' & _ & Hshape & _).
    destruct (shape_lookup f m m' ms kind _ (Hshape f) Hms Hl)
      as (ms' & l' & Hms' & Hl' & Hlen).
    exists m', ms', l'. split_and!; try done.
    by rewrite Hlen, length_replicate.
Qed.

(** *** The frame of [fit_nuisance] and [fit_treatment] *)

Lemma X_filtered_run self X kind h m :
  h !! self = Some (OLearner m) →
  X_filtered self X kind h
  = (if truthy h (feature_set m)
     then dict_getitem h (feature_set m) kind ≫= getitem X
     else Ok X, h).
Proof.
  intros Hm. unfold X_filtered, the_learner.
  rewrite (bind_run _ _ h m h) by (unfold reading; by rewrite Hm).
  done.
Qed.

Lemma fit_unfold f self X y kind ord fit_params :
  fit f self X y kind ord fit_params
  = (X' ← X_filtered self X kind;
     on_estimator f self kind ord (λ e, cfe_fit e X' y fit_params);;
     mret (VRef self)).
Proof. by destruct f. Qed.

Lemma estimator_set_models_eq f m ms kind l i e :
  ms !! kind = Some l → i < length l →
  estimator f (set_models f m (<[kind := <[i := e]> l]> ms)) kind i = Some e.
Proof.
  intros Hl Hi. unfold estimator.
  replace (models f (set_models f m (<[kind := <[i := e]> l]> ms)))
    with (Some (<[kind := <[i := e]> l]> ms)) by (by destruct f).
  simpl. rewrite lookup_insert_eq. simpl. by apply list_lookup_insert_eq.
Qed.

Lemma estimator_set_models_ne f m ms kind l i e f' kind' i' :
  models f m = Some ms → ms !! kind = Some l →
  (f', kind', i') ≠ (f, kind, i) →
  estimator f' (set_models f m (<[kind := <[i := e]> l]> ms)) kind' i'
  = estimator f' m kind' i'.
Proof.
  intros Hms Hl Hne. unfold estimator.
  destruct (decide (f' = f)) as [->|Hf].
  - replace (models f (set_models f m (<[kind := <[i := e]> l]> ms)))
      with (Some (<[kind := <[i := e]> l]> ms)) by (by destruct f).
    rewrite Hms. simpl.
    destruct (decide (kind' = kind)) as [->|Hk].
    + rewrite lookup_insert_eq, Hl. simpl.
      apply list_lookup_insert_ne. congruence.
    + by rewrite lookup_insert_ne.
  - by destruct f, f'.
Qed.

(** C9. Take an instance [self] that a successful construction returned
    and on which any calls were made since, and an estimator [e] that it
    holds at ordinal [ord >= 0] of [model_kind] in family [f]. Then
    [fit_nuisance] (for the nuisance family; [fit_treatment] for the
    treatment family) passes to the estimator's [fit] the matrix [X] itself
    when no [feature_set] was given to the constructor, and otherwise
    [X[features]] for the entry [features] of [model_kind] in the instance's
    feature-set dict. If that indexing raises, the call raises the same and
    the heap is as before. Otherwise the call's outcome is that of the
    estimator's [fit], with the reference [self] as the value when it
    returns; in the heap only the object [self] may differ, within it no
    configuration attribute differs, the estimator at [(f, model_kind, ord)]
    is what its [fit] left, and every other estimator of both families is as
    before. *)
Theorem fit_frame (a : Args.t) h0 self h1 calls (f : family)
  (X : Matrix) (y : Vector) model_kind (model_ord : Z) fit_params m e :
  new cls a h0 = (Ok (VRef self), h1) →
  after_calls self calls h1 !! self = Some (OLearner m) →
  (0 ≤ model_ord)%Z →
  estimator f m model_kind (Z.to_nat model_ord) = Some e →
  ∃ passed : result Matrix,
    (if decide (Args.feature_set a = VNone) then passed = Ok X
     else ∃ features,
            dict_getitem (after_calls self calls h1) (feature_set m) model_kind
            = Ok features
            ∧ passed = getitem X features)
    ∧ match passed with
      | Raise err =>
          fit f self X y model_kind model_ord fit_params
            (after_calls self calls h1)
          = (Raise err, after_calls self calls h1)
      | Ok X' =>
          ∃ m' h',
            fit f self X y model_kind model_ord fit_params
              (after_calls self calls h1)
            = ((cfe_fit e X' y fit_params).2 ≫= λ _, Ok (VRef self), h')
            ∧ h' !! self = Some (OLearner m')
            ∧ (∀ l, l ≠ self → h' !! l = after_calls self calls h1 !! l)
            ∧ same_configuration m m'
            ∧ estimator f m' model_kind (Z.to_nat model_ord)
              = Some (cfe_fit e X' y fit_params).1
            ∧ ∀ f' kind' i',
                (f', kind', i') ≠ (f, model_kind, Z.to_nat model_ord) →
                estimator f' m' kind' i' = estimator f' m kind' i'
      end.
Proof.
  intros Hnew Hm Hord He.
  set (h := after_calls self calls h1) in *.
  destruct (new_Ok a h0 _ h1 Hnew)
    as (self' & m1 & h' & Hacc & Hw & Hhook & [= <-] & Hfresh & ->).
  assert (Hm1 : <[self := OLearner m1]> h' !! self = Some (OLearner m1))
    by (by rewrite lookup_insert_eq).
  pose proof (after_calls_evolves self calls _ m1 Hm1) as Hev.
  fold h in Hev.
  destruct (Hev) as (m_ & Hm_ & Hconf & Hshape & Hframe).
  rewrite Hm in Hm_. injection Hm_ as <-.
  (* the estimator and its kind *)
  unfold estimator in He.
  destruct (models f m) as [ms|] eqn:Hms; [|done]. simpl in He.
  destruct (ms !! model_kind) as [l|] eqn:Hl; [|done]. simpl in He.
  assert (Hlt : Z.to_nat model_ord < length l) by (by eapply lookup_lt_Some).
  assert (Hkind : model_kind ∈ dom (registry f)).
  { assert (Hs : shape (models f m) = shape (models f m1)) by apply Hshape.
    assert (∃ ms1, models f m1 = Some ms1 ∧ dom ms1 = dom (registry f))
      as (ms1 & Hms1 & Hdom1).
    { destruct f.
      - destruct (wired_nuisance_models _ _ _ _ _ Hw) as (ms1 & ? & ? & _). eauto.
      - destruct (wired_treatment_models _ _ _ _ _ Hw)
          as (ms0 & ms1 & ? & ? & ? & _). eauto. }
    rewrite Hms, Hms1 in Hs. injection Hs as Hs.
    rewrite <- Hdom1, <- (dom_fmap_L length ms1), <- Hs, dom_fmap_L.
    apply elem_of_dom. eauto. }
  (* what the estimator's fit receives *)
  assert (Hfs : feature_set m = feature_set m1) by apply Hconf.
  assert (Hpassed : ∃ passed : result Matrix,
    (if decide (Args.feature_set a = VNone) then passed = Ok X
     else ∃ features, dict_getitem h (feature_set m) model_kind = Ok features
                      ∧ passed = getitem X features)
    ∧ X_filtered self X model_kind h = (passed, h)).
  { rewrite (X_filtered_run self X model_kind h m Hm).
    pose proof (wired_feature_set _ _ _ _ _ Hw) as Hwfs.
    destruct (decide (Args.feature_set a = VNone)) as [Hnone|Hsome].
    - exists (Ok X). split; [done|]. by rewrite Hfs, Hwfs.
    - destruct Hwfs as (d & [Hd Hdom] & _).
      apply (as_dict_subseteq h' (<[self := OLearner m1]> h')) in Hd;
        [|by apply insert_subseteq].
      apply (as_dict_evolves self m1 _ h) in Hd; [|done..].
      rewrite <- Hfs in Hd.
      assert (Hin : model_kind ∈ dom d).
      { rewrite Hdom. destruct f; simpl in Hkind; set_solver. }
      apply elem_of_dom in Hin as [features Hfeat].
      exists (getitem X features). split.
      + exists features. split; [|done]. unfold dict_getitem. by rewrite Hd, Hfeat.
      + assert (Htruthy : truthy h (feature_set m) = true).
        { destruct (feature_set m); simpl in Hd; try done. simpl.
          destruct (h !! l0) as [[d'|]|]; try done. injection Hd as ->.
          apply bool_decide_eq_true. intros ->. by rewrite lookup_empty in Hfeat. }
        rewrite Htruthy. unfold dict_getitem. by rewrite Hd, Hfeat. }
  destruct Hpassed as (passed & Hwhat & Hrun).
  exists passed. split; [done|].
  rewrite fit_unfold.
  destruct passed as [X'|err].
  - rewrite (bind_run _ _ _ _ _ Hrun).
    pose proof (on_estimator_run f self model_kind model_ord
                  (λ e0, cfe_fit e0 X' y fit_params) h m ms l e
                  Hm Hms Hl Hord He) as Hon.
    eexists _, _. split_and!.
    + unfold mbind at 1, M_bind. rewrite Hon. simpl.
      by destruct (cfe_fit e X' y fit_params).2 as [[]|].
    + by rewrite lookup_insert_eq.
    + intros l0 Hl0. by rewrite lookup_insert_ne.
    + by destruct f; repeat split.
    + by apply estimator_set_models_eq.
    + intros f' kind' i' Hne. by apply estimator_set_models_ne.
  - by rewrite (bind_raise _ _ _ _ _ Hrun).
Qed.

(** *** Dicts whose keys are not the expected ones *)

Lemma broadcasts_receives_whole h h' argument field (names names' : gset string) d :
  per_kind h' field names' d →
  mismatched h argument names →
  broadcasts h argument names d →
  receives_whole h' field names argument.
Proof.
  intros [Hd Hdom] (d0 & Hd0 & Hne) Hb kind Hkind.
  unfold dict_getitem. rewrite Hd. by rewrite (Hb d0 Hd0 Hne kind Hkind).
Qed.

(** C10 as amended. Let the arguments pass the checks that [__init__]
    makes itself ([accepted]; in particular no dict passed as
    [nuisance_model_factory] or [nuisance_model_params] has the propensity
    name as a key). Then no step of [__init__] raises before the last hook,
    [_validate_models], and the call [cls(...)] returns an instance whenever
    that hook passes. In that instance a dict that was passed as
    [treatment_model_factory] or [treatment_model_params] with a key set
    other than the treatment kinds is the entry of every treatment kind; a
    dict passed as [feature_set] with a key set other than the nuisance and
    treatment kinds together is the entry of every kind; and a dict passed as
    [nuisance_model_factory] or [nuisance_model_params] with a key set other
    than the nuisance kinds without the propensity name is the entry of every
    nuisance kind but the propensity one, whose entry is
    [propensity_model_factory]. *)
Theorem mismatched_dict_is_broadcast (a : Args.t) h0 :
  accepted a h0 →
  ∃ m h',
    __init__ cls a h0
    = (match _validate_models cls h' m with
       | Ok _ => Ok m
       | Raise e => Raise e
       end, h')
    ∧ (_validate_models cls h' m = Ok () →
       ∃ self, h' !! self = None
               ∧ new cls a h0 = (Ok (VRef self), <[self := OLearner m]> h'))
    ∧ (mismatched h0 (Args.treatment_model_factory a) treatment_names →
       receives_whole h' (treatment_model_factory m) treatment_names
         (Args.treatment_model_factory a))
    ∧ (mismatched h0 (Args.treatment_model_params a) treatment_names →
       receives_whole h' (treatment_model_params m) treatment_names
         (Args.treatment_model_params a))
    ∧ (mismatched h0 (Args.feature_set a) (nuisance_names ∪ treatment_names) →
       receives_whole h' (feature_set m) (nuisance_names ∪ treatment_names)
         (Args.feature_set a))
    ∧ (mismatched h0 (Args.nuisance_model_factory a)
         (nuisance_names ∖ {[PROPENSITY_MODEL]}) →
       receives_whole h' (nuisance_model_factory m)
         (nuisance_names ∖ {[PROPENSITY_MODEL]}) (Args.nuisance_model_factory a))
    ∧ (mismatched h0 (Args.nuisance_model_params a)
         (nuisance_names ∖ {[PROPENSITY_MODEL]}) →
       receives_whole h' (nuisance_model_params m)
         (nuisance_names ∖ {[PROPENSITY_MODEL]}) (Args.nuisance_model_params a))
    ∧ (PROPENSITY_MODEL ∈ nuisance_names →
       dict_getitem h' (nuisance_model_factory m) PROPENSITY_MODEL
       = Ok (Args.propensity_model_factory a)).
Proof.
  intros Hacc.
  destruct (init_accepted a h0 Hacc) as (m & h' & Hw & Hinit).
  exists m, h'. split_and!; try done.
  - intros Hhook. rewrite Hhook in Hinit.
    destruct (alloc_fresh (OLearner m) h') as (self & Halloc & Hfresh).
    exists self. split; [done|]. unfold new.
    by rewrite (bind_run _ _ _ _ _ Hinit).
  - intros Hmis.
    destruct (wired_treatment_factory _ _ _ _ _ Hw) as (d & Hpk & Hb & _).
    by eapply (broadcasts_receives_whole h0 h').
  - intros Hmis.
    destruct (wired_treatment_params _ _ _ _ _ Hw) as (d & Hpk & Hb & _).
    by eapply (broadcasts_receives_whole h0 h').
  - intros Hmis.
    pose proof (wired_feature_set _ _ _ _ _ Hw) as Hfs.
    destruct (decide (Args.feature_set a = VNone)) as [Hnone|Hsome].
    { destruct Hmis as (d & Hd & _). by rewrite Hnone in Hd. }
    destruct Hfs as (d & Hpk & Hb & _).
    by eapply (broadcasts_receives_whole h0 h').
  - intros Hmis.
    destruct (wired_nuisance_factory _ _ _ _ _ Hw) as (d & Hpk & Hb & _).
    by eapply (broadcasts_receives_whole h0 h').
  - intros Hmis.
    destruct (wired_nuisance_params _ _ _ _ _ Hw) as (d & Hpk & Hb & _).
    by eapply (broadcasts_receives_whole h0 h').
  - intros Hin.
    destruct (wired_nuisance_factory _ _ _ _ _ Hw) as (d & [Hd _] & _ & _ & Hp).
    unfold dict_getitem. by rewrite Hd, (Hp Hin).
Qed.

End Construction.

End Properties.

(** * The theorems on the concrete variant *)

(** The dict of [Demo.heap1] has the expected key: it is returned as it is. *)
Lemma initialize_model_dict_spec_witness :
  ∃ d, as_dict Demo.heap1 (VRef 1) = Some d
       ∧ dom d = list_to_set ["variant_outcome_model"]
       ∧ _initialize_model_dict (VRef 1) ["variant_outcome_model"] Demo.heap1
         = (Ok (VRef 1), Demo.heap1).
Proof.
  assert (Hk : has_keys Demo.heap1 (VRef 1) (list_to_set ["variant_outcome_model"])).
  { eexists. split; [reflexivity | vm_compute; reflexivity]. }
  destruct (initialize_model_dict_spec (VRef 1) ["variant_outcome_model"] Demo.heap1)
    as (l & d & h' & Hrun & _ & _ & _ & Hsame & _).
  destruct (Hsame Hk) as [Hl Hh]. rewrite Hl, Hh in Hrun.
  destruct Hk as (d0 & Hd0 & Hdom).
  exists d0. split_and!; [exact Hd0 | exact Hdom | exact Hrun].
Defined.

(** The nuisance kinds of [Demo.DR] with [Ridge] and no propensity value. *)
Lemma combine_propensity_and_nuisance_specs_spec_witness :
  PROPENSITY_MODEL ∈ dom (nuisance_model_specifications Demo.DR)
  ∧ ∃ v0 h0 d0 l,
      _initialize_model_dict (VType "Ridge")
        (elements (dom (nuisance_model_specifications Demo.DR)
                   ∖ {[PROPENSITY_MODEL]})) ∅ = (Ok v0, h0)
      ∧ as_dict h0 v0 = Some d0
      ∧ h0 !! l = None
      ∧ _combine_propensity_and_nuisance_specs VNone (VType "Ridge")
          (dom (nuisance_model_specifications Demo.DR)) ∅
        = (Ok (VRef l), <[l := ODict (<[PROPENSITY_MODEL := VNone]> d0)]> h0).
Proof.
  assert (Hin : PROPENSITY_MODEL ∈ dom (nuisance_model_specifications Demo.DR))
    by compute_done.
  split; [exact Hin|].
  exact (proj1 (combine_propensity_and_nuisance_specs_spec VNone (VType "Ridge")
                  (dom (nuisance_model_specifications Demo.DR)) ∅) Hin).
Defined.

(** [Demo.DR] declares a propensity model; without a propensity factory
    the construction raises. *)
Lemma new_propensity_misconfigured_witness :
  propensity_misconfigured Demo.DR Demo.no_propensity ∅
  ∧ ∃ e, new Demo.DR Demo.no_propensity ∅ = (Raise e, ∅)
         ∧ (_validate_params Demo.DR ∅ Demo.no_propensity = Ok () →
            ∃ msg, e = ValueError msg).
Proof.
  assert (Hbad : propensity_misconfigured Demo.DR Demo.no_propensity ∅).
  { right; right; right. split; [compute_done | reflexivity]. }
  split; [exact Hbad|].
  exact (new_propensity_misconfigured Demo.DR Demo.no_propensity ∅ Hbad).
Defined.

(** [Demo.DR] with two variants keeps two outcome models, also after a fit. *)
Lemma estimators_per_kind_witness :
  new Demo.DR Demo.plain ∅ = (Ok (VRef 10), (new Demo.DR Demo.plain ∅).2)
  ∧ registry Demo.DR Nuisance !! "variant_outcome_model"
    = Some Demo.model_per_variant
  ∧ ∃ m ms' l',
      after_calls Demo.DR 10 Demo.first_fit (new Demo.DR Demo.plain ∅).2 !! 10%positive
      = Some (OLearner m)
      ∧ models Nuisance m = Some ms'
      ∧ ms' !! "variant_outcome_model" = Some l'
      ∧ length l' = 2.
Proof.
  assert (Hnew : new Demo.DR Demo.plain ∅
                 = (Ok (VRef 10), (new Demo.DR Demo.plain ∅).2))
    by (vm_compute; reflexivity).
  assert (Hspec : registry Demo.DR Nuisance !! "variant_outcome_model"
                  = Some Demo.model_per_variant)
    by (vm_compute; reflexivity).
  split_and!; [exact Hnew | exact Hspec |].
  pose proof (estimators_per_kind Demo.DR Demo.plain ∅ _ _ Nuisance
                "variant_outcome_model" Demo.model_per_variant Hnew Hspec)
    as (self & m & ms & fac & par & Hself & _ & _ & _ & _ & _ & _ & _ & _ & Hlife).
  injection Hself as <-.
  destruct (Hlife Demo.first_fit) as (m' & ms' & l' & Hm' & Hms' & Hl' & Hlen).
  exists m', ms', l'. split_and!; [exact Hm' | exact Hms' | exact Hl' | exact Hlen].
Defined.

(** The three treatment vectors of the spec, for two variants. *)
Lemma check_treatment_spec_witness :
  n_variants Demo.regression = VInt 2 ∧ (0 ≤ 2)%Z
  ∧ _check_treatment Demo.regression [0; 0; 1; 1]%Z = Ok ()
  ∧ is_ValueError (_check_treatment Demo.regression [0; 1; 2]%Z)
  ∧ is_ValueError (_check_treatment Demo.regression [1; 1; 1]%Z).
Proof.
  assert (Hn : n_variants Demo.regression = VInt 2) by reflexivity.
  assert (Hpos : (0 ≤ 2)%Z) by lia.
  split_and!; [exact Hn | exact Hpos | | |].
  - apply (proj1 (check_treatment_spec Demo.regression [0; 0; 1; 1]%Z 2 Hn Hpos)).
    intros x. rewrite !elem_of_cons, elem_of_nil. lia.
  - apply (proj2 (check_treatment_spec Demo.regression [0; 1; 2]%Z 2 Hn Hpos)).
    intros Henc. specialize (Henc 2%Z). rewrite !elem_of_cons in Henc.
    assert (0 ≤ 2 < 2)%Z by (apply Henc; auto). lia.
  - apply (proj2 (check_treatment_spec Demo.regression [1; 1; 1]%Z 2 Hn Hpos)).
    intros Henc. specialize (Henc 0%Z). rewrite !elem_of_cons, elem_of_nil in Henc.
    assert (0 = 1 ∨ 0 = 1 ∨ 0 = 1 ∨ False)%Z by (apply Henc; lia). lia.
Defined.

(** [Demo.DR] does not support more than two variants. *)
Lemma check_n_variants_spec_witness :
  is_ValueError (_check_n_variants Demo.DR (VInt 1))
  ∧ is_ValueError (_check_n_variants Demo.DR VNone)
  ∧ is_ValueError (_check_n_variants Demo.DR (VBool true))
  ∧ is_NotImplementedError (_check_n_variants Demo.DR (VInt 3))
  ∧ _check_n_variants Demo.DR (VInt 2) = Ok ().
Proof.
  split_and!.
  - apply (proj1 (check_n_variants_spec Demo.DR (VInt 1))). intros n [= <-]. lia.
  - apply (proj1 (check_n_variants_spec Demo.DR VNone)). intros n [=].
  - apply (proj1 (check_n_variants_spec Demo.DR (VBool true))). intros n [=].
  - apply (proj1 (proj2 (check_n_variants_spec Demo.DR (VInt 3))) 3%Z eq_refl). lia.
  - apply (proj2 (proj2 (check_n_variants_spec Demo.DR (VInt 2))) eq_refl).
Defined.

(** A code and a string that is not a code. *)
Lemma metalearner_factory_spec_witness :
  metalearner_factory "DR" = Ok DRLearner
  ∧ ("dr" ∉ codes)
  ∧ ∃ msg pre suf, metalearner_factory "dr" = Raise (ValueError msg)
                   ∧ msg = pre +:+ "dr" +:+ suf.
Proof.
  assert (Hout : "dr" ∉ codes) by compute_done.
  split_and!; [| exact Hout |].
  - exact (proj1 metalearner_factory_spec DRLearner).
  - exact (proj2 (proj2 (proj2 metalearner_factory_spec)) "dr" Hout).
Defined.

(** C8, as the claim states it, fails: an outcome with three distinct
    values passes the check of a class without support for several classes,
    because the instance is not a classification one. *)
Lemma check_outcome_counterexample :
  _supports_multi_class Demo.DR = false
  ∧ 2 < size (list_to_set [0; 1; 2]%Z : gset Z)
  ∧ is_classification Demo.regression = false
  ∧ _check_outcome Demo.DR Demo.regression [0; 1; 2]%Z = Ok ()
  ∧ ¬ is_ValueError (_check_outcome Demo.DR Demo.regression [0; 1; 2]%Z).
Proof.
  split_and!; try reflexivity; [vm_compute; lia | intros []].
Qed.

(** Three classes on a classification instance of [Demo.DR]. *)
Lemma check_outcome_spec_witness :
  is_classification Demo.classification = true
  ∧ _supports_multi_class Demo.DR = false
  ∧ 2 < size (list_to_set [0; 1; 2]%Z : gset Z)
  ∧ is_ValueError (_check_outcome Demo.DR Demo.classification [0; 1; 2]%Z).
Proof.
  assert (Hy : 2 < size (list_to_set [0; 1; 2]%Z : gset Z)) by (vm_compute; lia).
  split_and!; [reflexivity | reflexivity | exact Hy |].
  exact (proj1 (check_outcome_spec Demo.DR Demo.classification [0; 1; 2]%Z)
           eq_refl eq_refl Hy).
Defined.

(** The second outcome model of the instance built from [Demo.stray],
    after a fit of the first. *)
Lemma fit_frame_witness :
  new Demo.DR Demo.stray Demo.heap1 = (Ok (VRef 11), Demo.built)
  ∧ after_calls Demo.DR 11 Demo.first_fit Demo.built !! 11%positive
    = Some (OLearner (Demo.state Demo.fitted_once 11))
  ∧ (0 ≤ 1)%Z
  ∧ estimator Nuisance (Demo.state Demo.fitted_once 11)
      "variant_outcome_model" (Z.to_nat 1)
    = Some (default Demo.blank
              (estimator Nuisance (Demo.state Demo.fitted_once 11)
                 "variant_outcome_model" 1))
  ∧ ∃ passed : result Matrix,
      if decide (Args.feature_set Demo.stray = VNone) then passed = Ok ["a"; "b"]
      else ∃ features,
             dict_getitem (after_calls Demo.DR 11 Demo.first_fit Demo.built)
               (feature_set (Demo.state Demo.fitted_once 11))
               "variant_outcome_model" = Ok features
             ∧ passed = getitem ["a"; "b"] features.
Proof.
  assert (Hnew : new Demo.DR Demo.stray Demo.heap1 = (Ok (VRef 11), Demo.built))
    by (vm_compute; reflexivity).
  assert (Hm : after_calls Demo.DR 11 Demo.first_fit Demo.built !! 11%positive
               = Some (OLearner (Demo.state Demo.fitted_once 11)))
    by (vm_compute; reflexivity).
  assert (Hord : (0 ≤ 1)%Z) by lia.
  assert (He : estimator Nuisance (Demo.state Demo.fitted_once 11)
                 "variant_outcome_model" (Z.to_nat 1)
               = Some (default Demo.blank
                         (estimator Nuisance (Demo.state Demo.fitted_once 11)
                            "variant_outcome_model" 1)))
    by (vm_compute; reflexivity).
  split_and!; [exact Hnew | exact Hm | exact Hord | exact He |].
  pose proof (fit_frame Demo.DR Demo.stray Demo.heap1 11 Demo.built
                Demo.first_fit Nuisance ["a"; "b"] [0; 1]%Z
                "variant_outcome_model" 1 VNone _ _ Hnew Hm Hord He)
    as (passed & Hwhat & _).
  exists passed. exact Hwhat.
Defined.

(** C10, as the claim states it, fails: the dict
    [{"variant_outcome_model": Ridge}] passed as [nuisance_model_factory]
    omits a kind that the class declares, yet the construction does not give
    the dict to the kinds; it gives each kind its entry. *)
Lemma mismatched_dict_counterexample :
  ∃ d m,
    as_dict Demo.heap1 (Args.nuisance_model_factory Demo.by_kind) = Some d
    ∧ dom d ≠ dom (nuisance_model_specifications Demo.DR)
    ∧ new Demo.DR Demo.by_kind Demo.heap1
      = (Ok (VRef 10), (new Demo.DR Demo.by_kind Demo.heap1).2)
    ∧ (new Demo.DR Demo.by_kind Demo.heap1).2 !! 10%positive = Some (OLearner m)
    ∧ dict_getitem (new Demo.DR Demo.by_kind Demo.heap1).2
        (nuisance_model_factory m) "variant_outcome_model"
      = Ok (VType "Ridge")
    ∧ VType "Ridge" ≠ Args.nuisance_model_factory Demo.by_kind.
Proof.
  exists {[ "variant_outcome_model" := VType "Ridge" ]},
    (Demo.state (new Demo.DR Demo.by_kind Demo.heap1).2 10).
  split_and!.
  - reflexivity.
  - intros Heq.
    assert (Hin : PROPENSITY_MODEL ∈ dom (nuisance_model_specifications Demo.DR))
      by compute_done.
    rewrite <- Heq in Hin. revert Hin. compute_done.
  - vm_compute; reflexivity.
  - vm_compute; reflexivity.
  - vm_compute; reflexivity.
  - intros Heq. discriminate Heq.
Qed.

(** The dict of [Demo.heap1] as [treatment_model_params] of [Demo.DR]. *)
Lemma mismatched_dict_is_broadcast_witness :
  accepted Demo.DR Demo.stray Demo.heap1
  ∧ mismatched Demo.heap1 (Args.treatment_model_params Demo.stray)
      (dom (treatment_model_specifications Demo.DR))
  ∧ ∃ m h',
      (_validate_models Demo.DR h' m = Ok () →
       ∃ self, h' !! self = None
               ∧ new Demo.DR Demo.stray Demo.heap1
                 = (Ok (VRef self), <[self := OLearner m]> h'))
      ∧ receives_whole h' (treatment_model_params m)
          (dom (treatment_model_specifications Demo.DR))
          (Args.treatment_model_params Demo.stray).
Proof.
  assert (Hacc : accepted Demo.DR Demo.stray Demo.heap1).
  { unfold accepted. split_and!; try reflexivity.
    - compute_done.
    - intros _ Heq. discriminate Heq. }
  assert (Hmis : mismatched Demo.heap1 (Args.treatment_model_params Demo.stray)
                   (dom (treatment_model_specifications Demo.DR))).
  { exists {[ "variant_outcome_model" := VType "Ridge" ]}. split; [reflexivity|].
    intros Heq.
    assert (Hin : "variant_outcome_model"
                  ∈ dom ({[ "variant_outcome_model" := VType "Ridge" ]}
                           : gmap string value)) by compute_done.
    rewrite Heq in Hin. revert Hin. compute_done. }
  split_and!; [exact Hacc | exact Hmis |].
  pose proof (mismatched_dict_is_broadcast Demo.DR Demo.stray Demo.heap1 Hacc)
    as (m & h' & _ & Hnew & _ & Hparams & _).
  exists m, h'. split; [exact Hnew | exact (Hparams Hmis)].
Defined.

(** * Further properties of the code *)

Section Further.
Context `{Collaborators}.
Implicit Types (h : heap) (v argument : value) (names : list string).
Variable cls : MetaLearnerClass.

Local Abbreviation trace := (trace cls).
Local Abbreviation nuisance_names :=
  (dom (nuisance_model_specifications cls)) (only parsing).
Local Abbreviation treatment_names :=
  (dom (treatment_model_specifications cls)) (only parsing).

(** X1. The normaliser is idempotent: what [_initialize_model_dict] returned
    for [expected_names] is returned as it is, without any allocation, when
    it is normalised again for the same names. *)
Theorem initialize_model_dict_idempotent argument names h v h' :
  _initialize_model_dict argument names h = (Ok v, h') →
  _initialize_model_dict v names h' = (Ok v, h').
Proof.
  intros Hrun.
  destruct (initialize_model_dict_normalised argument names h)
    as (v0 & h0 & Hrun0 & l & d & -> & Hl & Hdom & _).
  rewrite Hrun in Hrun0. injection Hrun0 as -> ->.
  unfold _initialize_model_dict. simpl. rewrite Hl.
  by rewrite decide_True.
Qed.

(** X2. [_combine_propensity_and_nuisance_specs] always returns a dict
    whose key set is exactly [nuisance_model_names], and leaves every object
    that existed as it was. When the propensity name is one of the names the
    dict is a new object (so an input dict is never the result, nor changed)
    and its propensity entry is [propensity_specs]. *)
Theorem combine_key_set propensity_specs nuisance_specs
  (nuisance_model_names : gset string) h :
  ∃ l d h',
    _combine_propensity_and_nuisance_specs propensity_specs nuisance_specs
      nuisance_model_names h = (Ok (VRef l), h')
    ∧ h' !! l = Some (ODict d)
    ∧ dom d = nuisance_model_names
    ∧ h ⊆ h'
    ∧ (PROPENSITY_MODEL ∈ nuisance_model_names →
       h !! l = None ∧ d !! PROPENSITY_MODEL = Some propensity_specs).
Proof.
  destruct (combine_run propensity_specs nuisance_specs nuisance_model_names h)
    as (v & h' & d & Hrun & Hsub & [Hd Hdom] & _ & _ & Hp).
  destruct v as [| | | | | |l]; simpl in Hd; try done.
  destruct (h' !! l) as [[d'|]|] eqn:Hl; try done. injection Hd as ->.
  exists l, d, h'. split_and!; try done.
  intros Hin. split; [|by apply Hp].
  destruct (combine_propensity_member propensity_specs nuisance_specs
              nuisance_model_names h Hin)
    as (v0 & h0 & d0 & l0 & Hrun0 & Hnorm & _ & Hfresh & Hrun').
  rewrite Hrun' in Hrun. injection Hrun as -> _.
  pose proof (normalised_subseteq _ _ _ _ _ Hnorm) as Hsub0.
  destruct (h !! l) as [o|] eqn:Ho; [|done].
  by rewrite (lookup_weaken _ _ _ _ Ho Hsub0) in Hfresh.
Qed.

(** X3. When the propensity name is a nuisance name and [nuisance_specs] is
    a dict with exactly the nuisance names as keys (the propensity key
    included), the merge does not use the dict's entries: every other kind
    is mapped to the whole dict [nuisance_specs], and the propensity entry is
    [propensity_specs]. *)
Theorem combine_dict_with_propensity_key propensity_specs nuisance_specs
  (nuisance_model_names : gset string) h d0 :
  as_dict h nuisance_specs = Some d0 →
  dom d0 = nuisance_model_names →
  PROPENSITY_MODEL ∈ nuisance_model_names →
  ∃ v h' d,
    _combine_propensity_and_nuisance_specs propensity_specs nuisance_specs
      nuisance_model_names h = (Ok v, h')
    ∧ as_dict h' v = Some d
    ∧ d !! PROPENSITY_MODEL = Some propensity_specs
    ∧ ∀ kind, kind ∈ nuisance_model_names → kind ≠ PROPENSITY_MODEL →
              d !! kind = Some nuisance_specs.
Proof.
  intros Hd0 Hdom Hin.
  destruct (combine_run propensity_specs nuisance_specs nuisance_model_names h)
    as (v & h' & d & Hrun & Hsub & [Hd _] & Hb & _ & Hp).
  exists v, h', d. split_and!; try done; [by apply Hp|].
  intros kind Hkind Hne. apply (Hb d0 Hd0); [|set_solver].
  rewrite Hdom. intros Heq.
  assert (PROPENSITY_MODEL ∈ nuisance_model_names ∖ {[PROPENSITY_MODEL]})
    by (by rewrite <- Heq).
  set_solver.
Qed.


Lemma np_unique_sorted (w : Vector) : Sorted Z.le (np_unique w).
Proof. apply (Sorted_merge_sort Z.le). Qed.

Lemma np_unique_ext (w w' : Vector) :
  list_to_set w =@{gset Z} list_to_set w' → np_unique w = np_unique w'.
Proof.
  intros Heq. apply (Sorted_unique Z.le); try apply np_unique_sorted.
  apply NoDup_Permutation; try apply NoDup_np_unique.
  intros x. rewrite !elem_of_np_unique.
  by rewrite <- !(elem_of_list_to_set (C:=gset Z)), Heq.
Qed.


(** X5. [_check_treatment] and [_check_outcome] depend on the vector only
    through its set of distinct values: order and repetitions change neither
    the outcome nor the message. *)
Theorem checks_depend_on_value_set (self : MetaLearner) (w w' : Vector) :
  list_to_set w =@{gset Z} list_to_set w' →
  _check_treatment self w = _check_treatment self w'
  ∧ _check_outcome cls self w = _check_outcome cls self w'.
Proof.
  intros Heq. unfold _check_treatment, _check_outcome.
  by rewrite (np_unique_ext w w' Heq).
Qed.


Lemma check_treatment_iff (self : MetaLearner) (w : Vector) (n : Z) :
  n_variants self = VInt n → (0 ≤ n)%Z →
  _check_treatment self w = Ok () ↔ encodes_variants w n.
Proof.
  intros Hself Hn. unfold _check_treatment, int_ne, range.
  rewrite Hself. simpl. split.
  - case_bool_decide; [done|]. simpl. case_bool_decide as Hset; [done|].
    intros _. apply encodes_variants_set.
    by destruct (decide (list_to_set (np_unique w) =@{gset Z} list_to_set (seqZ 0 n))).
  - intros Henc. rewrite (encodes_variants_len w n Hn Henc).
    rewrite bool_decide_false by (intros ?; done). simpl.
    rewrite bool_decide_false; [done|].
    intros Hne. apply Hne. by apply encodes_variants_set.
Qed.


Lemma check_n_variants_Ok_inv (n_variants : value) :
  _check_n_variants cls n_variants = Ok () →
  ∃ n, n_variants = VInt n ∧ (2 ≤ n)%Z
       ∧ (_supports_multi_treatment cls = false → n = 2%Z).
Proof.
  unfold _check_n_variants.
  destruct n_variants as [| [] | n | | | |]; simpl; try done.
  case_bool_decide as Hlt; [done|].
  case_bool_decide as Hgt; simpl.
  - destruct (_supports_multi_treatment cls) eqn:Hs; [|done].
    intros _. exists n. split_and!; [done | lia | done].
  - intros _. exists n. split_and!; [done | lia | lia].
Qed.

(** X7. On an instance that a successful construction returned, after any
    sequence of fit and predict calls: [n_variants] is the integer [n] given
    to the constructor, [n >= 2], [n = 2] when the class does not support
    more than two variants, [is_classification] is the constructor's, and
    [_check_treatment] accepts exactly the vectors whose distinct values are
    [0 .. n-1]. *)
Theorem constructed_n_variants (a : Args.t) h0 self h1 calls m :
  new cls a h0 = (Ok (VRef self), h1) →
  after_calls cls self calls h1 !! self = Some (OLearner m) →
  ∃ n, Args.n_variants a = VInt n ∧ n_variants m = VInt n ∧ (2 ≤ n)%Z
       ∧ (_supports_multi_treatment cls = false → n = 2%Z)
       ∧ is_classification m = Args.is_classification a
       ∧ ∀ w, _check_treatment m w = Ok () ↔ encodes_variants w n.
Proof.
  intros Hnew Hm.
  destruct (new_Ok cls a h0 _ h1 Hnew)
    as (self' & m1 & h' & Hacc & Hw & _ & [= <-] & _ & ->).
  assert (Hm1 : <[self := OLearner m1]> h' !! self = Some (OLearner m1))
    by (by rewrite lookup_insert_eq).
  destruct (after_calls_evolves cls self calls _ m1 Hm1)
    as (m_ & Hm_ & Hconf & _).
  rewrite Hm in Hm_. injection Hm_ as <-.
  destruct Hacc as (_ & _ & _ & _ & _ & Hn & _).
  destruct (check_n_variants_Ok_inv _ Hn) as (n & Hv & Hge & Hbin).
  destruct Hconf as (Hc & Hnv & _).
  assert (Hmn : n_variants m = VInt n).
  { rewrite Hnv, (wired_n_variants _ _ _ _ _ Hw). done. }
  exists n. split_and!; try done.
  - rewrite Hc. apply Hw.
  - intros w. apply check_treatment_iff; [done | lia].
Qed.

(** X8. When the class hook accepts the arguments and the propensity
    arguments are consistent, an [n_variants] that [_check_n_variants]
    refuses makes the construction raise that same exception, before
    anything is allocated: the heap is unchanged. *)
Theorem new_n_variants_rejected (a : Args.t) h e :
  _validate_params cls h a = Ok () →
  ¬ propensity_misconfigured cls a h →
  _check_n_variants cls (Args.n_variants a) = Raise e →
  new cls a h = (Raise e, h).
Proof.
  intros Hhook Hprop Hn. unfold new. apply bind_raise. unfold __init__.
  rewrite (bind_run _ _ h () h) by (unfold reading; by rewrite Hhook).
  cbv zeta.
  destruct (decide (PROPENSITY_MODEL ∈ dom (treatment_model_specifications cls)))
    as [Ht|Ht].
  { exfalso. apply Hprop. by left. }
  rewrite (bool_decide_eq_false_2 _ Ht).
  rewrite (bind_run _ _ h () h) by done.
  rewrite (bind_run _ _ h _ h) by done.
  destruct (dict_has_key h (Args.nuisance_model_factory a) PROPENSITY_MODEL) eqn:Hf.
  { exfalso. apply Hprop. right; left. by apply dict_has_key_true. }
  rewrite (bind_run _ _ h () h) by done.
  rewrite (bind_run _ _ h _ h) by done.
  destruct (dict_has_key h (Args.nuisance_model_params a) PROPENSITY_MODEL) eqn:Hp.
  { exfalso. apply Hprop. right; right; left. by apply dict_has_key_true. }
  rewrite (bind_run _ _ h () h) by done.
  destruct (bool_decide (PROPENSITY_MODEL ∈ dom (nuisance_model_specifications cls))
            && match Args.propensity_model_factory a with
               | VNone => true | _ => false end) eqn:Hcond.
  { exfalso. apply Hprop. right; right; right.
    apply andb_true_iff in Hcond as [Hin%bool_decide_eq_true Hnone].
    split; [done|]. by destruct (Args.propensity_model_factory a). }
  rewrite (bind_run _ _ h () h) by done.
  apply bind_raise. unfold reading. by rewrite Hn.
Qed.

(** X9. Any sequence of [fit_nuisance], [fit_treatment],
    [predict_nuisance] and [predict_treatment] calls on an instance, failing
    or not, leaves its configuration attributes as they were, keeps the
    kinds of both model dicts and the number of estimators of each kind, and
    changes no other object. *)
Theorem calls_keep_configuration self calls h m :
  h !! self = Some (OLearner m) →
  ∃ m', after_calls cls self calls h !! self = Some (OLearner m')
        ∧ same_configuration m m'
        ∧ (∀ f, shape (models f m') = shape (models f m))
        ∧ ∀ l, l ≠ self → after_calls cls self calls h !! l = h !! l.
Proof. apply after_calls_evolves. Qed.


(** X10. When every earlier check passes and
    [validate_number_positive] refuses [n_folds], the construction raises
    that same exception. *)
Theorem new_n_folds_rejected (a : Args.t) h e :
  _validate_params cls h a = Ok () →
  ¬ propensity_misconfigured cls a h →
  _check_n_variants cls (Args.n_variants a) = Ok () →
  validate_number_positive (Args.n_folds a) "n_folds" = Raise e →
  ∃ h', new cls a h = (Raise e, h').
Proof.
  intros Hhook Hprop Hn Hfolds. unfold new.
  enough (∃ h', __init__ cls a h = (Raise e, h')) as [h' Hinit].
  { exists h'. by apply bind_raise. }
  unfold __init__.
  rewrite (bind_run _ _ h () h) by (unfold reading; by rewrite Hhook).
  cbv zeta.
  destruct (decide (PROPENSITY_MODEL ∈ dom (treatment_model_specifications cls)))
    as [Ht|Ht].
  { exfalso. apply Hprop. by left. }
  rewrite (bool_decide_eq_false_2 _ Ht).
  rewrite (bind_run _ _ h () h) by done.
  rewrite (bind_run _ _ h _ h) by done.
  destruct (dict_has_key h (Args.nuisance_model_factory a) PROPENSITY_MODEL) eqn:Hf.
  { exfalso. apply Hprop. right; left. by apply dict_has_key_true. }
  rewrite (bind_run _ _ h () h) by done.
  rewrite (bind_run _ _ h _ h) by done.
  destruct (dict_has_key h (Args.nuisance_model_params a) PROPENSITY_MODEL) eqn:Hp.
  { exfalso. apply Hprop. right; right; left. by apply dict_has_key_true. }
  rewrite (bind_run _ _ h () h) by done.
  destruct (bool_decide (PROPENSITY_MODEL ∈ dom (nuisance_model_specifications cls))
            && match Args.propensity_model_factory a with
               | VNone => true | _ => false end) eqn:Hcond.
  { exfalso. apply Hprop. right; right; right.
    apply andb_true_iff in Hcond as [Hin%bool_decide_eq_true Hnone].
    split; [done|]. by destruct (Args.propensity_model_factory a). }
  rewrite (bind_run _ _ h () h) by done.
  rewrite (bind_run _ _ h () h) by (unfold reading; by rewrite Hn).
  destruct (combine_run (Args.propensity_model_factory a)
              (Args.nuisance_model_factory a)
              (dom (nuisance_model_specifications cls)) h)
    as (v1 & h1 & d1 & Hrun1 & _).
  destruct (or_empty_dict_run (Args.nuisance_model_params a) h1)
    as (v2 & h2 & Hrun2 & _).
  destruct (or_empty_dict_run (Args.propensity_model_params a) h2)
    as (v3 & h3 & Hrun3 & _).
  destruct (combine_run v3 v2 (dom (nuisance_model_specifications cls)) h3)
    as (v4 & h4 & d4 & Hrun4 & _).
  destruct (initialize_model_dict_run (Args.treatment_model_factory a)
              (dom (treatment_model_specifications cls)) h4)
    as (v5 & h5 & d5 & Hrun5 & _).
  destruct (treatment_params_run (Args.treatment_model_params a)
              (dom (treatment_model_specifications cls)) h5)
    as (v6 & h6 & d6 & Hrun6 & _).
  rewrite (bind_run _ _ _ _ _ Hrun1).
  rewrite (bind_run _ _ _ _ _ Hrun2).
  rewrite (bind_run _ _ _ _ _ Hrun3).
  rewrite (bind_run _ _ _ _ _ Hrun4).
  rewrite (bind_run _ _ _ _ _ Hrun5).
  rewrite (bind_run _ _ _ _ _ Hrun6).
  exists h6. apply bind_raise. unfold reading. by rewrite Hfolds.
Qed.


Lemma grows_refl h : grows h h.
Proof. by split. Qed.

Lemma grows_trans h1 h2 h3 : grows h1 h2 → grows h2 h3 → grows h1 h3.
Proof.
  intros [Hs12 Hl12] [Hs23 Hl23]. split; [by etrans|].
  intros l m Hl. by apply Hl12, Hl23.
Qed.

Lemma dicts_only_ret {A} (x : A) : dicts_only (mret x).
Proof. intros h. apply grows_refl. Qed.

Lemma dicts_only_raise {A} e : dicts_only (raise (A:=A) e).
Proof. intros h. apply grows_refl. Qed.

Lemma dicts_only_reading {A} (f : heap → result A) : dicts_only (reading f).
Proof. intros h. apply grows_refl. Qed.

Lemma dicts_only_bind {A B} (c : M A) (k : A → M B) :
  dicts_only c → (∀ x, dicts_only (k x)) → dicts_only (c ≫= k).
Proof.
  intros Hc Hk h. specialize (Hc h). unfold mbind, M_bind.
  destruct (c h) as [[x|e] h1]; simpl in *; [|done].
  apply (grows_trans _ h1); [done | apply Hk].
Qed.

Lemma dicts_only_alloc d : dicts_only (alloc (ODict d)).
Proof.
  intros h. destruct (alloc_fresh (ODict d) h) as (l & -> & Hl). simpl.
  split; [by apply insert_subseteq|].
  intros l' m. destruct (decide (l = l')) as [<-|Hne].
  - by rewrite lookup_insert_eq.
  - by rewrite lookup_insert_ne.
Qed.

Lemma dicts_only_raise_if b e : dicts_only (raise_if b e).
Proof. destruct b; [apply dicts_only_raise | apply dicts_only_ret]. Qed.

Lemma dicts_only_or_empty_dict x : dicts_only (or_empty_dict x).
Proof. destruct x; try apply dicts_only_ret. apply dicts_only_alloc. Qed.

Lemma dicts_only_initialize_model_dict argument names :
  dicts_only (_initialize_model_dict argument names).
Proof.
  intros h. unfold _initialize_model_dict.
  destruct (as_dict h argument) as [d|].
  - case_decide; [apply grows_refl | apply dicts_only_alloc].
  - apply dicts_only_alloc.
Qed.

Lemma dicts_only_dict_or v other : dicts_only (dict_or v other).
Proof.
  intros h. unfold dict_or.
  destruct (as_dict h v); [apply dicts_only_alloc | apply grows_refl].
Qed.

Lemma dicts_only_combine propensity_specs nuisance_specs (keys : gset string) :
  dicts_only
    (_combine_propensity_and_nuisance_specs propensity_specs nuisance_specs keys).
Proof.
  unfold _combine_propensity_and_nuisance_specs. case_decide.
  - apply dicts_only_bind; [apply dicts_only_initialize_model_dict|].
    intros d. apply dicts_only_dict_or.
  - apply dicts_only_initialize_model_dict.
Qed.

Lemma dicts_only_init (a : Args.t) : dicts_only (__init__ cls a).
Proof.
  unfold __init__.
  repeat first
    [ apply dicts_only_ret
    | apply dicts_only_bind;
      [ first [ apply dicts_only_reading | apply dicts_only_raise_if
              | apply dicts_only_combine | apply dicts_only_or_empty_dict
              | apply dicts_only_initialize_model_dict | idtac ]
      | intros ? ] ].
  - destruct (Args.treatment_model_params a);
      try apply dicts_only_initialize_model_dict.
    apply dicts_only_bind; [apply dicts_only_alloc|].
    intros ?. apply dicts_only_initialize_model_dict.
  - destruct (Args.feature_set a);
      try apply dicts_only_initialize_model_dict.
    apply dicts_only_ret.
Qed.

(** X11. A construction never changes an object that exists. When it
    raises, it has made no meta-learner (dicts may have been allocated
    before the failure); when it returns, exactly one meta-learner is new:
    the one it returns, at an address that was free. *)
Theorem new_all_or_nothing (a : Args.t) h r h' :
  new cls a h = (r, h') →
  h ⊆ h'
  ∧ match r with
    | Raise _ => ∀ l m, h' !! l = Some (OLearner m) → h !! l = Some (OLearner m)
    | Ok v =>
        ∃ self m,
          v = VRef self ∧ h !! self = None ∧ h' !! self = Some (OLearner m)
          ∧ ∀ l m', l ≠ self → h' !! l = Some (OLearner m') →
                    h !! l = Some (OLearner m')
    end.
Proof.
  intros Hnew. unfold new, mbind, M_bind in Hnew.
  pose proof (dicts_only_init a h) as [Hsub Hlearners].
  destruct (__init__ cls a h) as [[m|e] h1]; simpl in *.
  - destruct (alloc_fresh (OLearner m) h1) as (self & Halloc & Hfresh).
    rewrite Halloc in Hnew. injection Hnew as <- <-.
    split; [etrans; [done | by apply insert_subseteq]|].
    exists self, m. split_and!; try done.
    + destruct (h !! self) as [o|] eqn:Ho; [|done].
      by rewrite (lookup_weaken _ _ _ _ Ho Hsub) in Hfresh.
    + by rewrite lookup_insert_eq.
    + intros l m' Hne Hl. rewrite lookup_insert_ne in Hl by done.
      by apply Hlearners.
  - injection Hnew as <- <-. done.
Qed.


Lemma new_trace (a : Args.t) h0 self h1 :
  new cls a h0 = (Ok (VRef self), h1) →
  ∃ m, h1 !! self = Some (OLearner m) ∧ trace a h0 self m h1.
Proof.
  intros Hnew.
  destruct (new_Ok cls a h0 _ h1 Hnew)
    as (self' & m0 & h' & Hacc & _ & _ & [= <-] & _ & _).
  destruct Hacc as (Hhook & Ht & Hf & Hp & Hprop & Hn & Hfolds).
  destruct (combine_run (Args.propensity_model_factory a)
              (Args.nuisance_model_factory a) nuisance_names h0)
    as (v1 & h1' & d1 & Hrun1 & Hsub1 & Hpk1 & _).
  destruct (or_empty_dict_run (Args.nuisance_model_params a) h1')
    as (v2 & h2 & Hrun2 & Hsub2 & _).
  destruct (or_empty_dict_run (Args.propensity_model_params a) h2)
    as (v3 & h3 & Hrun3 & Hsub3 & _).
  destruct (combine_run v3 v2 nuisance_names h3)
    as (v4 & h4 & d4 & Hrun4 & Hsub4 & Hpk4 & _).
  destruct (initialize_model_dict_run (Args.treatment_model_factory a)
              treatment_names h4)
    as (v5 & h5 & d5 & Hrun5 & Hsub5 & Hpk5 & _).
  destruct (treatment_params_run (Args.treatment_model_params a)
              treatment_names h5)
    as (v6 & h6 & d6 & Hrun6 & Hsub6 & Hpk6 & _).
  destruct (feature_set_run (Args.feature_set a)
              (nuisance_names ∪ treatment_names) h6)
    as (v7 & h7 & Hrun7 & Hsub7 & _).
  assert (Hsub57 : h5 ⊆ h7) by (by etrans).
  assert (Hsub47 : h4 ⊆ h7) by (by etrans).
  assert (Hsub37 : h3 ⊆ h7) by (by etrans).
  assert (Hsub27 : h2 ⊆ h7) by (by etrans).
  assert (Hsub17 : h1' ⊆ h7) by (by etrans).
  apply (per_kind_weaken _ h7) in Hpk1; [|done].
  apply (per_kind_weaken _ h7) in Hpk4; [|done].
  apply (per_kind_weaken _ h7) in Hpk5; [|done].
  apply (per_kind_weaken _ h7) in Hpk6; [|done].
  set (self0 := configured a v1 v4 v5 v6 v7).
  destruct (models_comprehension_run h7 self0 (nuisance_model_specifications cls)
              v1 v4 d1 d4 Hpk1 Hpk4) as (nm & Hrun8 & _).
  destruct (models_comprehension_run h7 (set_models Nuisance self0 nm)
              (treatment_model_specifications cls)
              v5 v6 d5 d6 Hpk5 Hpk6) as (tm & Hrun9 & _).
  set (m := set_models Treatment (set_models Nuisance self0 nm) tm).
  assert (Hinit : __init__ cls a h0
                  = (match _validate_models cls h7 m with
                     | Ok _ => Ok m
                     | Raise e => Raise e
                     end, h7)).
  { unfold __init__.
    rewrite (bind_run _ _ h0 () h0) by (unfold reading; by rewrite Hhook).
    cbv zeta.
    rewrite (bool_decide_eq_false_2 _ Ht).
    rewrite (bind_run _ _ h0 () h0) by done.
    rewrite (bind_run _ _ h0 _ h0) by done. rewrite Hf.
    rewrite (bind_run _ _ h0 () h0) by done.
    rewrite (bind_run _ _ h0 _ h0) by done. rewrite Hp.
    rewrite (bind_run _ _ h0 () h0) by done.
    assert (Hcond :
      bool_decide (PROPENSITY_MODEL ∈ nuisance_names)
      && match Args.propensity_model_factory a with VNone => true | _ => false end
      = false).
    { case_bool_decide as Hin; [|done]. specialize (Hprop Hin).
      by destruct (Args.propensity_model_factory a). }
    rewrite Hcond.
    rewrite (bind_run _ _ h0 () h0) by done.
    rewrite (bind_run _ _ h0 () h0) by (unfold reading; by rewrite Hn).
    rewrite (bind_run _ _ _ _ _ Hrun1).
    rewrite (bind_run _ _ _ _ _ Hrun2).
    rewrite (bind_run _ _ _ _ _ Hrun3).
    rewrite (bind_run _ _ _ _ _ Hrun4).
    rewrite (bind_run _ _ _ _ _ Hrun5).
    rewrite (bind_run _ _ _ _ _ Hrun6).
    rewrite (bind_run _ _ h6 () h6) by (unfold reading; by rewrite Hfolds).
    rewrite (bind_run _ _ _ _ _ Hrun7).
    fold self0.
    rewrite (bind_run _ _ h7 nm h7) by (unfold reading; by rewrite Hrun8).
    rewrite (bind_run _ _ h7 tm h7) by (unfold reading; by rewrite Hrun9).
    fold m. unfold mbind, M_bind, reading.
    by destruct (_validate_models cls h7 m) as [[]|]. }
  unfold new in Hnew.
  destruct (_validate_models cls h7 m) as [[]|e] eqn:Hhook'.
  2:{ by rewrite (bind_raise _ _ _ _ _ Hinit) in Hnew. }
  rewrite (bind_run _ _ _ _ _ Hinit) in Hnew.
  destruct (alloc_fresh (OLearner m) h7) as (l & Halloc & Hfresh).
  rewrite Halloc in Hnew. injection Hnew as <- <-.
  exists m. split; [by rewrite lookup_insert_eq|].
  exists h1', h2, h3, h4, h5, h6, h7, v2, v3. split_and!; done.
Qed.

Lemma has_keys_subseteq h h' argument (keys : gset string) :
  h ⊆ h' → has_keys h argument keys → has_keys h' argument keys.
Proof.
  intros Hsub (d & Hd & Hdom). exists d. split; [|done].
  by apply (as_dict_subseteq h).
Qed.

Lemma has_keys_not_None h argument (keys : gset string) :
  has_keys h argument keys → ∃ l, argument = VRef l.
Proof. intros (d & Hd & _). destruct argument; try done. eauto. Qed.

Lemma initialize_model_dict_same argument (keys : gset string) h v h' :
  _initialize_model_dict argument (elements keys) h = (Ok v, h') →
  has_keys h argument keys → v = argument ∧ h' = h.
Proof.
  intros Hrun Hk.
  destruct (initialize_model_dict_normalised argument (elements keys) h)
    as (v0 & h0 & Hrun0 & l & d & -> & _ & _ & Hsame & _).
  rewrite Hrun in Hrun0. injection Hrun0 as -> ->.
  apply Hsame. by rewrite list_to_set_elements_L.
Qed.

Lemma initialize_model_dict_of_empty l (keys : gset string) h v h' :
  _initialize_model_dict (VRef l) (elements keys) h = (Ok v, h') →
  h !! l = Some (ODict ∅) →
  h ⊆ h' ∧ ∀ kind, kind ∈ keys → dict_getitem h' v kind = Ok (VRef l).
Proof.
  intros Hrun Hl.
  destruct (initialize_model_dict_run (VRef l) keys h)
    as (v0 & h0 & d & Hrun0 & Hsub & [Hd Hdom] & Hb & _).
  rewrite Hrun in Hrun0. injection Hrun0 as <- <-.
  split; [done|]. intros kind Hkind. unfold dict_getitem. rewrite Hd.
  rewrite (Hb ∅); [done | by simpl; rewrite Hl | | done].
  rewrite dom_empty_L. intros Heq. rewrite <- Heq in Hkind.
  by apply not_elem_of_empty in Hkind.
Qed.

Lemma combine_of_empty propensity_specs l (keys : gset string) h v h' :
  _combine_propensity_and_nuisance_specs propensity_specs (VRef l) keys h
  = (Ok v, h') →
  h !! l = Some (ODict ∅) →
  h ⊆ h'
  ∧ ∀ kind, kind ∈ keys → kind ≠ PROPENSITY_MODEL →
            dict_getitem h' v kind = Ok (VRef l).
Proof.
  intros Hrun Hl.
  destruct (combine_run propensity_specs (VRef l) keys h)
    as (v0 & h0 & d & Hrun0 & Hsub & [Hd Hdom] & Hb & _).
  rewrite Hrun in Hrun0. injection Hrun0 as <- <-.
  split; [done|]. intros kind Hkind Hne. unfold dict_getitem. rewrite Hd.
  rewrite (Hb ∅); [done | by simpl; rewrite Hl | | set_solver].
  rewrite dom_empty_L. intros Heq.
  assert (kind ∈ keys ∖ {[PROPENSITY_MODEL]}) as Hin by set_solver.
  rewrite <- Heq in Hin. by apply not_elem_of_empty in Hin.
Qed.

Lemma combine_propensity_entry propensity_specs nuisance_specs
  (keys : gset string) h v h' :
  _combine_propensity_and_nuisance_specs propensity_specs nuisance_specs keys h
  = (Ok v, h') →
  PROPENSITY_MODEL ∈ keys →
  h ⊆ h' ∧ dict_getitem h' v PROPENSITY_MODEL = Ok propensity_specs
  ∧ ∃ l, v = VRef l ∧ h !! l = None.
Proof.
  intros Hrun Hin.
  destruct (combine_propensity_member propensity_specs nuisance_specs keys h Hin)
    as (v0 & h0 & d0 & l & Hrun0 & Hnorm & Hd0 & Hfresh & Hrun').
  rewrite Hrun in Hrun'. injection Hrun' as -> ->.
  pose proof (normalised_subseteq _ _ _ _ _ Hnorm) as Hsub0.
  split_and!.
  - etrans; [done|]. by apply insert_subseteq.
  - unfold dict_getitem. simpl. by rewrite lookup_insert_eq, lookup_insert_eq.
  - exists l. split; [done|].
    destruct (h !! l) as [o|] eqn:Ho; [|done].
    by rewrite (lookup_weaken _ _ _ _ Ho Hsub0) in Hfresh.
Qed.

Lemma or_empty_dict_None h v h' :
  or_empty_dict VNone h = (Ok v, h') →
  ∃ l, v = VRef l ∧ h !! l = None ∧ h' = <[l := ODict ∅]> h.
Proof.
  simpl. destruct (alloc_fresh (ODict ∅) h) as (l & -> & Hl).
  intros [= <- <-]. by exists l.
Qed.

Lemma or_empty_dict_dict h x v h' (keys : gset string) :
  or_empty_dict x h = (Ok v, h') → has_keys h x keys → v = x ∧ h' = h.
Proof.
  intros Hrun (l & ->)%has_keys_not_None. simpl in Hrun.
  by injection Hrun as <- <-.
Qed.

Lemma lookup_None_subseteq (h h' : heap) l : h ⊆ h' → h' !! l = None → h !! l = None.
Proof.
  intros Hsub Hl. destruct (h !! l) as [o|] eqn:Ho; [|done].
  by rewrite (lookup_weaken _ _ _ _ Ho Hsub) in Hl.
Qed.

(** X12. A successful construction keeps by reference the dicts it is
    given with exactly the expected keys: the treatment factory and
    parameter dicts, the feature-set dict, and, for a class without a
    propensity model, the nuisance factory and parameter dicts are the very
    objects passed in. For a class with a propensity model the nuisance
    factory and parameter dicts of the instance are new objects. *)
Theorem exact_dicts_kept_by_reference (a : Args.t) h0 self h1 :
  new cls a h0 = (Ok (VRef self), h1) →
  ∃ m, h1 !! self = Some (OLearner m)
    ∧ (has_keys h0 (Args.treatment_model_factory a) treatment_names →
       treatment_model_factory m = Args.treatment_model_factory a)
    ∧ (has_keys h0 (Args.treatment_model_params a) treatment_names →
       treatment_model_params m = Args.treatment_model_params a)
    ∧ (has_keys h0 (Args.feature_set a) (nuisance_names ∪ treatment_names) →
       feature_set m = Args.feature_set a)
    ∧ (PROPENSITY_MODEL ∉ nuisance_names →
       (has_keys h0 (Args.nuisance_model_factory a) nuisance_names →
        nuisance_model_factory m = Args.nuisance_model_factory a)
       ∧ (has_keys h0 (Args.nuisance_model_params a) nuisance_names →
          nuisance_model_params m = Args.nuisance_model_params a))
    ∧ (PROPENSITY_MODEL ∈ nuisance_names →
       (∃ l, nuisance_model_factory m = VRef l ∧ h0 !! l = None)
       ∧ (∃ l, nuisance_model_params m = VRef l ∧ h0 !! l = None)).
Proof.
  intros Hnew.
  destruct (new_trace a h0 self h1 Hnew)
    as (m & Hm & ha & hb & hc & hd & he & hf & hg & v2 & v3
        & Hnf & Hnp0 & Hpp0 & Hnp & Htf & Htp & Hfs
        & H01 & H12 & H23 & H34 & H45 & H56 & H67 & Hfresh & ->).
  assert (H02 : h0 ⊆ hb) by (by etrans).
  assert (H03 : h0 ⊆ hc) by (by etrans).
  assert (H04 : h0 ⊆ hd) by (by etrans).
  assert (H05 : h0 ⊆ he) by (by etrans).
  assert (H06 : h0 ⊆ hf) by (by etrans).
  exists m. split_and!; try done.
  - intros Hk. apply (has_keys_subseteq h0 hd) in Hk; [|done].
    by destruct (initialize_model_dict_same _ _ _ _ _ Htf Hk).
  - intros Hk. apply (has_keys_subseteq h0 he) in Hk; [|done].
    destruct (has_keys_not_None _ _ _ Hk) as [l Hl]. rewrite Hl in Htp, Hk.
    rewrite Hl. by destruct (initialize_model_dict_same _ _ _ _ _ Htp Hk).
  - intros Hk. apply (has_keys_subseteq h0 hf) in Hk; [|done].
    destruct (has_keys_not_None _ _ _ Hk) as [l Hl]. rewrite Hl in Hfs, Hk.
    rewrite Hl. by destruct (initialize_model_dict_same _ _ _ _ _ Hfs Hk).
  - intros Hout. split.
    + intros Hk. rewrite combine_propensity_absent in Hnf by done.
      by destruct (initialize_model_dict_same _ _ _ _ _ Hnf Hk).
    + intros Hk. apply (has_keys_subseteq h0 ha) in Hk; [|done].
      destruct (or_empty_dict_dict _ _ _ _ _ Hnp0 Hk) as [-> ->].
      rewrite combine_propensity_absent in Hnp by done.
      apply (has_keys_subseteq ha hc) in Hk; [|done].
      by destruct (initialize_model_dict_same _ _ _ _ _ Hnp Hk).
  - intros Hin. split.
    + destruct (combine_propensity_entry _ _ _ _ _ _ Hnf Hin)
        as (_ & _ & l & Hl & Hnone). eauto.
    + destruct (combine_propensity_entry _ _ _ _ _ _ Hnp Hin)
        as (_ & _ & l & Hl & Hnone).
      exists l. split; [done|]. by apply (lookup_None_subseteq h0 hc).
Qed.

(** X13. With [treatment_model_params=None] every treatment kind's
    parameters are one and the same new empty dict object; likewise for
    [nuisance_model_params=None] and the nuisance kinds other than the
    propensity model; with [propensity_model_params=None] the propensity
    entry is a new empty dict. *)
Theorem default_params_are_one_empty_dict (a : Args.t) h0 self h1 :
  new cls a h0 = (Ok (VRef self), h1) →
  ∃ m, h1 !! self = Some (OLearner m)
    ∧ (Args.treatment_model_params a = VNone →
       ∃ l, h0 !! l = None ∧ h1 !! l = Some (ODict ∅)
            ∧ ∀ kind, kind ∈ treatment_names →
                dict_getitem h1 (treatment_model_params m) kind = Ok (VRef l))
    ∧ (Args.nuisance_model_params a = VNone →
       ∃ l, h0 !! l = None ∧ h1 !! l = Some (ODict ∅)
            ∧ ∀ kind, kind ∈ nuisance_names → kind ≠ PROPENSITY_MODEL →
                dict_getitem h1 (nuisance_model_params m) kind = Ok (VRef l))
    ∧ (Args.propensity_model_params a = VNone →
       PROPENSITY_MODEL ∈ nuisance_names →
       ∃ l, h0 !! l = None ∧ h1 !! l = Some (ODict ∅)
            ∧ dict_getitem h1 (nuisance_model_params m) PROPENSITY_MODEL
              = Ok (VRef l)).
Proof.
  intros Hnew.
  destruct (new_trace a h0 self h1 Hnew)
    as (m & Hm & ha & hb & hc & hd & he & hf & hg & v2 & v3
        & Hnf & Hnp0 & Hpp0 & Hnp & Htf & Htp & Hfs
        & H01 & H12 & H23 & H34 & H45 & H56 & H67 & Hfresh & ->).
  assert (H7 : hg ⊆ <[self := OLearner m]> hg) by (by apply insert_subseteq).
  assert (H6' : hf ⊆ <[self := OLearner m]> hg) by (etrans; [exact H67 | exact H7]).
  assert (H5' : he ⊆ <[self := OLearner m]> hg) by (etrans; [exact H56 | exact H6']).
  assert (H4' : hd ⊆ <[self := OLearner m]> hg) by (etrans; [exact H45 | exact H5']).
  assert (H3' : hc ⊆ <[self := OLearner m]> hg) by (etrans; [exact H34 | exact H4']).
  assert (H02 : h0 ⊆ hb) by (by etrans).
  assert (H03 : h0 ⊆ hc) by (by etrans).
  assert (H04 : h0 ⊆ hd) by (by etrans).
  assert (H05 : h0 ⊆ he) by (by etrans).
  exists m. split_and!; try done.
  - intros Hnone. rewrite Hnone in Htp.
    destruct (alloc_fresh (ODict ∅) he) as (l & Halloc & Hl).
    rewrite (bind_run _ _ _ _ _ Halloc) in Htp.
    destruct (initialize_model_dict_of_empty l treatment_names _ _ _ Htp)
      as [Hsub Hall]; [by rewrite lookup_insert_eq|].
    exists l. split_and!.
    + by apply (lookup_None_subseteq h0 he).
    + apply (lookup_weaken (<[l := ODict ∅]> he)); [by rewrite lookup_insert_eq|].
      etrans; [exact Hsub | exact H6'].
    + intros kind Hkind. apply (dict_getitem_subseteq hf); [done|]. by apply Hall.
  - intros Hnone. rewrite Hnone in Hnp0.
    destruct (or_empty_dict_None _ _ _ Hnp0) as (l & -> & Hl & ->).
    assert (Hl3 : hc !! l = Some (ODict ∅)).
    { apply (lookup_weaken (<[l := ODict ∅]> ha)); [by rewrite lookup_insert_eq|done]. }
    destruct (combine_of_empty _ _ _ _ _ _ Hnp Hl3) as [_ Hall].
    exists l. split_and!.
    + by apply (lookup_None_subseteq h0 ha).
    + by apply (lookup_weaken hc).
    + intros kind Hkind Hne. apply (dict_getitem_subseteq hd); [done|].
      by apply Hall.
  - intros Hnone Hin. rewrite Hnone in Hpp0.
    destruct (or_empty_dict_None _ _ _ Hpp0) as (l & -> & Hl & ->).
    destruct (combine_propensity_entry _ _ _ _ _ _ Hnp Hin) as (_ & Hentry & _).
    exists l. split_and!.
    + by apply (lookup_None_subseteq h0 hb).
    + apply (lookup_weaken (<[l := ODict ∅]> hb)); [by rewrite lookup_insert_eq|].
      etrans; [exact H34 | exact H4'].
    + by apply (dict_getitem_subseteq hd).
Qed.


Lemma alter_insert_estimator (ms : gmap string (list (CFE Trained))) kind l i e' :
  ms !! kind = Some l →
  <[kind := <[i := e']> l]> ms = alter (λ l, <[i := e']> l) kind ms.
Proof.
  intros Hl. apply map_eq; intros k. rewrite lookup_alter.
  destruct (decide (kind = k)) as [<-|Hne].
  - by rewrite lookup_insert_eq, Hl.
  - by rewrite lookup_insert_ne.
Qed.

Lemma as_dict_insert_learner h self m m' v :
  h !! self = Some (OLearner m) →
  as_dict (<[self := OLearner m']> h) v = as_dict h v.
Proof.
  intros Hm. destruct v; simpl; try done.
  destruct (decide (self = l)) as [<-|Hne].
  - by rewrite lookup_insert_eq, Hm.
  - by rewrite lookup_insert_ne.
Qed.

Lemma truthy_insert_learner h self m m' v :
  h !! self = Some (OLearner m) →
  truthy (<[self := OLearner m']> h) v = truthy h v.
Proof.
  intros Hm. destruct v; simpl; try done.
  destruct (decide (self = l)) as [<-|Hne].
  - by rewrite lookup_insert_eq, Hm.
  - by rewrite lookup_insert_ne.
Qed.

Lemma X_filtered_insert_learner self X kind h m m' :
  h !! self = Some (OLearner m) → feature_set m' = feature_set m →
  X_filtered self X kind (<[self := OLearner m']> h)
  = ((X_filtered self X kind h).1, <[self := OLearner m']> h).
Proof.
  intros Hm Hfs.
  rewrite (X_filtered_run self X kind h m Hm).
  rewrite (X_filtered_run self X kind _ m') by (by rewrite lookup_insert_eq).
  simpl. rewrite Hfs, (truthy_insert_learner h self m m') by done.
  unfold dict_getitem. by rewrite (as_dict_insert_learner h self m m').
Qed.

Lemma X_filtered_heap self X kind h : (X_filtered self X kind h).2 = h.
Proof.
  unfold X_filtered, the_learner, mbind, M_bind, reading.
  by destruct (h !! self) as [[]|].
Qed.

(** [fit] on an estimator that exists. *)
Lemma fit_exists f self X y kind ord fit_params h m e :
  h !! self = Some (OLearner m) → (0 ≤ ord)%Z →
  estimator f m kind (Z.to_nat ord) = Some e →
  fit f self X y kind ord fit_params h
  = match (X_filtered self X kind h).1 with
    | Raise err => (Raise err, h)
    | Ok X' =>
        ((cfe_fit e X' y fit_params).2 ≫= λ _, Ok (VRef self),
         <[self := OLearner (with_estimator f m kind (Z.to_nat ord)
                               (cfe_fit e X' y fit_params).1)]> h)
    end.
Proof.
  intros Hm Hord He. unfold estimator in He.
  destruct (models f m) as [ms|] eqn:Hms; [|done]. simpl in He.
  destruct (ms !! kind) as [l|] eqn:Hl; [|done]. simpl in He.
  rewrite fit_unfold.
  pose proof (X_filtered_heap self X kind h) as Hheap.
  destruct (X_filtered self X kind h) as [[X'|err] h_] eqn:Hrun;
    simpl in *; subst h_.
  - rewrite (bind_run _ _ _ _ _ Hrun).
    unfold mbind at 1, M_bind.
    rewrite (on_estimator_run f self kind ord _ h m ms l e Hm Hms Hl Hord He).
    simpl. unfold with_estimator. rewrite Hms.
    rewrite (alter_insert_estimator ms kind l _ _ Hl).
    by destruct (cfe_fit e X' y fit_params).2 as [[]|].
  - by rewrite (bind_raise _ _ _ _ _ Hrun).
Qed.

Lemma on_estimator_KeyError {A} f self kind ord
  (method : CFE Trained → CFE Trained * result A) h m ms :
  h !! self = Some (OLearner m) → models f m = Some ms → ms !! kind = None →
  on_estimator f self kind ord method h = (Raise (KeyError kind), h).
Proof. intros Hm Hms Hl. unfold on_estimator. by rewrite Hm, Hms, Hl. Qed.

Lemma on_estimator_IndexError {A} f self kind ord
  (method : CFE Trained → CFE Trained * result A) h m ms l :
  h !! self = Some (OLearner m) → models f m = Some ms → ms !! kind = Some l →
  ¬ (- Z.of_nat (length l) ≤ ord < Z.of_nat (length l))%Z →
  on_estimator f self kind ord method h = (Raise IndexError, h).
Proof.
  intros Hm Hms Hl Hout. unfold on_estimator, list_index.
  rewrite Hm, Hms, Hl. cbv zeta.
  rewrite bool_decide_false by lia. rewrite bool_decide_false by lia. done.
Qed.

Lemma on_estimator_negative {A} f self kind ord
  (method : CFE Trained → CFE Trained * result A) h m ms l :
  h !! self = Some (OLearner m) → models f m = Some ms → ms !! kind = Some l →
  (- Z.of_nat (length l) ≤ ord < 0)%Z →
  on_estimator f self kind ord method h
  = on_estimator f self kind (Z.of_nat (length l) + ord) method h.
Proof.
  intros Hm Hms Hl Hneg. unfold on_estimator, list_index.
  rewrite Hm, Hms, Hl. cbv zeta.
  rewrite (bool_decide_false (0 ≤ ord < _)%Z) by lia.
  rewrite (bool_decide_true (- _ ≤ ord < 0)%Z) by lia.
  rewrite (bool_decide_true (0 ≤ _ + ord < _)%Z) by lia.
  done.
Qed.

(** X14. When the kind exists in the family and the ordinal is neither in
    [0 .. len-1] nor in [-len .. -1], a fit call raises [IndexError] (after
    the feature selection, whose own error comes first) and leaves the heap
    as it was. *)
Theorem fit_ordinal_out_of_range f self X y kind ord fit_params h m ms l :
  h !! self = Some (OLearner m) → models f m = Some ms → ms !! kind = Some l →
  ¬ (- Z.of_nat (length l) ≤ ord < Z.of_nat (length l))%Z →
  fit f self X y kind ord fit_params h
  = ((X_filtered self X kind h).1 ≫= λ _, Raise IndexError, h).
Proof.
  intros Hm Hms Hl Hout. rewrite fit_unfold.
  pose proof (X_filtered_heap self X kind h) as Hheap.
  destruct (X_filtered self X kind h) as [[X'|err] h_] eqn:Hrun;
    simpl in *; subst h_.
  - rewrite (bind_run _ _ _ _ _ Hrun). apply bind_raise.
    by apply (on_estimator_IndexError f self kind ord _ h m ms l).
  - by rewrite (bind_raise _ _ _ _ _ Hrun).
Qed.

(** X15. A negative ordinal in [-len .. -1] counts from the end, as Python
    list indexing does: fitting or predicting at [ord] is fitting or
    predicting at [len + ord]. *)
Theorem negative_ordinal_counts_from_end f self X y kind ord fit_params
  is_oos oos_method h m ms l :
  h !! self = Some (OLearner m) → models f m = Some ms → ms !! kind = Some l →
  (- Z.of_nat (length l) ≤ ord < 0)%Z →
  fit f self X y kind ord fit_params h
  = fit f self X y kind (Z.of_nat (length l) + ord) fit_params h
  ∧ (f = Treatment →
     predict_treatment self X kind ord is_oos oos_method h
     = predict_treatment self X kind (Z.of_nat (length l) + ord) is_oos
         oos_method h)
  ∧ (f = Nuisance →
     predict_nuisance cls self X kind ord is_oos oos_method h
     = predict_nuisance cls self X kind (Z.of_nat (length l) + ord) is_oos
         oos_method h).
Proof.
  intros Hm Hms Hl Hneg.
  pose proof (X_filtered_heap self X kind h) as Hheap.
  assert (Hon : ∀ A (method : CFE Trained → CFE Trained * result A),
            on_estimator f self kind ord method h
            = on_estimator f self kind (Z.of_nat (length l) + ord) method h).
  { intros A method. by apply (on_estimator_negative f self kind ord _ h m ms l). }
  split_and!.
  - rewrite !fit_unfold. unfold mbind, M_bind.
    destruct (X_filtered self X kind h) as [[X'|err] h_]; simpl in *; subst;
      [|done].
    by rewrite Hon.
  - intros ->. unfold predict_treatment, mbind, M_bind.
    destruct (X_filtered self X kind h) as [[X'|err] h_]; simpl in *; subst;
      [|done].
    by rewrite Hon.
  - intros ->. unfold predict_nuisance, mbind, M_bind.
    destruct (X_filtered self X kind h) as [[X'|err] h_]; simpl in *; subst;
      [|done].
    unfold the_learner, reading. rewrite Hm.
    destruct (registry_getitem (nuisance_model_specifications cls) kind);
      [|done].
    by rewrite Hon.
Qed.


Lemma set_models_twice f m ms ms' :
  set_models f (set_models f m ms) ms' = set_models f m ms'.
Proof. by destruct f. Qed.

Lemma models_set_models f m ms : models f (set_models f m ms) = Some ms.
Proof. by destruct f. Qed.

Lemma feature_set_with_estimator f m kind i e' :
  feature_set (with_estimator f m kind i e') = feature_set m.
Proof. unfold with_estimator. by destruct (models f m), f. Qed.

Lemma estimator_with_estimator_ne f m kind i e' f' kind' i' :
  (f', kind', i') ≠ (f, kind, i) →
  estimator f' (with_estimator f m kind i e') kind' i' = estimator f' m kind' i'.
Proof.
  intros Hne. unfold with_estimator, estimator.
  destruct (models f m) as [ms|] eqn:Hms; [|done].
  destruct (decide (f' = f)) as [->|Hf].
  - rewrite models_set_models, Hms. simpl. rewrite lookup_alter.
    destruct (decide (kind = kind')) as [<-|Hk]; [|done].
    destruct (ms !! kind) as [l|]; [|done]. simpl.
    apply list_lookup_insert_ne. congruence.
  - by destruct f, f'.
Qed.

Lemma with_estimator_commute f1 f2 m k1 k2 i1 i2 e1 e2 :
  (f1, k1, i1) ≠ (f2, k2, i2) →
  with_estimator f1 (with_estimator f2 m k2 i2 e2) k1 i1 e1
  = with_estimator f2 (with_estimator f1 m k1 i1 e1) k2 i2 e2.
Proof.
  intros Hne. destruct (decide (f1 = f2)) as [<-|Hf].
  - unfold with_estimator.
    destruct (models f1 m) as [ms|] eqn:Hms; [|by rewrite Hms].
    rewrite !models_set_models, !set_models_twice. f_equal.
    apply map_eq; intros k. rewrite !lookup_alter.
    repeat case_decide; subst; try done.
    destruct (ms !! k) as [l|]; [|done]. simpl. f_equal.
    apply list_insert_insert_ne. congruence.
  - unfold with_estimator.
    destruct m as [? ? ? ? ? ? ? ? ? [nm|] [tm|]]; destruct f1, f2; done.
Qed.

Lemma fit_after_other f self X y kind ord fit_params h m e f' kind' i' e' :
  h !! self = Some (OLearner m) → (0 ≤ ord)%Z →
  estimator f m kind (Z.to_nat ord) = Some e →
  (f, kind, Z.to_nat ord) ≠ (f', kind', i') →
  fit f self X y kind ord fit_params
    (<[self := OLearner (with_estimator f' m kind' i' e')]> h)
  = match (X_filtered self X kind h).1 with
    | Raise err =>
        (Raise err, <[self := OLearner (with_estimator f' m kind' i' e')]> h)
    | Ok X' =>
        ((cfe_fit e X' y fit_params).2 ≫= λ _, Ok (VRef self),
         <[self := OLearner
             (with_estimator f (with_estimator f' m kind' i' e') kind
                (Z.to_nat ord) (cfe_fit e X' y fit_params).1)]> h)
    end.
Proof.
  intros Hm Hord He Hne.
  rewrite (fit_exists f self X y kind ord fit_params _
             (with_estimator f' m kind' i' e') e);
    [| by rewrite lookup_insert_eq | done
     | by rewrite estimator_with_estimator_ne ].
  rewrite (X_filtered_insert_learner self X kind h m)
    by (done || apply feature_set_with_estimator).
  simpl. destruct (X_filtered self X kind h).1; [|done].
  by rewrite insert_insert_eq.
Qed.

(** X16. Two fit calls on different estimators of one instance commute:
    each call has the same outcome whichever comes first, and the heap after
    both is the same in either order. *)
Theorem fits_commute self h m
  f1 (X1 : Matrix) (y1 : Vector) k1 (i1 : Z) p1 e1
  f2 (X2 : Matrix) (y2 : Vector) k2 (i2 : Z) p2 e2 :
  h !! self = Some (OLearner m) →
  (0 ≤ i1)%Z → estimator f1 m k1 (Z.to_nat i1) = Some e1 →
  (0 ≤ i2)%Z → estimator f2 m k2 (Z.to_nat i2) = Some e2 →
  (f1, k1, Z.to_nat i1) ≠ (f2, k2, Z.to_nat i2) →
  (fit f2 self X2 y2 k2 i2 p2 (fit f1 self X1 y1 k1 i1 p1 h).2).2
  = (fit f1 self X1 y1 k1 i1 p1 (fit f2 self X2 y2 k2 i2 p2 h).2).2
  ∧ (fit f1 self X1 y1 k1 i1 p1 (fit f2 self X2 y2 k2 i2 p2 h).2).1
    = (fit f1 self X1 y1 k1 i1 p1 h).1
  ∧ (fit f2 self X2 y2 k2 i2 p2 (fit f1 self X1 y1 k1 i1 p1 h).2).1
    = (fit f2 self X2 y2 k2 i2 p2 h).1.
Proof.
  intros Hm Hi1 He1 Hi2 He2 Hne.
  assert (Hne' : (f2, k2, Z.to_nat i2) ≠ (f1, k1, Z.to_nat i1)) by congruence.
  rewrite (fit_exists f1 self X1 y1 k1 i1 p1 h m e1 Hm Hi1 He1).
  rewrite (fit_exists f2 self X2 y2 k2 i2 p2 h m e2 Hm Hi2 He2).
  destruct (X_filtered self X1 k1 h).1 as [X1'|err1] eqn:HP1;
    destruct (X_filtered self X2 k2 h).1 as [X2'|err2] eqn:HP2; simpl.
  - rewrite (fit_after_other f2 self X2 y2 k2 i2 p2 h m e2 f1 k1 _ _
               Hm Hi2 He2 Hne').
    rewrite (fit_after_other f1 self X1 y1 k1 i1 p1 h m e1 f2 k2 _ _
               Hm Hi1 He1 Hne).
    rewrite HP1, HP2. simpl. split_and!; try done.
    by rewrite (with_estimator_commute f2 f1 m k2 k1 _ _ _ _ Hne').
  - rewrite (fit_after_other f2 self X2 y2 k2 i2 p2 h m e2 f1 k1 _ _
               Hm Hi2 He2 Hne').
    rewrite (fit_exists f1 self X1 y1 k1 i1 p1 h m e1 Hm Hi1 He1).
    rewrite HP1, HP2. done.
  - rewrite (fit_after_other f1 self X1 y1 k1 i1 p1 h m e1 f2 k2 _ _
               Hm Hi1 He1 Hne).
    rewrite (fit_exists f2 self X2 y2 k2 i2 p2 h m e2 Hm Hi2 He2).
    rewrite HP1, HP2. done.
  - rewrite (fit_exists f1 self X1 y1 k1 i1 p1 h m e1 Hm Hi1 He1).
    rewrite (fit_exists f2 self X2 y2 k2 i2 p2 h m e2 Hm Hi2 He2).
    rewrite HP1, HP2. done.
Qed.

(** X17. On an instance that a successful construction returned, after any
    sequence of calls, fitting a kind that the class declares in neither
    registry raises [KeyError] on that kind and leaves the heap as it
    is. *)
Theorem fit_undeclared_kind (a : Args.t) h0 self h1 calls f X y kind ord
  fit_params :
  new cls a h0 = (Ok (VRef self), h1) →
  kind ∉ dom (nuisance_model_specifications cls)
         ∪ dom (treatment_model_specifications cls) →
  fit f self X y kind ord fit_params (after_calls cls self calls h1)
  = (Raise (KeyError kind), after_calls cls self calls h1).
Proof.
  intros Hnew Hkind.
  set (h := after_calls cls self calls h1).
  destruct (new_Ok cls a h0 _ h1 Hnew)
    as (self' & m1 & h' & Hacc & Hw & _ & [= <-] & Hfresh & ->).
  assert (Hm1 : <[self := OLearner m1]> h' !! self = Some (OLearner m1))
    by (by rewrite lookup_insert_eq).
  pose proof (after_calls_evolves cls self calls _ m1 Hm1) as Hev.
  fold h in Hev. destruct (Hev) as (m & Hm & Hconf & Hshape & _).
  assert (Hfs : feature_set m = feature_set m1) by apply Hconf.
  assert (Hnone : ∃ ms, models f m = Some ms ∧ ms !! kind = None).
  { assert (∃ ms1, models f m1 = Some ms1 ∧ dom ms1 = dom (registry cls f))
      as (ms1 & Hms1 & Hdom1).
    { destruct f.
      - destruct (wired_nuisance_models _ _ _ _ _ Hw) as (ms1 & ? & ? & _). eauto.
      - destruct (wired_treatment_models _ _ _ _ _ Hw)
          as (ms0 & ms1 & ? & ? & ? & _). eauto. }
    specialize (Hshape f). rewrite Hms1 in Hshape. unfold shape in Hshape.
    destruct (models f m) as [ms|]; [|done]. simpl in Hshape.
    injection Hshape as Hshape. exists ms. split; [done|].
    apply not_elem_of_dom.
    rewrite <- (dom_fmap_L length ms), Hshape, dom_fmap_L, Hdom1.
    destruct f; simpl; set_solver. }
  destruct Hnone as (ms & Hms & Hl).
  rewrite fit_unfold.
  pose proof (X_filtered_run self X kind h m Hm) as Hrun.
  destruct (truthy h (feature_set m)) eqn:Htruthy.
  - pose proof (wired_feature_set _ _ _ _ _ Hw) as Hwfs.
    destruct (decide (Args.feature_set a = VNone)) as [Hn|Hsome].
    { rewrite Hfs, Hwfs in Htruthy. done. }
    destruct Hwfs as (d & [Hd Hdom] & _).
    apply (as_dict_subseteq h' (<[self := OLearner m1]> h')) in Hd;
      [|by apply insert_subseteq].
    apply (as_dict_evolves self m1 _ h) in Hd; [|done..].
    rewrite <- Hfs in Hd.
    assert (Hout : d !! kind = None) by (apply not_elem_of_dom; by rewrite Hdom).
    unfold dict_getitem in Hrun. rewrite Hd, Hout in Hrun.
    by apply bind_raise.
  - rewrite (bind_run _ _ _ _ _ Hrun).
    apply bind_raise.
    by apply (on_estimator_KeyError f self kind ord _ h m ms).
Qed.


(** X18. For an estimator that exists at a non-negative ordinal and a
    feature selection that succeeds: [predict_treatment] always calls the
    estimator's [predict]; [predict_nuisance] calls [predict] or
    [predict_proba] as the kind's registry entry says for the instance as
    it is now; the estimator at that place is replaced by what the call
    left. [predict_nuisance] on a kind that is not in the nuisance registry
    raises [KeyError], whether an estimator is there or not. *)
Theorem predict_dispatch self X kind ord is_oos oos_method h m :
  h !! self = Some (OLearner m) → (0 ≤ ord)%Z →
  (∀ e, estimator Treatment m kind (Z.to_nat ord) = Some e →
     predict_treatment self X kind ord is_oos oos_method h
     = match (X_filtered self X kind h).1 with
       | Raise err => (Raise err, h)
       | Ok X' =>
           ((cfe_predict e X' is_oos oos_method).2,
            <[self := OLearner
                (with_estimator Treatment m kind (Z.to_nat ord)
                   (cfe_predict e X' is_oos oos_method).1)]> h)
       end)
  ∧ (∀ e spec, estimator Nuisance m kind (Z.to_nat ord) = Some e →
       nuisance_model_specifications cls !! kind = Some spec →
       predict_nuisance cls self X kind ord is_oos oos_method h
       = match (X_filtered self X kind h).1 with
         | Raise err => (Raise err, h)
         | Ok X' =>
             let method :=
               match predict_method spec m with
               | predict => cfe_predict
               | predict_proba => cfe_predict_proba
               end in
             ((method e X' is_oos oos_method).2,
              <[self := OLearner
                  (with_estimator Nuisance m kind (Z.to_nat ord)
                     (method e X' is_oos oos_method).1)]> h)
         end)
  ∧ (nuisance_model_specifications cls !! kind = None →
     predict_nuisance cls self X kind ord is_oos oos_method h
     = ((X_filtered self X kind h).1 ≫= λ _, Raise (KeyError kind), h)).
Proof.
  intros Hm Hord.
  pose proof (X_filtered_heap self X kind h) as Hheap.
  split_and!.
  - intros e He. unfold estimator in He.
    destruct (models Treatment m) as [ms|] eqn:Hms; [|done]. simpl in He.
    destruct (ms !! kind) as [l|] eqn:Hl; [|done]. simpl in He.
    unfold predict_treatment, mbind, M_bind.
    destruct (X_filtered self X kind h) as [[X'|err] h_]; simpl in Hheap |- *; subst h_;
      [|done].
    rewrite (on_estimator_run Treatment self kind ord _ h m ms l e Hm Hms Hl Hord He).
    unfold with_estimator. rewrite Hms.
    by rewrite (alter_insert_estimator ms kind l _ _ Hl).
  - intros e spec He Hspec. unfold estimator in He.
    destruct (models Nuisance m) as [ms|] eqn:Hms; [|done]. simpl in He.
    destruct (ms !! kind) as [l|] eqn:Hl; [|done]. simpl in He.
    unfold predict_nuisance, mbind, M_bind.
    destruct (X_filtered self X kind h) as [[X'|err] h_]; simpl in Hheap |- *; subst h_;
      [|done].
    unfold the_learner, reading, registry_getitem. rewrite Hm, Hspec.
    rewrite (on_estimator_run Nuisance self kind ord _ h m ms l e Hm Hms Hl Hord He).
    unfold with_estimator. rewrite Hms.
    rewrite (alter_insert_estimator ms kind l _ _ Hl).
    by destruct (predict_method spec m).
  - intros Hspec. unfold predict_nuisance, mbind, M_bind.
    destruct (X_filtered self X kind h) as [[X'|err] h_]; simpl in Hheap |- *; subst h_;
      [|done].
    unfold the_learner, reading, registry_getitem. by rewrite Hm, Hspec.
Qed.

(** ** The result tensors *)

Section TensorProperties.
Variable _n_outputs : CFE Trained → PredictMethod → Z.

Local Abbreviation dimension := (dimension _n_outputs).
Local Abbreviation tensors_of_kind := (tensors_of_kind _n_outputs).
Local Abbreviation fill_tensors := (fill_tensors _n_outputs).
Local Abbreviation _nuisance_tensors := (_nuisance_tensors _n_outputs cls).
Local Abbreviation tensor_shape := (tensor_shape _n_outputs).

Lemma mapM_result_Ok {A B} (f : A → result B) (g : A → B) (l : list A) :
  (∀ x, x ∈ l → f x = Ok (g x)) → mapM f l = Ok (g <$> l).
Proof.
  induction l as [|x l IH]; intros Hf; [done|].
  simpl. rewrite (Hf x) by (by left). simpl.
  rewrite IH by (intros y Hy; apply Hf; by right). done.
Qed.

Lemma mapM_result_Raise {A B} (f : A → result B) (e : exn) (l : list A) :
  (∀ x, x ∈ l → (∃ y, f x = Ok y) ∨ f x = Raise e) →
  (∃ x, x ∈ l ∧ f x = Raise e) →
  mapM f l = Raise e.
Proof.
  induction l as [|x l IH]; intros Hall (x0 & Hin & Hx0).
  { by apply elem_of_nil in Hin. }
  simpl. destruct (Hall x) as [[y Hy]|Hx]; [by left| |by rewrite Hx].
  rewrite Hy. simpl.
  apply elem_of_cons in Hin as [->|Hin]; [congruence|].
  rewrite IH; [done | intros z Hz; apply Hall; by right | eauto].
Qed.

Lemma np_zeros_tensor_shape n_obs pm e :
  (0 ≤ n_obs)%Z → np_zeros (tensor_shape n_obs pm e) = Ok (tensor_shape n_obs pm e).
Proof.
  intros Hn. unfold np_zeros, tensor_shape.
  destruct (decide (_n_outputs e pm > 1)%Z) as [Hout|Hout].
  - rewrite (bool_decide_true (_ > 1)%Z) by done.
    rewrite bool_decide_true; [done|]. repeat constructor; lia.
  - rewrite (bool_decide_false (_ > 1)%Z) by done.
    rewrite bool_decide_true; [done|]. by repeat constructor.
Qed.

Lemma dimension_in_range self n_obs kind ord pm ms l e :
  _nuisance_models self = Some ms → ms !! kind = Some l →
  (0 ≤ ord)%Z → l !! Z.to_nat ord = Some e →
  dimension self n_obs kind ord pm = Ok (tensor_shape n_obs pm e).
Proof.
  intros Hms Hl Hord He. unfold dimension, list_index, tensor_shape.
  rewrite Hms, Hl. cbv zeta.
  apply lookup_lt_Some in He as Hlt.
  rewrite bool_decide_true by lia. simpl. rewrite He.
  by case_bool_decide.
Qed.

Lemma dimension_out_of_range self n_obs kind ord pm ms l :
  _nuisance_models self = Some ms → ms !! kind = Some l →
  (Z.of_nat (length l) ≤ ord)%Z →
  dimension self n_obs kind ord pm = Raise IndexError.
Proof.
  intros Hms Hl Hord. unfold dimension, list_index.
  rewrite Hms, Hl. cbv zeta.
  rewrite bool_decide_false by lia. rewrite bool_decide_false by lia. done.
Qed.

Lemma tensors_of_kind_Ok self n_obs kind spec ms l :
  _nuisance_models self = Some ms → ms !! kind = Some l → (0 ≤ n_obs)%Z →
  Z.to_nat (cardinality spec self) ≤ length l →
  tensors_of_kind self n_obs kind spec
  = Ok (tensor_shape n_obs (predict_method spec self)
          <$> take (Z.to_nat (cardinality spec self)) l).
Proof.
  intros Hms Hl Hn Hlen. unfold tensors_of_kind.
  set (pm := predict_method spec self).
  set (g := λ ord : Z,
         match l !! Z.to_nat ord with
         | Some e => tensor_shape n_obs pm e
         | None => []
         end).
  rewrite (mapM_result_Ok _ g).
  - f_equal. apply list_eq; intros i. rewrite !list_lookup_fmap.
    destruct (decide (i < Z.to_nat (cardinality spec self))) as [Hi|Hi].
    + rewrite (lookup_seqZ_lt 0 _ i) by lia.
      rewrite lookup_take_lt by done. simpl.
      subst g. simpl. replace (Z.to_nat (0 + Z.of_nat i)) with i by lia.
      destruct (l !! i) as [e|] eqn:He; [done|].
      apply lookup_ge_None in He. lia.
    + rewrite (lookup_seqZ_ge 0 _ i) by lia.
      by rewrite lookup_take_ge by lia.
  - intros ord Hord%elem_of_seqZ.
    destruct (lookup_lt_is_Some_2 l (Z.to_nat ord)) as [e He]; [lia|].
    rewrite (dimension_in_range self n_obs kind ord pm ms l e) by (done || lia).
    simpl. rewrite np_zeros_tensor_shape by done. subst g. simpl. by rewrite He.
Qed.

Lemma tensors_of_kind_cases self n_obs kind spec ms l :
  _nuisance_models self = Some ms → ms !! kind = Some l → (0 ≤ n_obs)%Z →
  if decide (Z.to_nat (cardinality spec self) ≤ length l)
  then ∃ ts, tensors_of_kind self n_obs kind spec = Ok ts
  else tensors_of_kind self n_obs kind spec = Raise IndexError.
Proof.
  intros Hms Hl Hn. case_decide as Hlen.
  - eexists. by apply (tensors_of_kind_Ok self n_obs kind spec ms l).
  - unfold tensors_of_kind. apply mapM_result_Raise.
    + intros ord Hord%elem_of_seqZ.
      destruct (decide (Z.to_nat ord < length l)) as [Hlt|Hge].
      * left. destruct (lookup_lt_is_Some_2 l (Z.to_nat ord)) as [e He]; [lia|].
        rewrite (dimension_in_range self n_obs kind ord _ ms l e) by (done || lia).
        simpl. rewrite np_zeros_tensor_shape by done. eauto.
      * right.
        rewrite (dimension_out_of_range self n_obs kind ord _ ms l) by (done || lia).
        done.
    + exists (Z.of_nat (length l)). split.
      * apply elem_of_seqZ. lia.
      * by rewrite (dimension_out_of_range self n_obs kind _ _ ms l) by (done || lia).
Qed.

Lemma fill_tensors_Ok self n_obs ms items acc :
  _nuisance_models self = Some ms → (0 ≤ n_obs)%Z →
  NoDup items.*1 →
  (∀ kind spec, (kind, spec) ∈ items →
     ∃ l, ms !! kind = Some l ∧ Z.to_nat (cardinality spec self) ≤ length l) →
  ∃ ts, fill_tensors self n_obs items acc = Ok ts
        ∧ ∀ kind,
            ts !! kind
            = match list_to_map (M:=gmap string _ModelSpecifications) items !! kind with
              | Some spec =>
                  (λ l, tensor_shape n_obs (predict_method spec self)
                          <$> take (Z.to_nat (cardinality spec self)) l)
                  <$> ms !! kind
              | None => acc !! kind
              end.
Proof.
  intros Hms Hn. revert acc. induction items as [|[kind spec] items IH];
    intros acc Hnodup Hall.
  { exists acc. split; [done|]. intros k. simpl. by rewrite lookup_empty. }
  simpl in *. apply NoDup_cons in Hnodup as [Hnotin Hnodup].
  destruct (Hall kind spec) as (l & Hl & Hlen); [by left|].
  rewrite (tensors_of_kind_Ok self n_obs kind spec ms l) by done. simpl.
  destruct (IH (<[kind := tensor_shape n_obs (predict_method spec self)
                           <$> take (Z.to_nat (cardinality spec self)) l]> acc)
              Hnodup) as (ts & Hrun & Hts).
  { intros k s Hks. apply (Hall k s). by right. }
  exists ts. split; [done|]. intros k. rewrite Hts.
  destruct (decide (kind = k)) as [<-|Hne].
  - rewrite lookup_insert_eq.
    rewrite (not_elem_of_list_to_map_1 (M:=gmap string) items kind Hnotin).
    by rewrite lookup_insert_eq, Hl.
  - rewrite !(lookup_insert_ne _ kind k) by done. done.
Qed.

Lemma fill_tensors_IndexError self n_obs ms items acc :
  _nuisance_models self = Some ms → (0 ≤ n_obs)%Z →
  (∀ kind spec, (kind, spec) ∈ items → is_Some (ms !! kind)) →
  (∃ kind spec l, (kind, spec) ∈ items ∧ ms !! kind = Some l
                  ∧ (Z.of_nat (length l) < cardinality spec self)%Z) →
  fill_tensors self n_obs items acc = Raise IndexError.
Proof.
  intros Hms Hn. revert acc. induction items as [|[kind spec] items IH];
    intros acc Hall (k0 & s0 & l0 & Hin & Hl0 & Hbad).
  { by apply elem_of_nil in Hin. }
  simpl. destruct (Hall kind spec) as [l Hl]; [by left|].
  pose proof (tensors_of_kind_cases self n_obs kind spec ms l Hms Hl Hn) as Hcase.
  case_decide as Hlen.
  - destruct Hcase as [ts ->]. simpl.
    apply IH; [intros k s Hks; apply (Hall k s); by right|].
    apply elem_of_cons in Hin as [[= -> ->]|Hin].
    + rewrite Hl in Hl0. injection Hl0 as <-. lia.
    + eauto 10.
  - by rewrite Hcase.
Qed.

(** X19. When [n_obs >= 0] and every nuisance kind of the registry has at
    least as many estimators as its cardinality asks for,
    [_nuisance_tensors] returns a dict whose keys are the registry's kinds;
    the entry of a kind has one tensor for each ordinal below the
    cardinality, of shape [(n_obs, n_outputs)] when the estimator's
    [_n_outputs] for the kind's predict method exceeds 1 and [(n_obs,)]
    otherwise. *)
Theorem nuisance_tensors_shapes (self : MetaLearner) (n_obs : Z) ms :
  _nuisance_models self = Some ms → (0 ≤ n_obs)%Z →
  (∀ kind spec, nuisance_model_specifications cls !! kind = Some spec →
     ∃ l, ms !! kind = Some l ∧ Z.to_nat (cardinality spec self) ≤ length l) →
  ∃ ts, _nuisance_tensors self n_obs = Ok ts
        ∧ dom ts = dom (nuisance_model_specifications cls)
        ∧ ∀ kind spec l,
            nuisance_model_specifications cls !! kind = Some spec →
            ms !! kind = Some l →
            ts !! kind
            = Some (tensor_shape n_obs (predict_method spec self)
                      <$> take (Z.to_nat (cardinality spec self)) l).
Proof.
  intros Hms Hn Hall. unfold _nuisance_tensors.
  destruct (fill_tensors_Ok self n_obs ms
              (map_to_list (nuisance_model_specifications cls)) ∅ Hms Hn)
    as (ts & Hrun & Hts).
  { apply NoDup_fst_map_to_list. }
  { intros kind spec Hin%elem_of_map_to_list. by apply Hall. }
  exists ts. split; [done|].
  assert (Hlook : ∀ kind,
    ts !! kind
    = match nuisance_model_specifications cls !! kind with
      | Some spec =>
          (λ l, tensor_shape n_obs (predict_method spec self)
                  <$> take (Z.to_nat (cardinality spec self)) l) <$> ms !! kind
      | None => None
      end).
  { intros kind. rewrite Hts, list_to_map_to_list. by rewrite lookup_empty. }
  split.
  - apply set_eq; intros kind. rewrite !elem_of_dom, Hlook.
    destruct (nuisance_model_specifications cls !! kind) as [spec|] eqn:Hspec.
    + destruct (Hall kind spec Hspec) as (l & -> & _). simpl. split; eauto.
    + split; by intros [? ?].
  - intros kind spec l Hspec Hl. by rewrite Hlook, Hspec, Hl.
Qed.

(** X20. When some kind's cardinality, evaluated on the instance as it is
    now, exceeds the number of estimators the instance holds for it (every
    registry kind being present), [_nuisance_tensors] raises
    [IndexError]. *)
Theorem nuisance_tensors_cardinality_grown (self : MetaLearner) (n_obs : Z) ms
  kind spec l :
  _nuisance_models self = Some ms → (0 ≤ n_obs)%Z →
  dom (nuisance_model_specifications cls) ⊆ dom ms →
  nuisance_model_specifications cls !! kind = Some spec →
  ms !! kind = Some l →
  (Z.of_nat (length l) < cardinality spec self)%Z →
  _nuisance_tensors self n_obs = Raise IndexError.
Proof.
  intros Hms Hn Hsub Hspec Hl Hbad. unfold _nuisance_tensors.
  apply (fill_tensors_IndexError self n_obs ms); try done.
  - intros k s Hin%elem_of_map_to_list. apply elem_of_dom, Hsub, elem_of_dom. eauto.
  - exists kind, spec, l. split_and!; try done. by apply elem_of_map_to_list.
Qed.


End TensorProperties.

End Further.

(** * The further properties on the concrete variant *)

(** Normalising [Ridge] for two names, and the result again. *)
Lemma initialize_model_dict_idempotent_witness :
  _initialize_model_dict (VType "Ridge") ["a"; "b"] ∅
  = (Ok (VRef 1), (_initialize_model_dict (VType "Ridge") ["a"; "b"] ∅).2)
  ∧ _initialize_model_dict (VRef 1) ["a"; "b"]
      (_initialize_model_dict (VType "Ridge") ["a"; "b"] ∅).2
    = (Ok (VRef 1), (_initialize_model_dict (VType "Ridge") ["a"; "b"] ∅).2).
Proof.
  assert (Hrun : _initialize_model_dict (VType "Ridge") ["a"; "b"] ∅
                 = (Ok (VRef 1),
                    (_initialize_model_dict (VType "Ridge") ["a"; "b"] ∅).2))
    by (vm_compute; reflexivity).
  split; [exact Hrun|].
  exact (initialize_model_dict_idempotent _ _ _ _ _ Hrun).
Defined.

(** The nuisance kinds of [Demo.DR], [Ridge] for the outcome models and
    [LogisticRegression] for the propensity model. *)
Lemma combine_key_set_witness :
  PROPENSITY_MODEL ∈ dom (nuisance_model_specifications Demo.DR)
  ∧ ∃ l d h',
      _combine_propensity_and_nuisance_specs (VType "LogisticRegression")
        (VType "Ridge") (dom (nuisance_model_specifications Demo.DR)) ∅
      = (Ok (VRef l), h')
      ∧ h' !! l = Some (ODict d)
      ∧ dom d = dom (nuisance_model_specifications Demo.DR)
      ∧ d !! PROPENSITY_MODEL = Some (VType "LogisticRegression").
Proof.
  assert (Hin : PROPENSITY_MODEL ∈ dom (nuisance_model_specifications Demo.DR))
    by compute_done.
  split; [exact Hin|].
  destruct (combine_key_set (VType "LogisticRegression") (VType "Ridge")
              (dom (nuisance_model_specifications Demo.DR)) ∅)
    as (l & d & h' & Hrun & Hl & Hdom & _ & Hp).
  exists l, d, h'.
  split_and!; [exact Hrun | exact Hl | exact Hdom | exact (proj2 (Hp Hin))].
Defined.

(** The dict at address 2 of [Cases.heap3] has both nuisance kinds of
    [Demo.DR] as keys; the outcome kind receives the dict itself. *)
Lemma combine_dict_with_propensity_key_witness :
  as_dict Cases.heap3 (VRef 2)
  = Some {[ "variant_outcome_model" := VType "Ridge";
            PROPENSITY_MODEL := VType "Ridge" ]}
  ∧ dom ({[ "variant_outcome_model" := VType "Ridge";
            PROPENSITY_MODEL := VType "Ridge" ]} : gmap string value)
    = dom (nuisance_model_specifications Demo.DR)
  ∧ PROPENSITY_MODEL ∈ dom (nuisance_model_specifications Demo.DR)
  ∧ ∃ v h' d,
      _combine_propensity_and_nuisance_specs (VType "LogisticRegression")
        (VRef 2) (dom (nuisance_model_specifications Demo.DR)) Cases.heap3
      = (Ok v, h')
      ∧ as_dict h' v = Some d
      ∧ d !! PROPENSITY_MODEL = Some (VType "LogisticRegression")
      ∧ d !! "variant_outcome_model" = Some (VRef 2).
Proof.
  assert (Hd : as_dict Cases.heap3 (VRef 2)
               = Some {[ "variant_outcome_model" := VType "Ridge";
                         PROPENSITY_MODEL := VType "Ridge" ]})
    by (vm_compute; reflexivity).
  assert (Hdom : dom ({[ "variant_outcome_model" := VType "Ridge";
                         PROPENSITY_MODEL := VType "Ridge" ]}
                        : gmap string value)
                 = dom (nuisance_model_specifications Demo.DR))
    by (vm_compute; reflexivity).
  assert (Hin : PROPENSITY_MODEL ∈ dom (nuisance_model_specifications Demo.DR))
    by compute_done.
  split_and!; [exact Hd | exact Hdom | exact Hin |].
  destruct (combine_dict_with_propensity_key (VType "LogisticRegression")
              (VRef 2) _ Cases.heap3 _ Hd Hdom Hin)
    as (v & h' & d & Hrun & Hv & Hp & Hall).
  exists v, h', d. split_and!; [exact Hrun | exact Hv | exact Hp |].
  apply Hall; compute_done.
Defined.



(** A vector with a repetition and the vector of its values in another
    order. *)
Lemma checks_depend_on_value_set_witness :
  list_to_set [0; 1; 1]%Z =@{gset Z} list_to_set [1; 0]%Z
  ∧ _check_treatment Demo.regression [0; 1; 1]%Z
    = _check_treatment Demo.regression [1; 0]%Z
  ∧ _check_outcome Demo.DR Demo.classification [0; 1; 1]%Z
    = _check_outcome Demo.DR Demo.classification [1; 0]%Z.
Proof.
  assert (Hset : list_to_set [0; 1; 1]%Z =@{gset Z} list_to_set [1; 0]%Z)
    by (vm_compute; reflexivity).
  split; [exact Hset|]. split.
  - exact (proj1 (checks_depend_on_value_set Demo.DR Demo.regression _ _ Hset)).
  - exact (proj2 (checks_depend_on_value_set Demo.DR Demo.classification _ _ Hset)).
Defined.

(** The instance built from [Demo.stray], after one fit. *)
Lemma constructed_n_variants_witness :
  new Demo.DR Demo.stray Demo.heap1 = (Ok (VRef 11), Demo.built)
  ∧ after_calls Demo.DR 11 Demo.first_fit Demo.built !! 11%positive
    = Some (OLearner (Demo.state Demo.fitted_once 11))
  ∧ ∃ n, Args.n_variants Demo.stray = VInt n
         ∧ n_variants (Demo.state Demo.fitted_once 11) = VInt n
         ∧ (2 ≤ n)%Z
         ∧ (_supports_multi_treatment Demo.DR = false → n = 2%Z)
         ∧ is_classification (Demo.state Demo.fitted_once 11)
           = Args.is_classification Demo.stray
         ∧ ∀ w, _check_treatment (Demo.state Demo.fitted_once 11) w = Ok ()
                ↔ encodes_variants w n.
Proof.
  assert (Hnew : new Demo.DR Demo.stray Demo.heap1 = (Ok (VRef 11), Demo.built))
    by (vm_compute; reflexivity).
  assert (Hm : after_calls Demo.DR 11 Demo.first_fit Demo.built !! 11%positive
               = Some (OLearner (Demo.state Demo.fitted_once 11)))
    by (vm_compute; reflexivity).
  split_and!; [exact Hnew | exact Hm |].
  exact (constructed_n_variants Demo.DR Demo.stray Demo.heap1 11 Demo.built
           Demo.first_fit _ Hnew Hm).
Defined.

(** [Demo.DR] has two variants only: three are refused, and the heap is
    as it was. *)
Lemma new_n_variants_rejected_witness :
  _validate_params Demo.DR ∅ Cases.three_variants = Ok ()
  ∧ ¬ propensity_misconfigured Demo.DR Cases.three_variants ∅
  ∧ ∃ e, _check_n_variants Demo.DR (Args.n_variants Cases.three_variants)
         = Raise e
         ∧ new Demo.DR Cases.three_variants ∅ = (Raise e, ∅).
Proof.
  assert (Hhook : _validate_params Demo.DR ∅ Cases.three_variants = Ok ())
    by reflexivity.
  assert (Hprop : ¬ propensity_misconfigured Demo.DR Cases.three_variants ∅).
  { intros [Ht|[(d & Hd & _)|[(d & Hd & _)|[_ Hf]]]].
    - revert Ht. compute_done.
    - cbv in Hd. discriminate Hd.
    - cbv in Hd. discriminate Hd.
    - cbv in Hf. discriminate Hf. }
  split_and!; [exact Hhook | exact Hprop |].
  destruct (_check_n_variants Demo.DR (Args.n_variants Cases.three_variants))
    as [[]|e] eqn:Hn.
  - vm_compute in Hn. discriminate Hn.
  - exists e. split; [reflexivity|].
    exact (new_n_variants_rejected Demo.DR Cases.three_variants ∅ e
             Hhook Hprop Hn).
Defined.

(** Zero folds are refused. *)
Lemma new_n_folds_rejected_witness :
  _validate_params Demo.DR ∅ Cases.no_folds = Ok ()
  ∧ ¬ propensity_misconfigured Demo.DR Cases.no_folds ∅
  ∧ _check_n_variants Demo.DR (Args.n_variants Cases.no_folds) = Ok ()
  ∧ validate_number_positive (Args.n_folds Cases.no_folds) "n_folds"
    = Raise (ValueError "n_folds was expected to be positive.")
  ∧ ∃ h', new Demo.DR Cases.no_folds ∅
          = (Raise (ValueError "n_folds was expected to be positive."), h').
Proof.
  assert (Hhook : _validate_params Demo.DR ∅ Cases.no_folds = Ok ())
    by reflexivity.
  assert (Hprop : ¬ propensity_misconfigured Demo.DR Cases.no_folds ∅).
  { intros [Ht|[(d & Hd & _)|[(d & Hd & _)|[_ Hf]]]].
    - revert Ht. compute_done.
    - cbv in Hd. discriminate Hd.
    - cbv in Hd. discriminate Hd.
    - cbv in Hf. discriminate Hf. }
  assert (Hn : _check_n_variants Demo.DR (Args.n_variants Cases.no_folds)
               = Ok ())
    by (vm_compute; reflexivity).
  assert (Hfolds : validate_number_positive (Args.n_folds Cases.no_folds)
                     "n_folds"
                   = Raise (ValueError "n_folds was expected to be positive."))
    by (vm_compute; reflexivity).
  split_and!; [exact Hhook | exact Hprop | exact Hn | exact Hfolds |].
  exact (new_n_folds_rejected Demo.DR Cases.no_folds ∅ _ Hhook Hprop Hn Hfolds).
Defined.

(** A construction that fails on a heap that holds an instance: no
    meta-learner is added, and what was there is as it was. *)
Lemma new_all_or_nothing_witness :
  new Demo.DR Cases.no_folds Demo.built
  = (Raise (ValueError "n_folds was expected to be positive."),
     (new Demo.DR Cases.no_folds Demo.built).2)
  ∧ Demo.built ⊆ (new Demo.DR Cases.no_folds Demo.built).2
  ∧ ∀ l m, (new Demo.DR Cases.no_folds Demo.built).2 !! l = Some (OLearner m) →
           Demo.built !! l = Some (OLearner m).
Proof.
  assert (Hnew : new Demo.DR Cases.no_folds Demo.built
                 = (Raise (ValueError "n_folds was expected to be positive."),
                    (new Demo.DR Cases.no_folds Demo.built).2))
    by (vm_compute; reflexivity).
  split; [exact Hnew|].
  exact (new_all_or_nothing Demo.DR Cases.no_folds Demo.built _ _ Hnew).
Defined.

(** The dict of [Cases.heap2] has the treatment kind of [Demo.DR] as its
    key: the instance holds that very dict. *)
Lemma exact_dicts_kept_by_reference_witness :
  new Demo.DR Cases.own_dict Cases.heap2
  = (Ok (VRef 10), (new Demo.DR Cases.own_dict Cases.heap2).2)
  ∧ has_keys Cases.heap2 (Args.treatment_model_factory Cases.own_dict)
      (dom (treatment_model_specifications Demo.DR))
  ∧ ∃ m, (new Demo.DR Cases.own_dict Cases.heap2).2 !! 10%positive
         = Some (OLearner m)
         ∧ treatment_model_factory m = VRef 1
         ∧ ∃ l, nuisance_model_factory m = VRef l ∧ Cases.heap2 !! l = None.
Proof.
  assert (Hnew : new Demo.DR Cases.own_dict Cases.heap2
                 = (Ok (VRef 10), (new Demo.DR Cases.own_dict Cases.heap2).2))
    by (vm_compute; reflexivity).
  assert (Hkeys : has_keys Cases.heap2
                    (Args.treatment_model_factory Cases.own_dict)
                    (dom (treatment_model_specifications Demo.DR))).
  { eexists. split; [reflexivity | vm_compute; reflexivity]. }
  assert (Hin : PROPENSITY_MODEL ∈ dom (nuisance_model_specifications Demo.DR))
    by compute_done.
  split_and!; [exact Hnew | exact Hkeys |].
  destruct (exact_dicts_kept_by_reference Demo.DR Cases.own_dict Cases.heap2
              10 _ Hnew)
    as (m & Hm & Htf & _ & _ & _ & Hp).
  exists m. split_and!; [exact Hm | exact (Htf Hkeys) | exact (proj1 (Hp Hin))].
Defined.

(** [Demo.plain] gives no parameters: the treatment kind's parameters are
    a new empty dict. *)
Lemma default_params_are_one_empty_dict_witness :
  new Demo.DR Demo.plain ∅ = (Ok (VRef 10), Cases.fresh)
  ∧ Args.treatment_model_params Demo.plain = VNone
  ∧ ∃ m l,
      Cases.fresh !! 10%positive = Some (OLearner m)
      ∧ Cases.fresh !! l = Some (ODict ∅)
      ∧ ∀ kind, kind ∈ dom (treatment_model_specifications Demo.DR) →
                dict_getitem Cases.fresh (treatment_model_params m) kind
                = Ok (VRef l).
Proof.
  assert (Hnew : new Demo.DR Demo.plain ∅ = (Ok (VRef 10), Cases.fresh))
    by (vm_compute; reflexivity).
  assert (Hnone : Args.treatment_model_params Demo.plain = VNone)
    by reflexivity.
  split_and!; [exact Hnew | exact Hnone |].
  destruct (default_params_are_one_empty_dict Demo.DR Demo.plain ∅ 10 _ Hnew)
    as (m & Hm & Ht & _).
  destruct (Ht Hnone) as (l & _ & Hl & Hall).
  exists m, l. split_and!; [exact Hm | exact Hl | exact Hall].
Defined.

(** The instance of [Demo.built] under one fit. *)
Lemma calls_keep_configuration_witness :
  Demo.built !! 11%positive = Some (OLearner (Demo.state Demo.built 11))
  ∧ ∃ m', after_calls Demo.DR 11 Demo.first_fit Demo.built !! 11%positive
          = Some (OLearner m')
          ∧ same_configuration (Demo.state Demo.built 11) m'
          ∧ (∀ f, shape (models f m')
                  = shape (models f (Demo.state Demo.built 11)))
          ∧ ∀ l, l ≠ 11%positive →
                 after_calls Demo.DR 11 Demo.first_fit Demo.built !! l
                 = Demo.built !! l.
Proof.
  assert (Hm : Demo.built !! 11%positive
               = Some (OLearner (Demo.state Demo.built 11)))
    by (vm_compute; reflexivity).
  split; [exact Hm|].
  exact (calls_keep_configuration Demo.DR 11 Demo.first_fit Demo.built _ Hm).
Defined.

(** [Demo.DR] declares no kind [outcome_model]. *)
Lemma fit_undeclared_kind_witness :
  new Demo.DR Demo.stray Demo.heap1 = (Ok (VRef 11), Demo.built)
  ∧ ("outcome_model" ∉ dom (nuisance_model_specifications Demo.DR)
                       ∪ dom (treatment_model_specifications Demo.DR))
  ∧ fit Nuisance 11 ["a"; "b"] [0; 1]%Z "outcome_model" 0 VNone
      (after_calls Demo.DR 11 Demo.first_fit Demo.built)
    = (Raise (KeyError "outcome_model"),
       after_calls Demo.DR 11 Demo.first_fit Demo.built).
Proof.
  assert (Hnew : new Demo.DR Demo.stray Demo.heap1 = (Ok (VRef 11), Demo.built))
    by (vm_compute; reflexivity).
  assert (Hkind : "outcome_model"
                  ∉ dom (nuisance_model_specifications Demo.DR)
                    ∪ dom (treatment_model_specifications Demo.DR))
    by compute_done.
  split_and!; [exact Hnew | exact Hkind |].
  exact (fit_undeclared_kind Demo.DR Demo.stray Demo.heap1 11 Demo.built
           Demo.first_fit Nuisance ["a"; "b"] [0; 1]%Z "outcome_model" 0 VNone
           Hnew Hkind).
Defined.

(** The instance of [Demo.built] has two outcome models: there is none at
    ordinal 2. *)
Lemma fit_ordinal_out_of_range_witness :
  Demo.built !! 11%positive = Some (OLearner (Demo.state Demo.built 11))
  ∧ models Nuisance (Demo.state Demo.built 11) = Some Cases.nuisance_models
  ∧ Cases.nuisance_models !! "variant_outcome_model" = Some Cases.outcome_models
  ∧ ¬ (- Z.of_nat (length Cases.outcome_models) ≤ 2
       < Z.of_nat (length Cases.outcome_models))%Z
  ∧ fit Nuisance 11 ["a"; "b"] [0; 1]%Z "variant_outcome_model" 2 VNone
      Demo.built
    = ((X_filtered 11 ["a"; "b"] "variant_outcome_model" Demo.built).1
         ≫= λ _, Raise IndexError,
       Demo.built).
Proof.
  assert (Hm : Demo.built !! 11%positive
               = Some (OLearner (Demo.state Demo.built 11)))
    by (vm_compute; reflexivity).
  assert (Hms : models Nuisance (Demo.state Demo.built 11)
                = Some Cases.nuisance_models)
    by (vm_compute; reflexivity).
  assert (Hl : Cases.nuisance_models !! "variant_outcome_model"
               = Some Cases.outcome_models)
    by (vm_compute; reflexivity).
  assert (Hord : ¬ (- Z.of_nat (length Cases.outcome_models) ≤ 2
                    < Z.of_nat (length Cases.outcome_models))%Z)
    by compute_done.
  split_and!; [exact Hm | exact Hms | exact Hl | exact Hord |].
  exact (fit_ordinal_out_of_range Nuisance 11 ["a"; "b"] [0; 1]%Z
           "variant_outcome_model" 2 VNone Demo.built _ _ _ Hm Hms Hl Hord).
Defined.

(** Ordinal -1 is the second of the two outcome models. *)
Lemma negative_ordinal_counts_from_end_witness :
  Demo.built !! 11%positive = Some (OLearner (Demo.state Demo.built 11))
  ∧ models Nuisance (Demo.state Demo.built 11) = Some Cases.nuisance_models
  ∧ Cases.nuisance_models !! "variant_outcome_model" = Some Cases.outcome_models
  ∧ (- Z.of_nat (length Cases.outcome_models) ≤ -1 < 0)%Z
  ∧ fit Nuisance 11 ["a"; "b"] [0; 1]%Z "variant_outcome_model" (-1) VNone
      Demo.built
    = fit Nuisance 11 ["a"; "b"] [0; 1]%Z "variant_outcome_model"
        (Z.of_nat (length Cases.outcome_models) + -1) VNone Demo.built
  ∧ predict_nuisance Demo.DR 11 ["a"; "b"] "variant_outcome_model" (-1) false
      VNone Demo.built
    = predict_nuisance Demo.DR 11 ["a"; "b"] "variant_outcome_model"
        (Z.of_nat (length Cases.outcome_models) + -1) false VNone Demo.built.
Proof.
  assert (Hm : Demo.built !! 11%positive
               = Some (OLearner (Demo.state Demo.built 11)))
    by (vm_compute; reflexivity).
  assert (Hms : models Nuisance (Demo.state Demo.built 11)
                = Some Cases.nuisance_models)
    by (vm_compute; reflexivity).
  assert (Hl : Cases.nuisance_models !! "variant_outcome_model"
               = Some Cases.outcome_models)
    by (vm_compute; reflexivity).
  assert (Hord : (- Z.of_nat (length Cases.outcome_models) ≤ -1 < 0)%Z)
    by compute_done.
  refine (conj Hm (conj Hms (conj Hl (conj Hord (conj _ _))))).
  - exact (proj1 (negative_ordinal_counts_from_end Demo.DR Nuisance 11
                    ["a"; "b"] [0; 1]%Z "variant_outcome_model" (-1) VNone
                    false VNone Demo.built _ _ _ Hm Hms Hl Hord)).
  - exact (proj2 (proj2 (negative_ordinal_counts_from_end Demo.DR Nuisance 11
                           ["a"; "b"] [0; 1]%Z "variant_outcome_model" (-1)
                           VNone false VNone Demo.built _ _ _ Hm Hms Hl Hord))
             eq_refl).
Defined.

(** Fitting the two outcome models of the instance of [Demo.built], in
    either order. *)
Lemma fits_commute_witness :
  Demo.built !! 11%positive = Some (OLearner (Demo.state Demo.built 11))
  ∧ (0 ≤ 0)%Z
  ∧ estimator Nuisance (Demo.state Demo.built 11) "variant_outcome_model"
      (Z.to_nat 0)
    = Some (default Demo.blank
              (estimator Nuisance (Demo.state Demo.built 11)
                 "variant_outcome_model" 0))
  ∧ (0 ≤ 1)%Z
  ∧ estimator Nuisance (Demo.state Demo.built 11) "variant_outcome_model"
      (Z.to_nat 1)
    = Some (default Demo.blank
              (estimator Nuisance (Demo.state Demo.built 11)
                 "variant_outcome_model" 1))
  ∧ (Nuisance, "variant_outcome_model", Z.to_nat 0)
    ≠ (Nuisance, "variant_outcome_model", Z.to_nat 1)
  ∧ (fit Nuisance 11 ["a"] [1; 0]%Z "variant_outcome_model" 1 VNone
       (fit Nuisance 11 ["a"; "b"] [0; 1]%Z "variant_outcome_model" 0 VNone
          Demo.built).2).2
    = (fit Nuisance 11 ["a"; "b"] [0; 1]%Z "variant_outcome_model" 0 VNone
         (fit Nuisance 11 ["a"] [1; 0]%Z "variant_outcome_model" 1 VNone
            Demo.built).2).2.
Proof.
  assert (Hm : Demo.built !! 11%positive
               = Some (OLearner (Demo.state Demo.built 11)))
    by (vm_compute; reflexivity).
  assert (H0 : (0 ≤ 0)%Z) by lia.
  assert (He0 : estimator Nuisance (Demo.state Demo.built 11)
                  "variant_outcome_model" (Z.to_nat 0)
                = Some (default Demo.blank
                          (estimator Nuisance (Demo.state Demo.built 11)
                             "variant_outcome_model" 0)))
    by (vm_compute; reflexivity).
  assert (H1 : (0 ≤ 1)%Z) by lia.
  assert (He1 : estimator Nuisance (Demo.state Demo.built 11)
                  "variant_outcome_model" (Z.to_nat 1)
                = Some (default Demo.blank
                          (estimator Nuisance (Demo.state Demo.built 11)
                             "variant_outcome_model" 1)))
    by (vm_compute; reflexivity).
  assert (Hne : (Nuisance, "variant_outcome_model", Z.to_nat 0)
                ≠ (Nuisance, "variant_outcome_model", Z.to_nat 1))
    by compute_done.
  split_and!; [exact Hm | exact H0 | exact He0 | exact H1 | exact He1
               | exact Hne |].
  exact (proj1 (fits_commute 11 Demo.built _
                  Nuisance ["a"; "b"] [0; 1]%Z "variant_outcome_model" 0 VNone _
                  Nuisance ["a"] [1; 0]%Z "variant_outcome_model" 1 VNone _
                  Hm H0 He0 H1 He1 Hne)).
Defined.

(** The propensity model of [Demo.DR] is declared with [predict_proba]. *)
Lemma predict_dispatch_witness :
  Demo.built !! 11%positive = Some (OLearner (Demo.state Demo.built 11))
  ∧ (0 ≤ 0)%Z
  ∧ estimator Nuisance (Demo.state Demo.built 11) PROPENSITY_MODEL (Z.to_nat 0)
    = Some (default Demo.blank
              (estimator Nuisance (Demo.state Demo.built 11)
                 PROPENSITY_MODEL 0))
  ∧ nuisance_model_specifications Demo.DR !! PROPENSITY_MODEL
    = Some Demo.one_classifier
  ∧ predict_nuisance Demo.DR 11 ["a"; "b"] PROPENSITY_MODEL 0 false VNone
      Demo.built
    = match (X_filtered 11 ["a"; "b"] PROPENSITY_MODEL Demo.built).1 with
      | Raise err => (Raise err, Demo.built)
      | Ok X' =>
          let e := default Demo.blank
                     (estimator Nuisance (Demo.state Demo.built 11)
                        PROPENSITY_MODEL 0) in
          ((cfe_predict_proba e X' false VNone).2,
           <[11%positive :=
               OLearner
                 (with_estimator Nuisance (Demo.state Demo.built 11)
                    PROPENSITY_MODEL (Z.to_nat 0)
                    (cfe_predict_proba e X' false VNone).1)]> Demo.built)
      end.
Proof.
  assert (Hm : Demo.built !! 11%positive
               = Some (OLearner (Demo.state Demo.built 11)))
    by (vm_compute; reflexivity).
  assert (H0 : (0 ≤ 0)%Z) by lia.
  assert (He : estimator Nuisance (Demo.state Demo.built 11) PROPENSITY_MODEL
                 (Z.to_nat 0)
               = Some (default Demo.blank
                         (estimator Nuisance (Demo.state Demo.built 11)
                            PROPENSITY_MODEL 0)))
    by (vm_compute; reflexivity).
  assert (Hspec : nuisance_model_specifications Demo.DR !! PROPENSITY_MODEL
                  = Some Demo.one_classifier)
    by (vm_compute; reflexivity).
  split_and!; [exact Hm | exact H0 | exact He | exact Hspec |].
  exact (proj1 (proj2 (predict_dispatch Demo.DR 11 ["a"; "b"] PROPENSITY_MODEL
                         0 false VNone Demo.built _ Hm H0))
           _ _ He Hspec).
Defined.

(** The instance of [Demo.built], five observations: one tensor with two
    columns for the propensity model, two flat tensors for the outcome
    models. *)
Lemma nuisance_tensors_shapes_witness :
  _nuisance_models (Demo.state Demo.built 11) = Some Cases.nuisance_models
  ∧ (0 ≤ 5)%Z
  ∧ (∀ kind spec,
       nuisance_model_specifications Demo.DR !! kind = Some spec →
       ∃ l, Cases.nuisance_models !! kind = Some l
            ∧ Z.to_nat (cardinality spec (Demo.state Demo.built 11)) ≤ length l)
  ∧ ∃ ts,
      _nuisance_tensors Cases.n_outputs Demo.DR (Demo.state Demo.built 11) 5
      = Ok ts
      ∧ dom ts = dom (nuisance_model_specifications Demo.DR)
      ∧ ts !! PROPENSITY_MODEL = Some [[5; 2]%Z]
      ∧ ts !! "variant_outcome_model" = Some [[5]%Z; [5]%Z].
Proof.
  assert (Hms : _nuisance_models (Demo.state Demo.built 11)
                = Some Cases.nuisance_models)
    by (vm_compute; reflexivity).
  assert (Hobs : (0 ≤ 5)%Z) by lia.
  assert (Hp : Cases.nuisance_models !! PROPENSITY_MODEL
               = Some (default [] (Cases.nuisance_models !! PROPENSITY_MODEL)))
    by (vm_compute; reflexivity).
  assert (Ho : Cases.nuisance_models !! "variant_outcome_model"
               = Some Cases.outcome_models)
    by (vm_compute; reflexivity).
  assert (Hsp : nuisance_model_specifications Demo.DR !! PROPENSITY_MODEL
                = Some Demo.one_classifier)
    by (vm_compute; reflexivity).
  assert (Hso : nuisance_model_specifications Demo.DR !! "variant_outcome_model"
                = Some Demo.model_per_variant)
    by (vm_compute; reflexivity).
  assert (Hall : ∀ kind spec,
            nuisance_model_specifications Demo.DR !! kind = Some spec →
            ∃ l, Cases.nuisance_models !! kind = Some l
                 ∧ Z.to_nat (cardinality spec (Demo.state Demo.built 11))
                   ≤ length l).
  { intros kind spec Hspec.
    change (nuisance_model_specifications Demo.DR)
      with (<[PROPENSITY_MODEL := Demo.one_classifier]>
              ({[ "variant_outcome_model" := Demo.model_per_variant ]}
                 : gmap string _ModelSpecifications)) in Hspec.
    apply lookup_insert_Some in Hspec as [[Hk Hs]|[_ Hspec]].
    - subst kind spec. eexists. split; [exact Hp | compute_done].
    - apply lookup_singleton_Some in Hspec as [Hk Hs].
      subst kind spec. eexists. split; [exact Ho | compute_done]. }
  split_and!; [exact Hms | exact Hobs | exact Hall |].
  destruct (nuisance_tensors_shapes Demo.DR Cases.n_outputs
              (Demo.state Demo.built 11) 5 _ Hms Hobs Hall)
    as (ts & Hrun & Hdom & Hshape).
  exists ts. split_and!; [exact Hrun | exact Hdom | |].
  - etrans; [exact (Hshape _ _ _ Hsp Hp) | vm_compute; reflexivity].
  - etrans; [exact (Hshape _ _ _ Hso Ho) | vm_compute; reflexivity].
Defined.

(** With [n_variants] set to 3 the registry asks for three outcome
    models; the instance has two. *)
Lemma nuisance_tensors_cardinality_grown_witness :
  _nuisance_models Cases.grown = Some Cases.nuisance_models
  ∧ (0 ≤ 5)%Z
  ∧ dom (nuisance_model_specifications Demo.DR) ⊆ dom Cases.nuisance_models
  ∧ nuisance_model_specifications Demo.DR !! "variant_outcome_model"
    = Some Demo.model_per_variant
  ∧ Cases.nuisance_models !! "variant_outcome_model" = Some Cases.outcome_models
  ∧ (Z.of_nat (length Cases.outcome_models)
     < cardinality Demo.model_per_variant Cases.grown)%Z
  ∧ _nuisance_tensors Cases.n_outputs Demo.DR Cases.grown 5 = Raise IndexError.
Proof.
  assert (Hms : _nuisance_models Cases.grown = Some Cases.nuisance_models)
    by (vm_compute; reflexivity).
  assert (Hobs : (0 ≤ 5)%Z) by lia.
  assert (Hdom : dom (nuisance_model_specifications Demo.DR)
                 ⊆ dom Cases.nuisance_models)
    by compute_done.
  assert (Hso : nuisance_model_specifications Demo.DR !! "variant_outcome_model"
                = Some Demo.model_per_variant)
    by (vm_compute; reflexivity).
  assert (Ho : Cases.nuisance_models !! "variant_outcome_model"
               = Some Cases.outcome_models)
    by (vm_compute; reflexivity).
  assert (Hlt : (Z.of_nat (length Cases.outcome_models)
                 < cardinality Demo.model_per_variant Cases.grown)%Z)
    by compute_done.
  split_and!; [exact Hms | exact Hobs | exact Hdom | exact Hso | exact Ho
               | exact Hlt |].
  exact (nuisance_tensors_cardinality_grown Demo.DR Cases.n_outputs Cases.grown
           5 _ _ _ _ Hms Hobs Hdom Hso Ho Hlt).
Defined.
